(** * flow: manifest filter, release naming and the per-manifest processing loop

    A shallow embedding of package [flow] of sakajunquality/flow.  Two
    revisions of [process.go] are embedded side by side:

    - [Process]  : [src/flow/process.go]    (branches [rollout/...], rewrite
                   rules with named capture groups, no retry around the commit);
    - [Part000]  : [src/unnamed/part_000]   (branches [release/...], plain
                   replacement rules, the commit wrapped in [retry.Do]).

    Go strings are [string]s (sequences of bytes), Go slices are [list]s, a
    Go map used as a set is a [gset], the package-level variable [cfg], set
    once by [New], is an explicit argument, and
    every call that leaves the process (GitHub, Slack, the log, [time.Sleep])
    goes through a small monad that threads the remote world and records the
    call, with its result, in a trace. *)

From Stdlib Require Import String Ascii List ZArith Lia Bool Arith.
From Stdlib Require Import DecimalString.
From stdpp Require Import gmap strings.
Import ListNotations.

Local Open Scope list_scope.

(* stdpp blocks the unfolding of string concatenation by simpl; the
   proofs below compute with it. *)
#[local] Arguments String.append !s1 s2 : simpl nomatch.

(** ** Go runtime: strings, errors, durations *)

Module Go.

(** [strings.HasPrefix(s, prefix)] *)
Definition HasPrefix (s prefix : string) : bool := String.prefix prefix s.

(** [strings.Contains(s, substr)] *)
Fixpoint Contains (s substr : string) : bool :=
  String.prefix substr s ||
  match s with
  | EmptyString => false
  | String _ t => Contains t substr
  end.

(** [fmt.Sprintf("%d", n)] for a non-negative [n] *)
Definition itoa (n : nat) : string := NilEmpty.string_of_uint (Nat.to_uint n).

(** [strings.Join(elems, sep)] *)
Fixpoint Join (elems : list string) (sep : string) : string :=
  match elems with
  | [] => ""
  | [e] => e
  | e :: rest => e +:+ sep +:+ Join rest sep
  end.

Definition newline : string := String (ascii_of_nat 10) EmptyString.

(** [fmt.Sprintf(format, args...)] for formats whose only verb is [%s] and
    string arguments, one per verb; a verb without an argument prints as Go
    does. *)
Fixpoint Sprintf (format : string) (args : list string) : string :=
  match format with
  | String "%" (String "s" rest) =>
      match args with
      | a :: args' => a +:+ Sprintf rest args'
      | [] => "%!s(MISSING)" +:+ Sprintf rest []
      end
  | String c rest => String c (Sprintf rest args)
  | EmptyString => EmptyString
  end.

(** The [error] interface.  Two implementations reach this package:
    [errors.New] and the error log [retry.Error] of avast/retry-go. *)
#[warnings="-register-all"]
Inductive error : Type :=
| errors_New (text : string)
| retry_Error (errorLog : list error).

(** [err.Error()]; for [retry.Error] the library prints
    [All attempts fail:] followed by one numbered line per attempt. *)
Fixpoint Error (e : error) : string :=
  match e with
  | errors_New text => text
  | retry_Error errorLog =>
      "All attempts fail:" +:+ newline +:+
      Join ((fix number (i : nat) (l : list error) : list string :=
               match l with
               | [] => []
               | e' :: l' => ("#" +:+ itoa i +:+ ": " +:+ Error e') :: number (S i) l'
               end) 1 errorLog) newline
  end.

(** [time.Duration]: a count of nanoseconds in an [int64]. *)
Definition Duration := Z.
Definition Nanosecond : Duration := 1%Z.
Definition Second : Duration := 1000000000%Z.

(** Multiplication of two [int64] values, with wrap-around. *)
Definition int64_mul (a b : Z) : Z :=
  ((a * b + 2 ^ 63) mod 2 ^ 64 - 2 ^ 63)%Z.

End Go.

(** ** Monad for calls that leave the process *)

Module Eff.

(** An argument handed to [log.Printf]. *)
Inductive arg : Type :=
| AStr (s : string)
| AErr (e : Go.error).

Section Monad.
Context {Event World : Type}.

(** What running a piece of code from a given world yields: its result, the
    world it leaves and the calls it made, oldest first. *)
Record Run (A : Type) : Type := mkRun {
  result : A;
  world : World;
  trace : list Event
}.
Arguments mkRun {A}.
Arguments result {A}.
Arguments world {A}.
Arguments trace {A}.

Definition M (A : Type) : Type := World -> Run A.

Definition ret {A} (a : A) : M A := fun w => mkRun a w [].

Definition bind {A B} (m : M A) (f : A -> M B) : M B :=
  fun w =>
    let r1 := m w in
    let r2 := f (result r1) (world r1) in
    mkRun (result r2) (world r2) (trace r1 ++ trace r2).

(** A call: it acts on the world and is recorded together with its result. *)
Definition call {A} (ev : A -> Event) (op : World -> A * World) : M A :=
  fun w => let (a, w') := op w in mkRun a w' [ev a].

(** A call with no result and no effect on the world the model tracks
    (a log line, a sleep). *)
Definition emit (ev : Event) : M unit :=
  call (fun _ => ev) (fun w => (tt, w)).

(** [for _, x := range l { acc = body(x, acc) }] *)
Fixpoint for_range {A B} (l : list A) (body : A -> B -> M B) (acc : B) : M B :=
  match l with
  | [] => ret acc
  | x :: l' => bind (body x acc) (for_range l' body)
  end.
End Monad.

Arguments Run : clear implicits.
Arguments M : clear implicits.
Arguments mkRun {Event World A}.
Arguments result {Event World A}.
Arguments world {Event World A}.
Arguments trace {Event World A}.

End Eff.

(** The monad is used through stdpp's [mret] and [x ← m; k]. *)
#[export] Instance M_ret {Event World} : MRet (Eff.M Event World) :=
  fun A a => Eff.ret a.
#[export] Instance M_bind {Event World} : MBind (Eff.M Event World) :=
  fun A B f m => Eff.bind m f.

(** ** Configuration types shared by both revisions *)

Module Config.

(** [Filters]: version-prefix gates of a manifest. *)
Record Filters : Type := {
  IncludePrefixes : list string;
  ExcludePrefixes : list string
}.

Record GitAuthor : Type := {
  Name : string;
  Email : string
}.

End Config.

(** ** Package gitbot: the data handed to it *)

Module gitbot.

Record Repo : Type := {
  SourceOwner : string;
  SourceRepo : string;
  BaseBranch : string;
  CommitBranch : string
}.

Record Author : Type := {
  Name : string;
  Email : string
}.

End gitbot.

(** ** github.com/dlclark/regexp2, for the constructs the patterns of this
    package are written in

    The engine works on the characters of the input.  The patterns of this
    package name ASCII characters only and [.] stops at the line feed only,
    so that on UTF-8 text matching byte by byte and matching character by
    character find the same matches. *)

Module regexp2.

(** [regexp2.Match]: the matched text and the captures of its named groups. *)
Record Match : Type := {
  text : string;
  groups : list (string * string)
}.

(** [m.GroupByName(name).String()]; every pattern of this package declares
    the group it asks for. *)
Fixpoint lookup_group (name : string) (gs : list (string * string)) : string :=
  match gs with
  | [] => ""
  | (n, captured) :: gs' => if String.eqb n name then captured else lookup_group name gs'
  end.

Definition GroupByName (m : Match) (name : string) : string :=
  lookup_group name (groups m).

(** Syntax trees of patterns. *)
Inductive regex : Type :=
| Empty                                        (* the empty pattern *)
| Char (c : ascii)                             (* a literal character *)
| AnyChar                                      (* [.]: any character but a line feed *)
| Concat (r1 r2 : regex)                       (* r1r2 *)
| Alternate (r1 r2 : regex)                    (* r1|r2, r1 tried first *)
| Star (r : regex)                             (* r*, greedy *)
| NegLookahead (r : regex)                     (* (?!r) *)
| Capture (name : option string) (r : regex).  (* (r) and (?<name>r) *)

(** [r+] *)
Definition Plus (r : regex) : regex := Concat r (Star r).

Definition line_feed : ascii := ascii_of_nat 10.

Definition captures := list (string * string).

(** The text consumed between the input [s] and its suffix [s']. *)
Definition consumed (s s' : string) : string :=
  substring 0 (String.length s - String.length s') s.

(** The rounds of a greedy repetition: [step] matches the repeated pattern
    once; a further round is tried first, and only when the last round
    consumed input; when no further round leads to a match the input goes to
    the continuation [k] as it is.  [n] bounds the rounds by the length of
    the input. *)
Fixpoint rounds {A : Type}
    (step : string -> captures -> (string -> captures -> option A) -> option A)
    (k : string -> captures -> option A) (n : nat) (s : string) (cs : captures)
    : option A :=
  match n with
  | 0 => k s cs
  | S n' =>
      match step s cs
              (fun s' cs' =>
                 if String.length s' <? String.length s
                 then rounds step k n' s' cs' else None) with
      | Some a => Some a
      | None => k s cs
      end
  end.

(** Backtracking matcher in continuation-passing style: [backtrack r s cs k]
    matches [r] at the start of [s] and hands the rest of the input and the
    captures to [k]; when [k] fails the next alternative of [r] is tried, in
    the order a backtracking engine tries them (left alternative first,
    longest repetition first).  Captures made inside a negative lookahead
    are dropped. *)
Fixpoint backtrack (r : regex) {A : Type} (s : string) (cs : captures)
    (k : string -> captures -> option A) {struct r} : option A :=
  match r with
  | Empty => k s cs
  | Char c =>
      match s with
      | String c' s' => if Ascii.eqb c' c then k s' cs else None
      | EmptyString => None
      end
  | AnyChar =>
      match s with
      | String c' s' => if Ascii.eqb c' line_feed then None else k s' cs
      | EmptyString => None
      end
  | Concat r1 r2 => backtrack r1 s cs (fun s' cs' => backtrack r2 s' cs' k)
  | Alternate r1 r2 =>
      match backtrack r1 s cs k with
      | Some a => Some a
      | None => backtrack r2 s cs k
      end
  | Star r0 => rounds (fun s' cs' k' => backtrack r0 s' cs' k') k (String.length s) s cs
  | NegLookahead r0 =>
      match backtrack r0 s cs (fun _ _ => Some tt) with
      | Some _ => None
      | None => k s cs
      end
  | Capture name r0 =>
      backtrack r0 s cs
        (fun s' cs' =>
           match name with
           | Some n => k s' ((n, consumed s s') :: cs')
           | None => k s' cs'
           end)
  end.

(** The match of [r] that starts at the first character of [s], if any:
    its length and its named captures. *)
Definition match_here (r : regex) (s : string) : option (nat * captures) :=
  backtrack r s [] (fun s' cs => Some (String.length s - String.length s', cs)).

Definition to_Match (s : string) (found : nat * captures) : Match :=
  {| text := substring 0 (fst found) s; groups := snd found |}.

(** [re.ReplaceFunc(input, evaluator, -1, -1)]: scan the input from left to
    right, replace every match by what the evaluator answers and resume
    after the match (one character further after an empty match).
    [skip] counts the characters of the current match still to be dropped. *)
Fixpoint replace_from (r : regex) (evaluator : Match -> string) (skip : nat) (s : string)
    : string :=
  match s with
  | EmptyString =>
      match skip, match_here r s with
      | 0, Some found => evaluator (to_Match s found)
      | _, _ => ""
      end
  | String c t =>
      match skip with
      | S skip' => replace_from r evaluator skip' t
      | 0 =>
          match match_here r s with
          | Some (0 as len, cs) =>
              evaluator (to_Match s (len, cs)) +:+ String c (replace_from r evaluator 0 t)
          | Some (S len' as len, cs) =>
              evaluator (to_Match s (len, cs)) +:+ replace_from r evaluator len' t
          | None => String c (replace_from r evaluator 0 t)
          end
      end
  end.

Definition ReplaceFunc (r : regex) (input : string) (evaluator : Match -> string) : string :=
  replace_from r evaluator 0 input.

(** *** Reading a pattern *)

Definition is_meta (c : ascii) : bool :=
  existsb (Ascii.eqb c) (list_ascii_of_string "()|*+.?[]{}^$\").

Fixpoint read_name (s : string) : option (string * string) :=
  match s with
  | EmptyString => None
  | String ">" rest => Some ("", rest)
  | String c rest =>
      match read_name rest with
      | Some (name, rest') => Some (String c name, rest')
      | None => None
      end
  end.

Definition quantified (r : regex) (rest : string) : regex * string :=
  match rest with
  | String "*" rest' => (Star r, rest')
  | String "+" rest' => (Plus r, rest')
  | _ => (r, rest)
  end.

(** Recursive descent over the pattern text: alternation, sequence, item.
    [fuel] bounds the depth of the descent. *)
Fixpoint parse_alternation (fuel : nat) (s : string) : option (regex * string) :=
  match fuel with
  | 0 => None
  | S fuel' =>
      match parse_sequence fuel' s with
      | Some (r1, String "|" rest) =>
          match parse_alternation fuel' rest with
          | Some (r2, rest') => Some (Alternate r1 r2, rest')
          | None => None
          end
      | other => other
      end
  end
with parse_sequence (fuel : nat) (s : string) : option (regex * string) :=
  match fuel with
  | 0 => None
  | S fuel' =>
      match s with
      | EmptyString => Some (Empty, s)
      | String "|" _ => Some (Empty, s)
      | String ")" _ => Some (Empty, s)
      | _ =>
          match parse_item fuel' s with
          | Some (r1, rest) =>
              match parse_sequence fuel' rest with
              | Some (r2, rest') => Some (Concat r1 r2, rest')
              | None => None
              end
          | None => None
          end
      end
  end
with parse_item (fuel : nat) (s : string) : option (regex * string) :=
  match fuel with
  | 0 => None
  | S fuel' =>
      match s with
      | EmptyString => None
      | String "." rest => Some (quantified AnyChar rest)
      | String "(" (String "?" (String "!" rest)) =>
          match parse_alternation fuel' rest with
          | Some (r, String ")" rest') => Some (quantified (NegLookahead r) rest')
          | _ => None
          end
      | String "(" (String "?" (String "<" rest)) =>
          match read_name rest with
          | Some (name, rest1) =>
              match parse_alternation fuel' rest1 with
              | Some (r, String ")" rest') => Some (quantified (Capture (Some name) r) rest')
              | _ => None
              end
          | None => None
          end
      | String "(" rest =>
          match parse_alternation fuel' rest with
          | Some (r, String ")" rest') => Some (quantified (Capture None r) rest')
          | _ => None
          end
      | String c rest => if is_meta c then None else Some (quantified (Char c) rest)
      end
  end.

(** [regexp2.MustCompile(text, 0)] on the constructs above; [None] stands
    for the panic on a pattern that does not parse. *)
Definition MustCompile (text : string) : option regex :=
  match parse_alternation (3 * String.length text + 3) text with
  | Some (r, EmptyString) => Some r
  | _ => None
  end.

End regexp2.

(** ** src/flow/process.go *)

Module Process.

Import Go.

(** *** Types declared in the configuration file of the package (fields as
    this file uses them) *)

Record Manifest : Type := {
  Env : string;
  Files : list string;
  Filters : Config.Filters;
  BaseBranch : string;
  CommitWithoutPR : bool;
  Labels : list string;
  ShowSourceOwner : bool;
  HideSourceName : bool;
  HideSourceReleaseDesc : bool;
  PRBody : string
}.

Record Application : Type := {
  Image : string;
  Manifests : list Manifest;
  AdditionalRewriteKeys : list string;
  AdditionalRewritePrefix : list string;
  ManifestBaseBranch : string;
  ManifestOwner : string;
  ManifestName : string;
  SourceOwner : string;
  SourceName : string
}.

(** The value behind the package-level pointer [cfg], set once by [New]. *)
Record Config : Type := {
  ApplicationList : list Application;
  DefaultBranch : string;
  DefaultManifestOwner : string;
  DefaultManifestName : string;
  GitAuthor : Config.GitAuthor
}.

(** [Flow] of flow.go *)
Record Flow : Type := {
  Flow_Env : string;
  projectID : string;
  slackBotToken : string;
  githubToken : string
}.

Record PullRequest : Type := {
  env : string;
  url : string;
  err : option error
}.

Definition PullRequests := list PullRequest.

(** *** Constants *)

Definition versionRewriteRegex : string :=
  "(?!.*(do-not-rewrite|no-rewrite).*)(version: +(?<version>.*))".
Definition imageRewriteRegexTemplate : string := "%s:(?<version>.*)".
Definition additionalRewriteKeysRegexTemplate : string := "%s: +(?<version>.*)".
Definition additionalRewritePrefixRegexTemplate : string := "%s(?<version>.*)".

(** *** gitbot.Release *)

(** Modelled from the spec: the declaration of [gitbot.Release] is not among
    the files embedded here.  A release holds the repository coordinates, the
    author, the message, the body, the labels and, per path, the content
    rewritten so far. *)
Record Release : Type := {
  Repo : gitbot.Repo;
  Author : gitbot.Author;
  Message : string;
  Body : string;
  Release_Labels : list string;
  changedContent : gmap string string
}.

(** Modelled from the spec: [gitbot.NewRelease], the constructor, is not
    among the files embedded here; it stores its arguments and starts with no
    rewritten content. *)
Definition NewRelease (repo : gitbot.Repo) (author : gitbot.Author)
    (message body : string) (labels : list string) : Release :=
  {| Repo := repo; Author := author; Message := message; Body := body;
     Release_Labels := labels; changedContent := ∅ |}.

(** Modelled from the spec: [Release.SetBody], the setter of the body, is not
    among the files embedded here. *)
Definition SetBody (r : Release) (body : string) : Release :=
  {| Repo := Repo r; Author := Author r; Message := Message r; Body := body;
     Release_Labels := Release_Labels r; changedContent := changedContent r |}.

(** *** Pure functions of process.go *)

Definition shouldProcess (m : Manifest) (version : string) : bool :=
  if String.eqb version "" then false
  else if String.eqb version "latest" then false   (* ignore latest tag *)
  else if existsb (fun prefix => HasPrefix version prefix)
                  (Config.ExcludePrefixes (Filters m)) then false
  else if Nat.eqb (List.length (Config.IncludePrefixes (Filters m))) 0 then true
  else if existsb (fun prefix => HasPrefix version prefix)
                  (Config.IncludePrefixes (Filters m)) then true
  else false.

Definition getBranchName (a : Application) (m : Manifest) (version : string) : string :=
  let branch := "rollout/" in
  let branch := branch +:+ Env m in
  let repo := SourceName a in
  let repo := if ShowSourceOwner m then Sprintf "%s-%s" [SourceOwner a; repo] else repo in
  let branch := if negb (HideSourceName m) then branch +:+ "-" +:+ repo else branch in
  let branch := branch +:+ "-" +:+ version in
  branch.

Definition getCommitMessage (a : Application) (m : Manifest) (version : string) : string :=
  let message := "Rollout" in
  let message := message +:+ " " +:+ Env m in
  let repo := SourceName a in
  let repo := if ShowSourceOwner m then Sprintf "%s/%s" [SourceOwner a; repo] else repo in
  let message := if negb (HideSourceName m) then message +:+ " " +:+ repo else message in
  let message := message +:+ " " +:+ version in
  message.

Definition newRelease (cfg : Config) (app : Application) (manifest : Manifest)
    (version : string) : Release :=
  let branchName := getBranchName app manifest version in
  let message := getCommitMessage app manifest version in
  (* Use base a branch configured in app level *)
  let baseBranch := ManifestBaseBranch app in
  (* if baseBranch is not specified in each config use global *)
  let baseBranch := if String.eqb baseBranch "" then DefaultBranch cfg else baseBranch in
  (* if not specified use master *)
  let baseBranch := if String.eqb baseBranch "" then "master" else baseBranch in
  (* If a branch is specified in each manifest use it *)
  let baseBranch :=
    if negb (String.eqb (BaseBranch manifest) "") then BaseBranch manifest else baseBranch in
  (* Commit in a new branch by default *)
  let commitBranch := branchName in
  (* If manifest should be commited without a PR, commit to baseBranch *)
  let commitBranch := if CommitWithoutPR manifest then baseBranch else commitBranch in
  let manifestOwner := DefaultManifestOwner cfg in
  let manifestName := DefaultManifestName cfg in
  let manifestOwner :=
    if negb (String.eqb (ManifestOwner app) "") then ManifestOwner app else manifestOwner in
  let manifestName :=
    if negb (String.eqb (ManifestName app) "") then ManifestName app else manifestName in
  let labels := [] in
  let labels := labels ++ [SourceName app] in
  let labels := labels ++ [Env manifest] in
  let labels := labels ++ Labels manifest in
  NewRelease
    {| gitbot.SourceOwner := manifestOwner;
       gitbot.SourceRepo := manifestName;
       gitbot.BaseBranch := baseBranch;
       gitbot.CommitBranch := commitBranch |}
    {| gitbot.Name := Config.Name (GitAuthor cfg);
       gitbot.Email := Config.Email (GitAuthor cfg) |}
    message
    ""
    labels.

Fixpoint find_application (image : string) (apps : list Application) : option Application :=
  match apps with
  | [] => None
  | app :: apps' => if String.eqb image (Image app) then Some app
                    else find_application image apps'
  end.

Definition getApplicationByImage (cfg : Config) (image : string) : Application + error :=
  match find_application image (ApplicationList cfg) with
  | Some app => inl app
  | None => inr (errors_New ("No application found for image " +:+ image))
  end.

Definition generateBody (app : Application) (manifest : Manifest) (version : string)
    (oldVersions : list string) : string :=
  let body := "" in
  let body :=
    if negb (HideSourceReleaseDesc manifest) then
      let body := body +:+ "## Release" +:+ newline in
      let body := body +:+ Sprintf ("https://github.com/%s/%s/releases/tag/%s" +:+ newline)
                                   [SourceOwner app; SourceName app; version] in
      let body := body +:+ newline in
      let body := body +:+ "### Diff from last release" +:+ newline in
      let body :=
        fold_left (fun body oldVersion =>
                     body +:+ Sprintf ("https://github.com/%s/%s/compare/%s...%s" +:+ newline)
                                      [SourceOwner app; SourceName app; version; oldVersion])
                  oldVersions body in
      body +:+ newline
    else body in
  let body :=
    if negb (String.eqb (PRBody manifest) "")
    then body +:+ Sprintf (newline +:+ newline +:+ "%s") [PRBody manifest]
    else body in
  body.

(** *** Calls that leave the process *)

Inductive Event : Type :=
| CallMakeChangeFunc (filePath regexText : string)
| CallCommit (r : Release) (err : option error)
| CallCreatePR (r : Release) (res : string + error)
| Printf (format : string) (args : list Eff.arg).

(** The methods of [gitbot.Release] that talk to GitHub are not among the
    files embedded here; they are taken as the operations of the client that
    [gitbot.NewGitHubClient] returns.  Each may update the release it is
    called on (pointer receiver) and the remote world.
    [MakeChangeFunc] also reports the matches it handed to the evaluator, in
    order, which is where the evaluator's side effect on the caller's
    variables is replayed. *)
Record Client (World : Type) : Type := {
  MakeChangeFunc : Release -> string -> string -> (regexp2.Match -> string) ->
                   World -> (Release * list regexp2.Match) * World;
  Commit : Release -> World -> (Release * option error) * World;
  CreatePR : Release -> World -> (Release * (string + error)) * World
}.
Arguments MakeChangeFunc {World}.
Arguments Commit {World}.
Arguments CreatePR {World}.

Section Run.
Context {World : Type}.
Variable NewGitHubClient : string -> Client World.
Variable cfg : Config.

Local Abbreviation M := (Eff.M Event World).

(** One [release.MakeChangeFunc(ctx, client, filePath, regexText, evaluator)]
    whose evaluator records the old version of every match in
    [oldVersionSet] and answers [replacement]. *)
Definition makeChange (client : Client World) (filePath regexText replacement : string)
    (acc : Release * gset string) : M (Release * gset string) :=
  let '(release, oldVersionSet) := acc in
  '(release, matches) ← Eff.call (fun _ => CallMakeChangeFunc filePath regexText)
                          (MakeChangeFunc client release filePath regexText
                             (fun m => replacement));
  mret (release,
        fold_left (fun set m => {[ regexp2.GroupByName m "version" ]} ∪ set)
                  matches oldVersionSet).

(** Body of [for _, filePath := range manifest.Files]. *)
Definition rewriteFile (client : Client World) (app : Application) (version : string)
    (filePath : string) (acc : Release * gset string) : M (Release * gset string) :=
  acc ← makeChange client filePath
          (Sprintf imageRewriteRegexTemplate [Image app])
          (Sprintf "%s:%s" [Image app; version]) acc;
  acc ← makeChange client filePath versionRewriteRegex
          (Sprintf "version: %s" [version]) acc;
  acc ← Eff.for_range (AdditionalRewriteKeys app)
          (fun key acc =>
             makeChange client filePath
               (Sprintf additionalRewriteKeysRegexTemplate [key])
               (Sprintf "%s: %s" [key; version]) acc) acc;
  Eff.for_range (AdditionalRewritePrefix app)
    (fun prefix acc =>
       makeChange client filePath
         (Sprintf additionalRewritePrefixRegexTemplate [prefix])
         (Sprintf "%s%s" [prefix; version]) acc) acc.

(** Body of [for _, manifest := range app.Manifests]; [prs] is the slice
    built so far and the result is the slice after this iteration. *)
Definition processManifest (client : Client World) (app : Application) (version : string)
    (manifest : Manifest) (prs : PullRequests) : M PullRequests :=
  if negb (shouldProcess manifest version) then mret prs            (* continue *)
  else
    let release := newRelease cfg app manifest version in
    '(release, oldVersionSet) ←
      Eff.for_range (Files manifest) (rewriteFile client app version) (release, ∅);
    (* Go iterates over a map in an order of its own; [elements] fixes one *)
    let oldVersions := elements oldVersionSet in
    let body := generateBody app manifest version oldVersions in
    let release := SetBody release body in
    '(release, err) ← Eff.call (fun res => CallCommit release (snd res))
                                (Commit client release);
    match err with
    | Some err =>
        _ ← Eff.emit (Printf "Error Commiting: %s" [Eff.AErr err]);
        mret prs                                                    (* continue *)
    | None =>
        if negb (CommitWithoutPR manifest) then
          '(release, res) ← Eff.call (fun res => CallCreatePR release (snd res))
                                      (CreatePR client release);
          match res with
          | inr err =>
              _ ← Eff.emit (Printf "Error Submitting PR: %s" [Eff.AErr err]);
              mret prs                                              (* continue *)
          | inl url =>
              mret (prs ++ [ {| env := Env manifest; url := url; err := None |} ])
          end
        else mret prs
    end.

Definition process (f : Flow) (app : Application) (version : string) : M PullRequests :=
  let prs : PullRequests := [] in
  let client := NewGitHubClient (githubToken f) in
  Eff.for_range (Manifests app) (processManifest client app version) prs.

Definition processImage (f : Flow) (image version : string) : M (option error) :=
  match getApplicationByImage cfg image with
  | inr err => mret (Some err)
  | inl app =>
      prs ← process f app version;
      _ ← Eff.for_range prs
            (fun pr (_ : unit) =>
               Eff.emit (Printf ("Processed PR: %s" +:+ newline) [Eff.AStr (url pr)]))
            tt;
      mret None
  end.
End Run.

End Process.

(** ** github.com/avast/retry-go *)

Module retry.

Import Go.

Section Do.
Context {Event World : Type}.
(** How a [time.Sleep(d)] shows in the trace. *)
Variable Sleep : Duration -> Event.

(** The loop of [retry.Do(retryableFunc, DelayType(delayType), Attempts(attempts))]
    from attempt number [n] on, with [remaining = attempts - n]:
    the function is run; a nil result returns nil at once; an error is stored
    in the error log and, unless this was the last attempt, the loop sleeps
    for [delayType(n)] and goes round again.  None of the errors of this
    package is marked unrecoverable, so the default [RetryIf] always holds. *)
Fixpoint attempts_from (retryableFunc : Eff.M Event World (option error))
    (delayType : nat -> Duration) (remaining n : nat) (errorLog : list error)
    : Eff.M Event World (option error) :=
  match remaining with
  | 0 => mret (Some (retry_Error errorLog))
  | S remaining' =>
      err ← retryableFunc;
      match err with
      | None => mret None
      | Some e =>
          let errorLog := errorLog ++ [e] in
          match remaining' with
          | 0 => mret (Some (retry_Error errorLog))   (* last attempt: don't wait *)
          | S _ =>
              _ ← Eff.emit (Sleep (delayType n));
              attempts_from retryableFunc delayType remaining' (S n) errorLog
          end
      end
  end.

Definition Do (retryableFunc : Eff.M Event World (option error))
    (delayType : nat -> Duration) (attempts : nat) : Eff.M Event World (option error) :=
  attempts_from retryableFunc delayType attempts 0 [].
End Do.

End retry.

(** ** src/unnamed/part_000 *)

Module Part000.

Import Go.

Definition retryCommitTries : nat := 3.

Record Manifest : Type := {
  Env : string;
  Files : list string;
  Filters : Config.Filters;
  BaseBranch : string;
  CommitWithoutPR : bool;
  PRBody : string;
  Labels : list string;
  ShowSourceOwner : bool;
  ShowSourceName : bool
}.

Record Application : Type := {
  Name : string;
  Image : string;
  Manifests : list Manifest;
  RewriteVersion : bool;
  RewriteNewTag : bool;
  ManifestBaseBranch : string;
  ManifestOwner : string;
  ManifestName : string;
  SourceOwner : string;
  SourceName : string
}.

Record Config : Type := {
  ApplicationList : list Application;
  GitAuthor : Config.GitAuthor;
  SlackNotifiyChannel : string
}.

Record Flow : Type := {
  Flow_Env : string;
  projectID : string;
  slackBotToken : string;
  githubToken : string
}.

Record PullRequest : Type := {
  env : string;
  url : string;
  err : option error
}.

Definition PullRequests := list PullRequest.

(** One entry of [Release.Changes], as package gitbot reads it back. *)
Record Change : Type := {
  filePath : string;
  regexText : string;
  changedText : string
}.

(** [gitbot.Release], the struct literal of [newRelease] plus [Changes]. *)
Record Release : Type := {
  Repo : gitbot.Repo;
  Author : gitbot.Author;
  Message : string;
  Body : string;
  Release_Labels : list string;
  Changes : list Change
}.

(** Modelled from the spec: [Release.AddChanges] is not among the files
    embedded here; it registers one more rule, after those already
    registered. *)
Definition AddChanges (r : Release) (filePath regexText changedText : string) : Release :=
  {| Repo := Repo r; Author := Author r; Message := Message r; Body := Body r;
     Release_Labels := Release_Labels r;
     Changes := Changes r ++ [ {| filePath := filePath; regexText := regexText;
                                  changedText := changedText |} ] |}.

(** [slackbot.MessageDetail] *)
Record MessageDetail : Type := {
  IsSuccess : bool;
  IsPrNotify : bool;
  AppName : string;
  Detail_Image : string;
  Version : string;
  PrURL : string
}.

Definition shouldProcess (m : Manifest) (version : string) : bool :=
  if String.eqb version "" then false
  else if String.eqb version "latest" then false   (* ignore latest tag *)
  else if existsb (fun prefix => HasPrefix version prefix)
                  (Config.ExcludePrefixes (Filters m)) then false
  else if Nat.eqb (List.length (Config.IncludePrefixes (Filters m))) 0 then true
  else if existsb (fun prefix => HasPrefix version prefix)
                  (Config.IncludePrefixes (Filters m)) then true
  else false.

Definition getBranchName (a : Application) (m : Manifest) (version : string) : string :=
  let branch := "release/" in
  let branch := branch +:+ Env m in
  let repo := SourceName a in
  let repo := if ShowSourceOwner m then Sprintf "%s-%s" [SourceOwner a; repo] else repo in
  let branch := if ShowSourceName m then branch +:+ "-" +:+ repo else branch in
  let branch := branch +:+ "-" +:+ version in
  branch.

Definition getCommitMessage (a : Application) (m : Manifest) (version : string) : string :=
  let message := "Release" in
  let message := message +:+ " " +:+ Env m in
  let repo := SourceName a in
  let repo := if ShowSourceOwner m then Sprintf "%s/%s" [SourceOwner a; repo] else repo in
  let message := if ShowSourceName m then message +:+ " " +:+ repo else message in
  let message := message +:+ " " +:+ version in
  message.

Definition newRelease (cfg : Config) (app : Application) (manifest : Manifest)
    (version : string) : Release :=
  let branchName := getBranchName app manifest version in
  let message := getCommitMessage app manifest version in
  (* Use base a branch configured in app level *)
  let baseBranch := ManifestBaseBranch app in
  (* If a branch is specified in each manifest use it *)
  let baseBranch :=
    if negb (String.eqb (BaseBranch manifest) "") then BaseBranch manifest else baseBranch in
  (* Commit in a new branch by default *)
  let commitBranch := branchName in
  (* If manifest should be commited without a PR, commit to baseBranch *)
  let commitBranch := if CommitWithoutPR manifest then baseBranch else commitBranch in
  let body := Sprintf "https://github.com/%s/%s/releases/tag/%s"
                      [SourceOwner app; SourceName app; version] in
  let body :=
    if negb (String.eqb (PRBody manifest) "")
    then body +:+ Sprintf (newline +:+ newline +:+ "%s") [PRBody manifest]
    else body in
  let labels := [] in
  let labels := labels ++ [SourceName app] in
  let labels := labels ++ [Env manifest] in
  let labels := labels ++ Labels manifest in
  {| Repo := {| gitbot.SourceOwner := ManifestOwner app;
                gitbot.SourceRepo := ManifestName app;
                gitbot.BaseBranch := baseBranch;
                gitbot.CommitBranch := commitBranch |};
     Author := {| gitbot.Name := Config.Name (GitAuthor cfg);
                  gitbot.Email := Config.Email (GitAuthor cfg) |};
     Message := message;
     Body := body;
     Release_Labels := labels;
     Changes := [] |}.

Fixpoint find_application (image : string) (apps : list Application) : option Application :=
  match apps with
  | [] => None
  | app :: apps' => if String.eqb image (Image app) then Some app
                    else find_application image apps'
  end.

Definition getApplicationByImage (cfg : Config) (image : string) : Application + error :=
  match find_application image (ApplicationList cfg) with
  | Some app => inl app
  | None => inr (errors_New ("No application found for image " +:+ image))
  end.

Inductive Event : Type :=
| CallCommit (r : Release) (err : option error)
| Sleep (d : Duration)
| CallCreatePR (r : Release) (res : string + error)
| Printf (format : string) (args : list Eff.arg)
| CallPost (token channel : string) (d : MessageDetail) (err : option error).

(** [Release.Commit] and [Release.CreatePR] of package gitbot and
    [slackbot.NewSlackMessage(token, channel, d).Post()] are not among the
    files embedded here; they are the operations of the clients.  The gitbot
    helpers they are built from ([getRef], [getTree], [pushCommit],
    [createPR]) read the release and leave it as it is. *)
Record Client (World : Type) : Type := {
  Commit : Release -> World -> option error * World;
  CreatePR : Release -> World -> (string + error) * World
}.
Arguments Commit {World}.
Arguments CreatePR {World}.

Section Run.
Context {World : Type}.
Variable NewGitHubClient : string -> Client World.
Variable Post : string -> string -> MessageDetail -> World -> option error * World.
Variable cfg : Config.

Local Abbreviation M := (Eff.M Event World).

(** Body of [for _, filePath := range manifest.Files]. *)
Definition addFileChanges (app : Application) (version : string) (release : Release)
    (filePath : string) : Release :=
  let release := AddChanges release filePath (Sprintf "%s:.*" [Image app])
                            (Sprintf "%s:%s" [Image app; version]) in
  let release :=
    if RewriteVersion app
    then AddChanges release filePath "version: .*" (Sprintf "version: %s" [version])
    else release in
  let release :=
    if RewriteNewTag app && Contains filePath "kustomization.yaml"
    then AddChanges release filePath "newTag: .*" (Sprintf "newTag: %s" [version])
    else release in
  release.

(** The [retry.DelayType] option of [process]. *)
Definition commitDelay (n : nat) : Duration := int64_mul 3 Second.

(** Body of [for _, manifest := range app.Manifests]. *)
Definition processManifest (client : Client World) (app : Application) (version : string)
    (manifest : Manifest) (prs : PullRequests) : M PullRequests :=
  if negb (shouldProcess manifest version) then mret prs              (* continue *)
  else
    let release := newRelease cfg app manifest version in
    let release := fold_left (addFileChanges app version) (Files manifest) release in
    err ← retry.Do Sleep
            (Eff.call (CallCommit release) (Commit client release))
            commitDelay
            retryCommitTries;
    match err with
    | Some err =>
        _ ← Eff.emit (Printf "Error Commiting: %s" [Eff.AErr err]);
        mret prs                                                      (* continue *)
    | None =>
        if negb (CommitWithoutPR manifest) then
          res ← Eff.call (CallCreatePR release) (CreatePR client release);
          match res with
          | inr err =>
              _ ← Eff.emit (Printf "Error Submitting PR: %s" [Eff.AErr err]);
              mret prs                                                (* continue *)
          | inl url =>
              mret (prs ++ [ {| env := Env manifest; url := url; err := None |} ])
          end
        else mret prs
    end.

Definition process (f : Flow) (app : Application) (version : string) : M PullRequests :=
  let prs : PullRequests := [] in
  let client := NewGitHubClient (githubToken f) in
  Eff.for_range (Manifests app) (processManifest client app version) prs.

Definition notifyReleasePR (f : Flow) (image version : string) (prs : PullRequests)
    (app : Application) : M (option error) :=
  let prURL :=
    fold_left
      (fun prURL pr =>
         match err pr with
         | Some e =>
             prURL +:+ Sprintf ("`%s`" +:+ newline +:+ "```%s```" +:+ newline) [env pr; Error e]
         | None =>
             prURL +:+ Sprintf ("`%s`" +:+ newline +:+ "```%s```" +:+ newline) [env pr; url pr]
         end)
      prs "" in
  let d := {| IsSuccess := true;
              IsPrNotify := true;
              AppName := Name app;
              Detail_Image := image;
              Version := version;
              PrURL := prURL |} in
  Eff.call (CallPost (slackBotToken f) (SlackNotifiyChannel cfg) d)
           (Post (slackBotToken f) (SlackNotifiyChannel cfg) d).

Definition processImage (f : Flow) (image version : string) : M (option error) :=
  match getApplicationByImage cfg image with
  | inr err => mret (Some err)
  | inl app =>
      prs ← process f app version;
      notifyReleasePR f image version prs app
  end.
End Run.

End Part000.

(** ** Applying a rewrite rule to the content of a file *)

Module Rewrite.

(** Modelled from the spec: [Release.MakeChangeFunc] of package gitbot is not
    among the files embedded here.  On the content of a file it applies the
    rule to the current content: every match of the pattern is replaced by
    what the evaluator answers; a rule that does not compile leaves the
    content as it is.  The gitbot helper [getChangedText] applies a rule with
    a fixed replacement text the same way: [regexp2.MustCompile(regex, 0)],
    then a replacement of all matches over the whole content. *)
Definition applyRule (regexText : string) (evaluator : regexp2.Match -> string)
    (content : string) : string :=
  match regexp2.MustCompile regexText with
  | Some re => regexp2.ReplaceFunc re content evaluator
  | None => content
  end.

(** The version-key rule with the pattern and the evaluator that
    [Process.process] registers for every file. *)
Definition versionKeyRule (version content : string) : string :=
  applyRule Process.versionRewriteRegex
            (fun _ => Go.Sprintf "version: %s" [version]) content.

(** [Process.versionRewriteRegex], compiled. *)
Definition versionRewrite : regexp2.regex :=
  Eval vm_compute in
    match regexp2.MustCompile Process.versionRewriteRegex with
    | Some re => re
    | None => regexp2.Empty
    end.

(** *** The closed form of a match of [versionRewrite]

    What the backtracking matcher computes on this one pattern, written as
    plain string functions; the two are proved equal below. *)

(** A chain of literal characters in front of [r]. *)
Fixpoint lit (l : string) (r : regexp2.regex) : regexp2.regex :=
  match l with
  | EmptyString => r
  | String c l' => regexp2.Concat (regexp2.Char c) (lit l' r)
  end.

(** The body of the lookahead of [versionRewrite]. *)
Definition lookahead_body : regexp2.regex :=
  regexp2.Concat (regexp2.Star regexp2.AnyChar)
    (regexp2.Concat
       (regexp2.Capture None
          (regexp2.Alternate (lit "do-not-rewrite" regexp2.Empty)
                             (lit "no-rewrite" regexp2.Empty)))
       (regexp2.Concat (regexp2.Star regexp2.AnyChar) regexp2.Empty)).

(** [s] without its prefix [l], when it has that prefix. *)
Fixpoint strip_prefix (l s : string) : option string :=
  match l, s with
  | EmptyString, _ => Some s
  | String c l', String c' s' => if Ascii.eqb c' c then strip_prefix l' s' else None
  | String _ _, EmptyString => None
  end.

(** [s] without its leading characters of class [p]. *)
Fixpoint skip (p : ascii -> bool) (s : string) : string :=
  match s with
  | String c t => if p c then skip p t else s
  | EmptyString => s
  end.

Definition in_line (c : ascii) : bool := negb (Ascii.eqb c regexp2.line_feed).
Definition is_space (c : ascii) : bool := Ascii.eqb c " ".

(** A greedy repetition of one character of class [p] in front of the
    continuation [k]: the longest run first, then one character less, and
    so on down to none. *)
Fixpoint greedy {A : Type} (p : ascii -> bool) (s : string) (k : string -> option A)
    : option A :=
  match s with
  | String c t =>
      if p c then match greedy p t k with
                  | Some a => Some a
                  | None => k s
                  end
      else k s
  | EmptyString => k s
  end.

Definition has_marker_prefix (s : string) : bool :=
  String.prefix "do-not-rewrite" s || String.prefix "no-rewrite" s.

(** One of the two markers starts at [s] or further on in the line that [s]
    starts with. *)
Fixpoint marker_ahead (s : string) : bool :=
  has_marker_prefix s ||
  match s with
  | String c t => in_line c && marker_ahead t
  | EmptyString => false
  end.

(** The match at the start of [s]: none when a marker is ahead in the line;
    else [version:], one space at least, and the rest of the line, which is
    the old version. *)
Definition version_match (s : string) : option (nat * regexp2.captures) :=
  if marker_ahead s then None
  else
    match strip_prefix "version:" s with
    | Some (String c s2) =>
        if is_space c then
          let s3 := skip is_space s2 in
          let s4 := skip in_line s3 in
          Some (String.length s - String.length s4, [("version", regexp2.consumed s3 s4)])
        else None
    | _ => None
    end.

(** [l] holds no line feed. *)
Fixpoint one_line (l : string) : bool :=
  match l with
  | EmptyString => true
  | String c t => in_line c && one_line t
  end.

(** No match of the version-key pattern starts anywhere in [l]. *)
Fixpoint no_match_in (l : string) : Prop :=
  version_match l = None /\
  match l with
  | String _ t => no_match_in t
  | EmptyString => True
  end.

(** What may stand before a line of a file: nothing, or text that ends a
    line; and after it: nothing, or text that starts with a line feed. *)
Definition ends_line (pre : string) : Prop :=
  pre = "" \/ exists p, pre = p +:+ String regexp2.line_feed "".

Definition starts_line (post : string) : Prop :=
  post = "" \/ exists q, post = String regexp2.line_feed q.

End Rewrite.

(** ** Vocabulary of the statements *)

Module Spec.

(** A precedence order: the first candidate that is not empty, and the
    fallback when all of them are. *)
Fixpoint first_non_empty (candidates : list string) (fallback : string) : string :=
  match candidates with
  | [] => fallback
  | c :: rest => if String.eqb c "" then first_non_empty rest fallback else c
  end.

(** The manifest filter as a function of the prefixes alone. *)
Definition accepts (f : Config.Filters) (v : string) : bool :=
  negb (String.eqb v "") && negb (String.eqb v "latest") &&
  negb (existsb (Go.HasPrefix v) (Config.ExcludePrefixes f)) &&
  (Nat.eqb (List.length (Config.IncludePrefixes f)) 0 ||
   existsb (Go.HasPrefix v) (Config.IncludePrefixes f)).

(** Reading the trace of a run of [Process.process]. *)

Definition is_rewrite (e : Process.Event) : bool :=
  match e with
  | Process.CallMakeChangeFunc _ _ => true
  | _ => false
  end.

Definition is_CreatePR (e : Process.Event) : bool :=
  match e with
  | Process.CallCreatePR _ _ => true
  | _ => false
  end.

(** A commit or a pull request that GitHub refused. *)
Definition is_failure (e : Process.Event) : bool :=
  match e with
  | Process.CallCommit _ (Some _) => true
  | Process.CallCreatePR _ (inr _) => true
  | _ => false
  end.

(** The URLs of the pull requests opened during a run, oldest first. *)
Fixpoint created_urls (tr : list Process.Event) : list string :=
  match tr with
  | [] => []
  | Process.CallCreatePR _ (inl url) :: tr' => url :: created_urls tr'
  | _ :: tr' => created_urls tr'
  end.

(** The manifests of which the claim on the result sequence speaks. *)
Definition passed (version : string) (ms : list Process.Manifest) : list Process.Manifest :=
  List.filter (fun m => Process.shouldProcess m version) ms.

(** The manifests that are processed and configured to open a pull request. *)
Definition opens_pr (version : string) (ms : list Process.Manifest) : list Process.Manifest :=
  List.filter (fun m => Process.shouldProcess m version && negb (Process.CommitWithoutPR m)) ms.

(** Reading the trace of a run of [Part000.process]. *)

(** The attempts to commit, and those of them that GitHub refused. *)
Definition commit_attempts (tr : list Part000.Event) : nat :=
  List.length (List.filter (fun e => match e with
                                     | Part000.CallCommit _ _ => true
                                     | _ => false
                                     end) tr).

Definition refused_commits (tr : list Part000.Event) : nat :=
  List.length (List.filter (fun e => match e with
                                     | Part000.CallCommit _ (Some _) => true
                                     | _ => false
                                     end) tr).

Definition opens_no_pr (e : Part000.Event) : Prop :=
  match e with
  | Part000.CallCreatePR _ _ => False
  | _ => True
  end.

(** The release an iteration of [Part000.process] commits: the new release
    with the rules of every file registered. *)
Definition committed_release (cfg : Part000.Config) (app : Part000.Application)
    (version : string) (m : Part000.Manifest) : Part000.Release :=
  fold_left (Part000.addFileChanges app version) (Part000.Files m)
            (Part000.newRelease cfg app m version).

(** Every pause lasts three seconds. *)
Definition pauses_three_seconds (e : Part000.Event) : Prop :=
  match e with
  | Part000.Sleep d => d = 3000000000%Z
  | _ => True
  end.

End Spec.

(** ** Concrete configurations used by the examples below *)

Module Examples.

Import Go.

Definition no_filters : Config.Filters :=
  {| Config.IncludePrefixes := []; Config.ExcludePrefixes := [] |}.

Definition author : Config.GitAuthor :=
  {| Config.Name := "flow"; Config.Email := "flow@example.com" |}.

Definition prod : Process.Manifest :=
  {| Process.Env := "prod";
     Process.Files := ["deploy.yaml"];
     Process.Filters := no_filters;
     Process.BaseBranch := "";
     Process.CommitWithoutPR := false;
     Process.Labels := [];
     Process.ShowSourceOwner := false;
     Process.HideSourceName := false;
     Process.HideSourceReleaseDesc := false;
     Process.PRBody := "" |}.


(** A manifest that takes release tags only and refuses everything. *)
Definition filtered : Process.Manifest :=
  {| Process.Env := "dev";
     Process.Files := ["dev.yaml"];
     Process.Filters := {| Config.IncludePrefixes := ["v"; ""];
                           Config.ExcludePrefixes := ["rc"; ""] |};
     Process.BaseBranch := "develop";
     Process.CommitWithoutPR := false;
     Process.Labels := ["auto"];
     Process.ShowSourceOwner := true;
     Process.HideSourceName := false;
     Process.HideSourceReleaseDesc := true;
     Process.PRBody := "" |}.

(** A manifest whose include list holds the empty prefix. *)
Definition include_all : Process.Manifest :=
  {| Process.Env := "stg";
     Process.Files := ["stg.yaml"];
     Process.Filters := {| Config.IncludePrefixes := ["v"; ""];
                           Config.ExcludePrefixes := ["rc"] |};
     Process.BaseBranch := "";
     Process.CommitWithoutPR := false;
     Process.Labels := [];
     Process.ShowSourceOwner := false;
     Process.HideSourceName := true;
     Process.HideSourceReleaseDesc := false;
     Process.PRBody := "" |}.

Definition app_of (manifests : list Process.Manifest) : Process.Application :=
  {| Process.Image := "registry/app";
     Process.Manifests := manifests;
     Process.AdditionalRewriteKeys := [];
     Process.AdditionalRewritePrefix := [];
     Process.ManifestBaseBranch := "";
     Process.ManifestOwner := "";
     Process.ManifestName := "";
     Process.SourceOwner := "owner";
     Process.SourceName := "app" |}.

Definition cfg_of (apps : list Process.Application) : Process.Config :=
  {| Process.ApplicationList := apps;
     Process.DefaultBranch := "";
     Process.DefaultManifestOwner := "owner";
     Process.DefaultManifestName := "manifests";
     Process.GitAuthor := author |}.

Definition flow : Process.Flow :=
  {| Process.Flow_Env := "test"; Process.projectID := "p";
     Process.slackBotToken := "s"; Process.githubToken := "g" |}.

(** A client whose world counts the pull requests opened so far; every call
    succeeds and no file matches any rule. *)
Definition friendly (token : string) : Process.Client nat :=
  {| Process.MakeChangeFunc := fun r _ _ _ w => ((r, []), w);
     Process.Commit := fun r w => ((r, None), w);
     Process.CreatePR := fun r w =>
       ((r, inl ("https://github.com/owner/manifests/pull/" +:+ itoa (S w))), S w) |}.

(** A client whose commits are always refused. *)
Definition refusing (token : string) : Process.Client nat :=
  {| Process.MakeChangeFunc := fun r _ _ _ w => ((r, []), w);
     Process.Commit := fun r w => ((r, Some (errors_New "409 Conflict")), w);
     Process.CreatePR := fun r w =>
       ((r, inl ("https://github.com/owner/manifests/pull/" +:+ itoa (S w))), S w) |}.


(** The same for [part_000]. *)

Definition old_manifest (env : string) : Part000.Manifest :=
  {| Part000.Env := env;
     Part000.Files := ["deploy.yaml"; "kustomization.yaml"];
     Part000.Filters := no_filters;
     Part000.BaseBranch := "";
     Part000.CommitWithoutPR := false;
     Part000.PRBody := "";
     Part000.Labels := [];
     Part000.ShowSourceOwner := false;
     Part000.ShowSourceName := true |}.

Definition old_app : Part000.Application :=
  {| Part000.Name := "app";
     Part000.Image := "registry/app";
     Part000.Manifests := [old_manifest "dev"; old_manifest "prod"];
     Part000.RewriteVersion := true;
     Part000.RewriteNewTag := true;
     Part000.ManifestBaseBranch := "master";
     Part000.ManifestOwner := "owner";
     Part000.ManifestName := "manifests";
     Part000.SourceOwner := "owner";
     Part000.SourceName := "app" |}.

Definition old_cfg : Part000.Config :=
  {| Part000.ApplicationList := [old_app];
     Part000.GitAuthor := author;
     Part000.SlackNotifiyChannel := "#deploy" |}.

Definition old_flow : Part000.Flow :=
  {| Part000.Flow_Env := "test"; Part000.projectID := "p";
     Part000.slackBotToken := "s"; Part000.githubToken := "g" |}.

(** A client whose world counts the commits attempted so far: the first
    three are refused, the later ones accepted. *)
Definition flaky (token : string) : Part000.Client nat :=
  {| Part000.Commit := fun r w =>
       (if w <? 3 then Some (errors_New "409 Conflict") else None, S w);
     Part000.CreatePR := fun r w =>
       (inl ("https://github.com/owner/manifests/pull/" +:+ itoa w), w) |}.

Definition post_ok (token channel : string) (d : Part000.MessageDetail) (w : nat)
    : option error * nat := (None, w).

End Examples.

(** ** Panics

    A second layer over the monad of calls, for code that may panic (a nil
    pointer dereferenced, a pattern that does not compile): the result is
    [None] once the code has panicked, and nothing is called after that. *)

Module Panic.

Section Layer.
Context {Event World : Type}.

Definition MP (A : Type) : Type := Eff.M Event World (option A).

Definition ret {A} (a : A) : MP A := Eff.ret (Some a).

Definition panic {A} : MP A := Eff.ret None.

Definition bind {A B} (m : MP A) (f : A -> MP B) : MP B :=
  Eff.bind m (fun r => match r with
                       | Some a => f a
                       | None => Eff.ret None
                       end).

(** Code that cannot panic. *)
Definition lift {A} (m : Eff.M Event World A) : MP A :=
  Eff.bind m (fun a => Eff.ret (Some a)).

(** [*p] and [p.field] for a pointer [p] that may be nil. *)
Definition deref {A} (p : option A) : MP A :=
  match p with
  | Some a => ret a
  | None => panic
  end.

(** [for _, x := range l { acc = body(x, acc) }] *)
Fixpoint for_range {A B} (l : list A) (body : A -> B -> MP B) (acc : B) : MP B :=
  match l with
  | [] => ret acc
  | x :: l' => bind (body x acc) (for_range l' body)
  end.
End Layer.

Arguments MP : clear implicits.

End Panic.

Notation "x ⇐ m ; k" := (Panic.bind m (fun x => k))
  (at level 20, m at level 100, k at level 200, only parsing) : stdpp_scope.

(** ** github.com/google/go-github: the types and calls package gitbot uses

    The fields that are pointers in the library are [option]s, [None] for
    nil.  A call answers either its value (a pointer that is not nil) or an
    error. *)

Module github.

Import Go.

Record GitObject : Type := {
  SHA : option string
}.

Record Reference : Type := {
  Ref : option string;
  Object : option GitObject
}.

Record TreeEntry : Type := {
  Path : option string;
  Type_ : option string;
  Content : option string;
  Mode : option string
}.

Record Tree : Type := {
  Tree_SHA : option string;
  Tree_Entries : list TreeEntry
}.

(** [time.Time], as a count of nanoseconds. *)
Definition Time := Z.

Record CommitAuthor : Type := {
  Date : option Time;
  Name : option string;
  Email : option string
}.

#[warnings="-register-all"]
Inductive Commit : Type := mkCommit {
  Commit_SHA : option string;
  Commit_Author : option CommitAuthor;
  Commit_Message : option string;
  Commit_Tree : option Tree;
  Commit_Parents : list Commit
}.

Record RepositoryCommit : Type := {
  RepositoryCommit_SHA : option string;
  RepositoryCommit_Commit : option Commit
}.

(** [github.RepositoryContent], by what its method [GetContent()] answers:
    the decoded content or the error of the decoder, [None] when the method
    panics (an encoded file with no content). *)
Record RepositoryContent : Type := {
  GetContent : option (string + error)
}.

Record NewPullRequest : Type := {
  Title : option string;
  Head : option string;
  Base : option string;
  Body : option string;
  MaintainerCanModify : option bool
}.

Record PullRequest : Type := {
  Number : option Z;
  HTMLURL : option string
}.

(** [pr.GetHTMLURL()] *)
Definition GetHTMLURL (pr : PullRequest) : string :=
  match HTMLURL pr with
  | Some u => u
  | None => ""
  end.

(** The services of [*github.Client] that package gitbot calls, and the
    clock.  [Repositories.GetContents] answers a nil file for a path that is
    a directory. *)
Record Client (World : Type) : Type := {
  Git_GetRef : string -> string -> string -> World -> (Reference + error) * World;
  Git_CreateRef : string -> string -> Reference -> World -> (Reference + error) * World;
  Git_UpdateRef : string -> string -> Reference -> bool -> World ->
                  (Reference + error) * World;
  Git_CreateTree : string -> string -> string -> list TreeEntry -> World ->
                   (Tree + error) * World;
  Git_CreateCommit : string -> string -> Commit -> World -> (Commit + error) * World;
  Repositories_GetCommit : string -> string -> string -> World ->
                           (RepositoryCommit + error) * World;
  Repositories_GetContents : string -> string -> string -> string -> World ->
                             (option RepositoryContent + error) * World;
  PullRequests_Create : string -> string -> NewPullRequest -> World ->
                        (PullRequest + error) * World;
  Issues_AddLabelsToIssue : string -> string -> Z -> list string -> World ->
                            option error * World;
  time_Now : World -> Time * World
}.
Arguments Git_GetRef {World}.
Arguments Git_CreateRef {World}.
Arguments Git_UpdateRef {World}.
Arguments Git_CreateTree {World}.
Arguments Git_CreateCommit {World}.
Arguments Repositories_GetCommit {World}.
Arguments Repositories_GetContents {World}.
Arguments PullRequests_Create {World}.
Arguments Issues_AddLabelsToIssue {World}.
Arguments time_Now {World}.

(** The calls as they show in the trace: arguments, then the answer. *)
Inductive Event : Type :=
| GetRef (owner repo ref : string) (res : Reference + error)
| CreateRef (owner repo : string) (newRef : Reference) (res : Reference + error)
| UpdateRef (owner repo : string) (ref : Reference) (force : bool) (res : Reference + error)
| CreateTree (owner repo baseTree : string) (entries : list TreeEntry) (res : Tree + error)
| CreateCommit (owner repo : string) (commit : Commit) (res : Commit + error)
| GetCommit (owner repo sha : string) (res : RepositoryCommit + error)
| GetContents (owner repo path ref : string) (res : option RepositoryContent + error)
| CreatePullRequest (owner repo : string) (pull : NewPullRequest) (res : PullRequest + error)
| AddLabelsToIssue (owner repo : string) (number : Z) (labels : list string)
                   (err : option error)
| Now (t : Time)
| Printf (format : string) (args : list Eff.arg).

End github.

(** ** Package gitbot: the helpers of [Release] that talk to GitHub

    The file of package gitbot that follows the module description in
    [src/go.mod].  [Release] is the struct that [part_000] fills; the fields
    of its [Repo] are promoted.  The receiver, the client and the reference
    handed over are taken not to be nil. *)

Module GitbotHelpers.

Import Go.

Definition SourceOwner (r : Part000.Release) : string :=
  gitbot.SourceOwner (Part000.Repo r).
Definition SourceRepo (r : Part000.Release) : string :=
  gitbot.SourceRepo (Part000.Repo r).
Definition BaseBranch (r : Part000.Release) : string :=
  gitbot.BaseBranch (Part000.Repo r).
Definition CommitBranch (r : Part000.Release) : string :=
  gitbot.CommitBranch (Part000.Repo r).

Section Helpers.
Context {World : Type}.
Variable client : github.Client World.

(** [regexp2.MustCompile(regex, 0)], [None] when it panics, and
    [re.Replace(input, replacement, 0, -1)], for whatever the library takes
    as a pattern and as a replacement. *)
Context {Regexp : Type}.
Variable MustCompile : string -> option Regexp.
Variable Replace : Regexp -> string -> string -> string + error.

(** The order in which [range] visits a map: Go leaves it open. *)
Variable range_map : gmap string string -> list (string * string).

Local Abbreviation M := (Eff.M github.Event World).
Local Abbreviation MP := (Panic.MP github.Event World).

Definition getRef (r : Part000.Release) : MP (github.Reference + error) :=
  res ⇐ Panic.lift
          (Eff.call (github.GetRef (SourceOwner r) (SourceRepo r)
                                   ("refs/heads/" +:+ CommitBranch r))
                    (github.Git_GetRef client (SourceOwner r) (SourceRepo r)
                                       ("refs/heads/" +:+ CommitBranch r)));
  match res with
  | inl ref => Panic.ret (inl ref)
  | inr _ =>
      res ⇐ Panic.lift
              (Eff.call (github.GetRef (SourceOwner r) (SourceRepo r)
                                       ("refs/heads/" +:+ BaseBranch r))
                        (github.Git_GetRef client (SourceOwner r) (SourceRepo r)
                                           ("refs/heads/" +:+ BaseBranch r)));
      match res with
      | inr err => Panic.ret (inr err)
      | inl baseRef =>
          object ⇐ Panic.deref (github.Object baseRef);
          let newRef :=
            {| github.Ref := Some ("refs/heads/" +:+ CommitBranch r);
               github.Object := Some {| github.SHA := github.SHA object |} |} in
          Panic.lift
            (Eff.call (github.CreateRef (SourceOwner r) (SourceRepo r) newRef)
                      (github.Git_CreateRef client (SourceOwner r) (SourceRepo r) newRef))
      end
  end.

Definition getOriginalContent (r : Part000.Release) (filePath baseBranch : string)
    : MP (string + error) :=
  res ⇐ Panic.lift
          (Eff.call (github.GetContents (SourceOwner r) (SourceRepo r) filePath baseBranch)
                    (github.Repositories_GetContents client (SourceOwner r) (SourceRepo r)
                                                     filePath baseBranch));
  match res with
  | inr err => Panic.ret (inr err)
  | inl f =>
      f ⇐ Panic.deref f;
      Panic.deref (github.GetContent f)
  end.

(** [None] when the pattern does not compile and [MustCompile] panics. *)
Definition getChangedText (original regex changed : string) : option string :=
  match MustCompile regex with
  | None => None
  | Some re =>
      match Replace re original changed with
      | inr _ => Some original
      | inl result => Some result
      end
  end.

(** Body of [for _, c := range r.Changes] in [getTree]. *)
Definition getTree_change (r : Part000.Release) (c : Part000.Change)
    (entryMap : gmap string string) : MP (gmap string string) :=
  (* rewrite if target is already changed *)
  match entryMap !! Part000.filePath c with
  | Some content =>
      changed ⇐ Panic.deref
                  (getChangedText content (Part000.regexText c) (Part000.changedText c));
      Panic.ret (<[Part000.filePath c := changed]> entryMap)          (* continue *)
  | None =>
      res ⇐ getOriginalContent r (Part000.filePath c) (BaseBranch r);
      match res with
      | inr err =>
          _ ⇐ Panic.lift (Eff.emit (github.Printf "Error fetching content %s"
                                                  [Eff.AErr err]));
          Panic.ret entryMap                                          (* continue *)
      | inl content =>
          changed ⇐ Panic.deref
                      (getChangedText content (Part000.regexText c) (Part000.changedText c));
          Panic.ret (<[Part000.filePath c := changed]> entryMap)
      end
  end.

Definition tree_entry (kv : string * string) : github.TreeEntry :=
  {| github.Path := Some (fst kv); github.Type_ := Some "blob";
     github.Content := Some (snd kv); github.Mode := Some "100644" |}.

Definition getTree (r : Part000.Release) (ref : github.Reference)
    : MP (github.Tree + error) :=
  (* filePath:content map *)
  entryMap ⇐ Panic.for_range (Part000.Changes r) (getTree_change r) ∅;
  let entries := map tree_entry (range_map entryMap) in
  object ⇐ Panic.deref (github.Object ref);
  sha ⇐ Panic.deref (github.SHA object);
  Panic.lift (Eff.call (github.CreateTree (SourceOwner r) (SourceRepo r) sha entries)
                       (github.Git_CreateTree client (SourceOwner r) (SourceRepo r)
                                              sha entries)).

(** [pushCommit] writes the SHA of the new commit through the pointer [ref];
    the reference as the caller finds it afterwards is returned next to the
    error. *)
Definition pushCommit (r : Part000.Release) (ref : github.Reference)
    (tree : option github.Tree) : MP (github.Reference * option error) :=
  object ⇐ Panic.deref (github.Object ref);
  sha ⇐ Panic.deref (github.SHA object);
  res ⇐ Panic.lift
          (Eff.call (github.GetCommit (SourceOwner r) (SourceRepo r) sha)
                    (github.Repositories_GetCommit client (SourceOwner r) (SourceRepo r) sha));
  match res with
  | inr err => Panic.ret (ref, Some err)
  | inl parent =>
      parent_Commit ⇐ Panic.deref (github.RepositoryCommit_Commit parent);
      let parent_Commit :=
        github.mkCommit (github.RepositoryCommit_SHA parent)
                        (github.Commit_Author parent_Commit)
                        (github.Commit_Message parent_Commit)
                        (github.Commit_Tree parent_Commit)
                        (github.Commit_Parents parent_Commit) in
      date ⇐ Panic.lift (Eff.call github.Now (github.time_Now client));
      let author := {| github.Date := Some date;
                       github.Name := Some (gitbot.Name (Part000.Author r));
                       github.Email := Some (gitbot.Email (Part000.Author r)) |} in
      let commit := github.mkCommit None (Some author) (Some (Part000.Message r))
                                    tree [parent_Commit] in
      res ⇐ Panic.lift
              (Eff.call (github.CreateCommit (SourceOwner r) (SourceRepo r) commit)
                        (github.Git_CreateCommit client (SourceOwner r) (SourceRepo r)
                                                 commit));
      match res with
      | inr err => Panic.ret (ref, Some err)
      | inl newCommit =>
          let ref :=
            {| github.Ref := github.Ref ref;
               github.Object := Some {| github.SHA := github.Commit_SHA newCommit |} |} in
          res ⇐ Panic.lift
                  (Eff.call (github.UpdateRef (SourceOwner r) (SourceRepo r) ref false)
                            (github.Git_UpdateRef client (SourceOwner r) (SourceRepo r)
                                                  ref false));
          match res with
          | inr err => Panic.ret (ref, Some err)
          | inl _ => Panic.ret (ref, None)
          end
      end
  end.

Definition addLabels (r : Part000.Release) (prNumber : Z) : M (option error) :=
  Eff.call (github.AddLabelsToIssue (SourceOwner r) (SourceRepo r) prNumber
                                    (Part000.Release_Labels r))
           (github.Issues_AddLabelsToIssue client (SourceOwner r) (SourceRepo r) prNumber
                                           (Part000.Release_Labels r)).

Definition createPR (r : Part000.Release) : MP (string + error) :=
  let newPR := {| github.Title := Some (Part000.Message r);
                  github.Head := Some (CommitBranch r);
                  github.Base := Some (BaseBranch r);
                  github.Body := Some (Part000.Body r);
                  github.MaintainerCanModify := Some true |} in
  res ⇐ Panic.lift
          (Eff.call (github.CreatePullRequest (SourceOwner r) (SourceRepo r) newPR)
                    (github.PullRequests_Create client (SourceOwner r) (SourceRepo r) newPR));
  match res with
  | inr err => Panic.ret (inr err)
  | inl pr =>
      number ⇐ Panic.deref (github.Number pr);
      err ⇐ Panic.lift (addLabels r number);
      _ ⇐ match err with
          | Some err =>
              Panic.lift (Eff.emit (github.Printf "Error Adding Lables: %s" [Eff.AErr err]))
          | None => Panic.ret tt
          end;
      Panic.ret (inl (github.GetHTMLURL pr))
  end.
End Helpers.

End GitbotHelpers.

(** ** cloud.google.com/go/pubsub, as flow.go uses it *)

Module pubsub.

Import Go.

Section Handles.
(** [*pubsub.Client] *)
Context {Client : Type}.

(** [client.Topic(id)] and [client.Subscription(id)] build handles and call
    nothing. *)
Record Topic : Type := {
  Topic_client : Client;
  Topic_id : string
}.

Record Subscription : Type := {
  Subscription_client : Client;
  Subscription_id : string
}.

Record SubscriptionConfig : Type := {
  Config_Topic : Topic
}.
End Handles.

Arguments Topic : clear implicits.
Arguments Subscription : clear implicits.
Arguments SubscriptionConfig : clear implicits.

(** The calls that reach the service. *)
Record API (Client World : Type) : Type := {
  NewClient : string -> World -> (Client + error) * World;
  Exists : Subscription Client -> World -> (bool + error) * World;
  CreateSubscription : Client -> string -> SubscriptionConfig Client -> World ->
                       (Subscription Client + error) * World
}.
Arguments NewClient {Client World}.
Arguments Exists {Client World}.
Arguments CreateSubscription {Client World}.

End pubsub.

(** ** src/flow/flow.go *)

Module FlowGo.

Import Go.

Definition pubsubGCBTopicID : string := "cloud-builds".
Definition pubsubGCRTopicID : string := "gcr".
Definition subscriptionPrefix : string := "flow-sub-".

(** [fmt.Errorf(format, args...)] for formats without [%w]: an error whose
    text is the formatted string. *)
Definition Errorf (format : string) (args : list string) : error :=
  errors_New (Sprintf format args).

Section Package.
Context {Client World : Type}.

(** The package-level variables. *)
Record Globals : Type := {
  subscriptionGCB : option (pubsub.Subscription Client);
  subscriptionGCR : option (pubsub.Subscription Client);
  client : option Client;
  cfg : option Process.Config
}.

(** What the code of this file acts on: the package-level variables and
    whatever is outside the process. *)
Record State : Type := {
  globals : Globals;
  outside : World
}.

Inductive Event : Type :=
| Getenv (key value : string)
| NewClient (projectID : string) (res : Client + error)
| Exists (s : pubsub.Subscription Client) (res : bool + error)
| CreateSubscription (c : Client) (id : string) (config : pubsub.SubscriptionConfig Client)
                     (res : pubsub.Subscription Client + error)
| Go_subscribeGCB (f : Process.Flow).

(** Assignments to [cfg] and to [subscriptionGCB]. *)
Definition set_cfg (c : option Process.Config) (g : Globals) : Globals :=
  {| subscriptionGCB := subscriptionGCB g; subscriptionGCR := subscriptionGCR g;
     client := client g; cfg := c |}.

Definition set_subscriptionGCB (s : option (pubsub.Subscription Client)) (g : Globals)
    : Globals :=
  {| subscriptionGCB := s; subscriptionGCR := subscriptionGCR g;
     client := client g; cfg := cfg g |}.

(** [os.Getenv]: a look at the environment, which it leaves as it is. *)
Variable os_Getenv : string -> World -> string.
Variable api : pubsub.API Client World.

Local Abbreviation M := (Eff.M Event State).

(** A call on the outside; the package-level variables stay. *)
Definition outside_call {A} (ev : A -> Event) (op : World -> A * World) : M A :=
  Eff.call ev (fun s => let (a, w) := op (outside s) in
                        (a, {| globals := globals s; outside := w |})).

(** An assignment to package-level variables. *)
Definition assign (update : Globals -> Globals) : M unit :=
  fun s => Eff.mkRun tt {| globals := update (globals s); outside := outside s |} [].

Definition getenv (key : string) : M string :=
  outside_call (Getenv key) (fun w => (os_Getenv key w, w)).

Definition New (c : Process.Config) : M (Process.Flow + error) :=
  _ ← assign (set_cfg (Some c));
  Env ← getenv "FLOW_ENV";
  projectID ← getenv "FLOW_GCP_PROJECT_ID";
  slackBotToken ← getenv "FLOW_SLACK_BOT_TOKEN";
  githubToken ← getenv "FLOW_GITHUB_TOKEN";
  let f := {| Process.Flow_Env := Env;
              Process.projectID := projectID;
              Process.slackBotToken := slackBotToken;
              Process.githubToken := githubToken |} in
  if String.eqb (Process.Flow_Env f) "" || String.eqb (Process.projectID f) "" ||
     String.eqb (Process.slackBotToken f) "" || String.eqb (Process.githubToken f) ""
  then mret (inr (errors_New
    "You need to specify a non-empty value for FLOW_ENV, FLOW_GCP_PROJECT_ID, FLOW_SLACK_BOT_TOKEN and FLOW_GITHUB_TOKEN"))
  else mret (inl f).

Definition newPubSubClient (projectID : string) : M (Client + error) :=
  res ← outside_call (NewClient projectID) (pubsub.NewClient api projectID);
  match res with
  | inr err => mret (inr (Errorf "Error creating pubsub client: %s" [Error err]))
  | inl client => mret (inl client)
  end.

Definition createGCBSubscription (client : Client) : M (option error) :=
  let topic := {| pubsub.Topic_client := client; pubsub.Topic_id := pubsubGCBTopicID |} in
  let subscriptionName := Sprintf "%s%s" [subscriptionPrefix +:+ pubsubGCBTopicID] in
  let subscription := {| pubsub.Subscription_client := client;
                         pubsub.Subscription_id := subscriptionName |} in
  _ ← assign (set_subscriptionGCB (Some subscription));
  res ← outside_call (Exists subscription) (pubsub.Exists api subscription);
  match res with
  | inr err => mret (Some (Errorf "Error checking for subscription: %s" [Error err]))
  | inl exists_ =>
      _ ← (if negb exists_ then
             res ← outside_call
                     (CreateSubscription client subscriptionName
                                         {| pubsub.Config_Topic := topic |})
                     (pubsub.CreateSubscription api client subscriptionName
                                                {| pubsub.Config_Topic := topic |});
             match res with
             | inr err =>
                 (* the error that [fmt.Errorf] builds here is dropped *)
                 let _ := Errorf "Failed to create subscription: %s" [Error err] in
                 mret tt
             | inl _ => mret tt
             end
           else mret tt);
      mret None
  end.

(** [Start] declares a [client] of its own; [go f.subscribeGCB(ctx, errCh)]
    shows in the trace as the start of the subscriber. *)
Definition Start (f : Process.Flow) : M unit :=
  res ← newPubSubClient (Process.projectID f);
  match res with
  | inr _ => mret tt
  | inl client =>
      err ← createGCBSubscription client;
      match err with
      | Some _ => mret tt
      | None => Eff.emit (Go_subscribeGCB f)
      end
  end.
End Package.

Arguments Globals : clear implicits.
Arguments State : clear implicits.
Arguments Event : clear implicits.

End FlowGo.

(** ** Vocabulary of the statements on package gitbot *)

Module GitbotSpec.

Import Go.

Definition is_CreateTree (e : github.Event) : bool :=
  match e with
  | github.CreateTree _ _ _ _ _ => true
  | _ => false
  end.

Definition is_CreateRef (e : github.Event) : bool :=
  match e with
  | github.CreateRef _ _ _ _ => true
  | _ => false
  end.

Definition is_UpdateRef (e : github.Event) : bool :=
  match e with
  | github.UpdateRef _ _ _ _ _ => true
  | _ => false
  end.

Definition is_AddLabelsToIssue (e : github.Event) : bool :=
  match e with
  | github.AddLabelsToIssue _ _ _ _ _ => true
  | _ => false
  end.

(** What [getOriginalContent] makes of the answer of
    [Repositories.GetContents]: the content or an error, [None] for a
    panic. *)
Definition original_content (answer : option github.RepositoryContent + error)
    : option (string + error) :=
  match answer with
  | inr err => Some (inr err)
  | inl None => None
  | inl (Some f) => github.GetContent f
  end.

(** The content of a file, when the answer holds one. *)
Definition fetched_content (answer : option github.RepositoryContent + error)
    : option string :=
  match original_content answer with
  | Some (inl content) => Some content
  | _ => None
  end.

(** A fetch of [path] that yields a content. *)
Definition fetched (path : string) (e : github.Event) : bool :=
  match e with
  | github.GetContents _ _ p _ answer =>
      String.eqb p path && bool_decide (is_Some (fetched_content answer))
  | _ => false
  end.

(** The rules registered for [path], in the order of their registration. *)
Definition rules_for (path : string) (changes : list Part000.Change)
    : list Part000.Change :=
  List.filter (fun c => String.eqb (Part000.filePath c) path) changes.

(** The rules applied one after the other, each to the text the one before
    it left; [None] when one of them panics. *)
Definition apply_rules {Regexp : Type} (MustCompile : string -> option Regexp)
    (Replace : Regexp -> string -> string -> string + error)
    (rules : list Part000.Change) (original : string) : option string :=
  fold_left
    (fun text c =>
       match text with
       | Some text =>
           GitbotHelpers.getChangedText MustCompile Replace text
             (Part000.regexText c) (Part000.changedText c)
       | None => None
       end)
    rules (Some original).

(** The error of a call that GitHub refused. *)
Definition refused (e : github.Event) : option error :=
  match e with
  | github.GetRef _ _ _ (inr err) | github.CreateRef _ _ _ (inr err)
  | github.UpdateRef _ _ _ _ (inr err) | github.CreateTree _ _ _ _ (inr err)
  | github.CreateCommit _ _ _ (inr err) | github.GetCommit _ _ _ (inr err)
  | github.GetContents _ _ _ _ (inr err) | github.CreatePullRequest _ _ _ (inr err) =>
      Some err
  | github.AddLabelsToIssue _ _ _ _ err => err
  | _ => None
  end.

(** The calls of a run are addressed to the repository of the release. *)
Definition in_repository (r : Part000.Release) (e : github.Event) : Prop :=
  match e with
  | github.GetRef o p _ _ | github.CreateRef o p _ _ | github.UpdateRef o p _ _ _
  | github.CreateTree o p _ _ _ | github.CreateCommit o p _ _ | github.GetCommit o p _ _
  | github.GetContents o p _ _ _ | github.CreatePullRequest o p _ _
  | github.AddLabelsToIssue o p _ _ _ =>
      o = GitbotHelpers.SourceOwner r /\ p = GitbotHelpers.SourceRepo r
  | github.Now _ | github.Printf _ _ => True
  end.

End GitbotSpec.

(** ** A small GitHub for the examples on package gitbot *)

Module Fixtures.

Import Go.

Definition not_found : error := errors_New "404 Not Found".

Definition manifest_text : string :=
  "image: registry/app:v1" +:+ newline +:+ "version: v1" +:+ newline.

(** The repository has one branch, [master], and one file, [deploy.yaml];
    pull requests can be opened but not labelled.  The world counts the
    calls that changed something. *)
Definition hub : github.Client nat :=
  {| github.Git_GetRef := fun _ _ ref w =>
       (if String.eqb ref "refs/heads/master"
        then inl {| github.Ref := Some ref;
                    github.Object := Some {| github.SHA := Some "0a1b2c" |} |}
        else inr not_found, w);
     github.Git_CreateRef := fun _ _ newRef w => (inl newRef, S w);
     github.Git_UpdateRef := fun _ _ ref _ w => (inl ref, S w);
     github.Git_CreateTree := fun _ _ _ entries w =>
       (inl {| github.Tree_SHA := Some "7e57ab"; github.Tree_Entries := entries |}, S w);
     github.Git_CreateCommit := fun _ _ commit w =>
       (inl (github.mkCommit (Some "c0ffee") (github.Commit_Author commit)
                             (github.Commit_Message commit) (github.Commit_Tree commit)
                             (github.Commit_Parents commit)), S w);
     github.Repositories_GetCommit := fun _ _ sha w =>
       (inl {| github.RepositoryCommit_SHA := Some sha;
               github.RepositoryCommit_Commit :=
                 Some (github.mkCommit None None (Some "previous") None []) |}, w);
     github.Repositories_GetContents := fun _ _ path _ w =>
       (if String.eqb path "deploy.yaml"
        then inl (Some {| github.GetContent := Some (inl manifest_text) |})
        else inr not_found, w);
     github.PullRequests_Create := fun _ _ _ w =>
       (inl {| github.Number := Some 7%Z;
               github.HTMLURL := Some "https://github.com/owner/manifests/pull/7" |}, S w);
     github.Issues_AddLabelsToIssue := fun _ _ _ _ w =>
       (Some (errors_New "403 Forbidden"), w);
     github.time_Now := fun w => (1600000000%Z, w) |}.

(** The same GitHub when it refuses every request. *)
Definition down : github.Client nat :=
  let refused := errors_New "503 Service Unavailable" in
  {| github.Git_GetRef := fun _ _ _ w => (inr refused, w);
     github.Git_CreateRef := fun _ _ _ w => (inr refused, w);
     github.Git_UpdateRef := fun _ _ _ _ w => (inr refused, w);
     github.Git_CreateTree := fun _ _ _ _ w => (inr refused, w);
     github.Git_CreateCommit := fun _ _ _ w => (inr refused, w);
     github.Repositories_GetCommit := fun _ _ _ w => (inr refused, w);
     github.Repositories_GetContents := fun _ _ _ _ w => (inr refused, w);
     github.PullRequests_Create := fun _ _ _ w => (inr refused, w);
     github.Issues_AddLabelsToIssue := fun _ _ _ _ w => (Some refused, w);
     github.time_Now := fun w => (1600000000%Z, w) |}.

(** Replacement by a text without substitutions, on the patterns the model
    of regexp2 reads. *)
Definition Replace (re : regexp2.regex) (input replacement : string) : string + error :=
  inl (regexp2.ReplaceFunc re input (fun _ => replacement)).

Definition master : github.Reference :=
  {| github.Ref := Some "refs/heads/master";
     github.Object := Some {| github.SHA := Some "0a1b2c" |} |}.

(** The release that [process] of [part_000] commits for the manifest
    [prod] of [old_app] and the version [v2]. *)
Definition release : Part000.Release :=
  Spec.committed_release Examples.old_cfg Examples.old_app "v2"
                         (Examples.old_manifest "prod").

(** The branch of that release once created, the entry of its one file that
    can be fetched, the tree GitHub answers for it, and the branch [master]
    once moved to the new commit. *)
Definition release_branch : github.Reference :=
  {| github.Ref := Some "refs/heads/release/prod-app-v2";
     github.Object := Some {| github.SHA := Some "0a1b2c" |} |}.

Definition deploy_entry : github.TreeEntry :=
  {| github.Path := Some "deploy.yaml";
     github.Type_ := Some "blob";
     github.Content := Some ("image: registry/app:v2" +:+ newline +:+
                             "version: v2" +:+ newline);
     github.Mode := Some "100644" |}.

Definition tree : github.Tree :=
  {| github.Tree_SHA := Some "7e57ab"; github.Tree_Entries := [deploy_entry] |}.

Definition moved : github.Reference :=
  {| github.Ref := Some "refs/heads/master";
     github.Object := Some {| github.SHA := Some "c0ffee" |} |}.

(** What GitHub answers for a path of the repository. *)
Definition content_of (path : string) : option github.RepositoryContent + error :=
  fst (github.Repositories_GetContents hub "owner" "manifests" path "master" 0).

(** A client of process.go whose world is the log of the matches reported:
    every rule finds the old version [1.0] once in every file. *)
Definition recording : Process.Client (list regexp2.Match) :=
  {| Process.MakeChangeFunc := fun r _ _ _ w =>
       let found := [ {| regexp2.text := "version: 1.0";
                         regexp2.groups := [("version", "1.0")] |} ] in
       ((r, found), w ++ found);
     Process.Commit := fun r w => ((r, None), w);
     Process.CreatePR := fun r w =>
       ((r, inl "https://github.com/owner/manifests/pull/1"), w) |}.

End Fixtures.

(** ** Vocabulary of the statements on the two processing loops *)

Module ProcessSpec.

Import Go.

(** The calls of [MakeChangeFunc] that process.go makes for one file: the
    image rule, the version rule, one rule per additional key, one rule per
    additional prefix. *)
Definition rewrite_calls (app : Process.Application) (filePath : string)
    : list Process.Event :=
  [Process.CallMakeChangeFunc filePath
     (Sprintf Process.imageRewriteRegexTemplate [Process.Image app]);
   Process.CallMakeChangeFunc filePath Process.versionRewriteRegex] ++
  map (fun key => Process.CallMakeChangeFunc filePath
                    (Sprintf Process.additionalRewriteKeysRegexTemplate [key]))
      (Process.AdditionalRewriteKeys app) ++
  map (fun prefix => Process.CallMakeChangeFunc filePath
                       (Sprintf Process.additionalRewritePrefixRegexTemplate [prefix]))
      (Process.AdditionalRewritePrefix app).

Definition is_Commit (e : Process.Event) : bool :=
  match e with
  | Process.CallCommit _ _ => true
  | _ => false
  end.

(** The world keeps a log of the matches that [MakeChangeFunc] reports, in
    the order of the reports; commits and pull requests leave the log as it
    is. *)
Definition keeps_log {World : Type} (client : Process.Client World)
    (log : World -> list regexp2.Match) : Prop :=
  (forall r filePath regexText evaluator w,
     log (snd (Process.MakeChangeFunc client r filePath regexText evaluator w)) =
     log w ++ snd (fst (Process.MakeChangeFunc client r filePath regexText evaluator w))) /\
  (forall r w, log (snd (Process.Commit client r w)) = log w) /\
  (forall r w, log (snd (Process.CreatePR client r w)) = log w).

(** The texts of a list, one after the other. *)
Fixpoint join_all (texts : list string) : string :=
  match texts with
  | [] => ""
  | text :: rest => text +:+ join_all rest
  end.

(** One line of the section [Diff from last release]. *)
Definition compare_link (app : Process.Application) (version oldVersion : string)
    : string :=
  Sprintf ("https://github.com/%s/%s/compare/%s...%s" +:+ newline)
          [Process.SourceOwner app; Process.SourceName app; version; oldVersion].

(** The part of the body on the release of the source. *)
Definition release_section (app : Process.Application) (version : string)
    (oldVersions : list string) : string :=
  "## Release" +:+ newline +:+
  Sprintf ("https://github.com/%s/%s/releases/tag/%s" +:+ newline)
          [Process.SourceOwner app; Process.SourceName app; version] +:+
  newline +:+
  "### Diff from last release" +:+ newline +:+
  join_all (map (compare_link app version) oldVersions) +:+
  newline.

(** The line that process.go logs for an entry of the result. *)
Definition processed_line (pr : Process.PullRequest) : Process.Event :=
  Process.Printf ("Processed PR: %s" +:+ newline) [Eff.AStr (Process.url pr)].

(** The changes that part_000 registers for one file. *)
Definition file_changes (app : Part000.Application) (version filePath : string)
    : list Part000.Change :=
  [ {| Part000.filePath := filePath;
       Part000.regexText := Sprintf "%s:.*" [Part000.Image app];
       Part000.changedText := Sprintf "%s:%s" [Part000.Image app; version] |} ] ++
  (if Part000.RewriteVersion app
   then [ {| Part000.filePath := filePath;
             Part000.regexText := "version: .*";
             Part000.changedText := Sprintf "version: %s" [version] |} ]
   else []) ++
  (if Part000.RewriteNewTag app && Contains filePath "kustomization.yaml"
   then [ {| Part000.filePath := filePath;
             Part000.regexText := "newTag: .*";
             Part000.changedText := Sprintf "newTag: %s" [version] |} ]
   else []).

(** The text of the notification of part_000 for the entries of a result. *)
Definition notified_urls (prs : Part000.PullRequests) : string :=
  join_all (map (fun pr => Sprintf ("`%s`" +:+ newline +:+ "```%s```" +:+ newline)
                                   [Part000.env pr; Part000.url pr]) prs).

(** The pauses of a run of part_000. *)
Definition pauses (tr : list Part000.Event) : nat :=
  List.length (List.filter (fun e => match e with
                                     | Part000.Sleep _ => true
                                     | _ => false
                                     end) tr).

(** The attempts of a retried commit as they show in the trace of part_000:
    each refused attempt is followed by a pause of three seconds and by the
    next attempt; [last] is the answer to the last attempt. *)
Definition retried_commit (r : Part000.Release) (refused : list error)
    (last : option error) : list Part000.Event :=
  flat_map (fun e => [Part000.CallCommit r (Some e); Part000.Sleep 3000000000%Z]) refused ++
  [Part000.CallCommit r last].

(** Neither an attempt to commit nor a pause. *)
Definition no_attempt (e : Part000.Event) : Prop :=
  match e with
  | Part000.CallCommit _ _ | Part000.Sleep _ => False
  | _ => True
  end.

(** A commit that process.go saw refused. *)
Definition is_refused_commit (e : Process.Event) : bool :=
  match e with
  | Process.CallCommit _ (Some _) => true
  | _ => false
  end.

(** Every pause of a trace of part_000 lasts three seconds and stands
    between a refused attempt to commit a release and the next attempt to
    commit the same release; [before] is the event before the trace. *)
Fixpoint pauses_in_place (before : option Part000.Event) (tr : list Part000.Event)
    : Prop :=
  match tr with
  | [] => True
  | Part000.Sleep d :: rest =>
      d = 3000000000%Z /\
      (exists r e answer rest',
         before = Some (Part000.CallCommit r (Some e)) /\
         rest = Part000.CallCommit r answer :: rest') /\
      pauses_in_place (Some (Part000.Sleep d)) rest
  | e :: rest => pauses_in_place (Some e) rest
  end.

(** The manifests that accept the version, in part_000. *)
Definition accepting (version : string) (ms : list Part000.Manifest)
    : list Part000.Manifest :=
  List.filter (fun m => Part000.shouldProcess m version) ms.

End ProcessSpec.

(** ** Tactics *)

(** One step of a run that may panic: the equations of the runs (the rewrite
    database [panic_run]), then the projections of the runs they expose. *)
Create Rewrite HintDb panic_run.

Ltac panic_step :=
  repeat (progress (autorewrite with panic_run;
                    cbn [Eff.result Eff.world Eff.trace fst snd app])).

(** Membership in a trace that evaluates. *)
Ltac in_trace := vm_compute; repeat (first [left; reflexivity | right]).

(** * Properties *)

(** ** Facts about strings *)

Section Strings.

Lemma append_assoc (a b c : string) : (a +:+ b) +:+ c = a +:+ (b +:+ c).
Proof. induction a as [|x a IH]; simpl; congruence. Qed.

Lemma append_nil_r (a : string) : a +:+ "" = a.
Proof. induction a as [|x a IH]; simpl; congruence. Qed.

Lemma length_append (a b : string) :
  String.length (a +:+ b) = String.length a + String.length b.
Proof. induction a as [|x a IH]; simpl; congruence. Qed.

Lemma substring_append (n : nat) (a b : string) :
  n <= String.length a -> substring 0 n (a +:+ b) = substring 0 n a.
Proof.
  revert n. induction a as [|x a IH]; intros n Hn; simpl in *.
  - replace n with 0 by lia. destruct b; reflexivity.
  - destruct n as [|n]; [reflexivity|]. simpl. rewrite IH by lia. reflexivity.
Qed.

End Strings.

(** ** The manifest filter *)

Section Filter.
Import Go.

Lemma HasPrefix_empty (s : string) : HasPrefix s "" = true.
Proof. destruct s; reflexivity. Qed.

Lemma existsb_false_iff {A} (f : A -> bool) (l : list A) :
  existsb f l = false <-> forall x, In x l -> f x = false.
Proof.
  induction l as [|a l IH]; simpl.
  - split; [intros _ x [] | reflexivity].
  - rewrite orb_false_iff, IH. split.
    + intros [Ha Hl] x [<- | Hx]; auto.
    + intros H. split; [apply H; now left | intros x Hx; apply H; now right].
Qed.

(** [shouldProcess] reads the prefixes of the manifest and nothing else,
    and is the same function of them in both revisions. *)
Lemma shouldProcess_accepts (m : Process.Manifest) (v : string) :
  Process.shouldProcess m v = Spec.accepts (Process.Filters m) v.
Proof.
  unfold Process.shouldProcess, Spec.accepts.
  destruct (String.eqb v ""); [reflexivity|].
  destruct (String.eqb v "latest"); [reflexivity|].
  destruct (existsb _ (Config.ExcludePrefixes _)); [reflexivity|].
  destruct (Nat.eqb _ 0); [reflexivity|].
  destruct (existsb _ _); reflexivity.
Qed.

Lemma Part000_shouldProcess_accepts (m : Part000.Manifest) (v : string) :
  Part000.shouldProcess m v = Spec.accepts (Part000.Filters m) v.
Proof.
  unfold Part000.shouldProcess, Spec.accepts.
  destruct (String.eqb v ""); [reflexivity|].
  destruct (String.eqb v "latest"); [reflexivity|].
  destruct (existsb _ (Config.ExcludePrefixes _)); [reflexivity|].
  destruct (Nat.eqb _ 0); [reflexivity|].
  destruct (existsb _ _); reflexivity.
Qed.

Lemma accepts_reserved (f : Config.Filters) (v : string) :
  v = "" \/ v = "latest" -> Spec.accepts f v = false.
Proof. intros [-> | ->]; reflexivity. Qed.

(** The filter once the two reserved versions are out of the way. *)
Lemma accepts_ordinary (f : Config.Filters) (v : string) :
  v <> "" -> v <> "latest" ->
  Spec.accepts f v =
    negb (existsb (HasPrefix v) (Config.ExcludePrefixes f)) &&
    (Nat.eqb (List.length (Config.IncludePrefixes f)) 0 ||
     existsb (HasPrefix v) (Config.IncludePrefixes f)).
Proof.
  intros Hne Hnl. unfold Spec.accepts.
  apply String.eqb_neq in Hne, Hnl. rewrite Hne, Hnl. reflexivity.
Qed.

Lemma accepts_no_include (f : Config.Filters) (v : string) :
  Config.IncludePrefixes f = [] -> v <> "" -> v <> "latest" ->
  (Spec.accepts f v = true <->
   forall p, In p (Config.ExcludePrefixes f) -> HasPrefix v p = false).
Proof.
  intros Hinc Hne Hnl. rewrite accepts_ordinary by assumption.
  rewrite Hinc. simpl. rewrite andb_true_r, negb_true_iff.
  apply existsb_false_iff.
Qed.

Lemma accepts_empty_exclude (f : Config.Filters) (v : string) :
  In "" (Config.ExcludePrefixes f) -> Spec.accepts f v = false.
Proof.
  intros Hin. unfold Spec.accepts.
  assert (Hex : existsb (HasPrefix v) (Config.ExcludePrefixes f) = true).
  { apply existsb_exists. exists "". split; [exact Hin | apply HasPrefix_empty]. }
  rewrite Hex. simpl. rewrite andb_false_r. reflexivity.
Qed.

Lemma accepts_empty_include (f : Config.Filters) (v : string) :
  In "" (Config.IncludePrefixes f) -> v <> "" -> v <> "latest" ->
  (forall p, In p (Config.ExcludePrefixes f) -> HasPrefix v p = false) ->
  Spec.accepts f v = true.
Proof.
  intros Hin Hne Hnl Hex. rewrite accepts_ordinary by assumption.
  apply existsb_false_iff in Hex. rewrite Hex. simpl.
  apply orb_true_iff. right.
  apply existsb_exists. exists "". split; [exact Hin | apply HasPrefix_empty].
Qed.

(** C6: the empty version and the version [latest] are rejected whatever
    the include and exclude prefixes of the manifest are, in process.go and
    in [part_000]. *)
Theorem shouldProcess_rejects_empty_and_latest (v : string) :
  v = "" \/ v = "latest" ->
  (forall m, Process.shouldProcess m v = false) /\
  (forall m, Part000.shouldProcess m v = false).
Proof.
  intros Hv. split; intros m.
  - rewrite shouldProcess_accepts. apply accepts_reserved, Hv.
  - rewrite Part000_shouldProcess_accepts. apply accepts_reserved, Hv.
Qed.

Lemma shouldProcess_rejects_empty_and_latest_witness :
  Process.shouldProcess Examples.include_all "latest" = false /\
  Part000.shouldProcess (Examples.old_manifest "prod") "" = false.
Proof.
  split.
  - apply (proj1 (shouldProcess_rejects_empty_and_latest "latest"
                    (or_intror eq_refl))).
  - apply (proj2 (shouldProcess_rejects_empty_and_latest "" (or_introl eq_refl))).
Defined.

(** C5, as stated, fails at the version [latest]: with no include prefix and
    no exclude prefix at all, no exclude prefix is a prefix of [latest], and
    still the manifest is not processed. *)
Lemma shouldProcess_empty_include_counterexample :
  Config.IncludePrefixes (Process.Filters Examples.prod) = [] /\
  ~ (Process.shouldProcess Examples.prod "latest" = true <->
     forall p, In p (Config.ExcludePrefixes (Process.Filters Examples.prod)) ->
               HasPrefix "latest" p = false).
Proof.
  split; [reflexivity|].
  intros [_ H].
  assert (Hnone : forall p,
             In p (Config.ExcludePrefixes (Process.Filters Examples.prod)) ->
             HasPrefix "latest" p = false) by (intros p []).
  specialize (H Hnone). discriminate H.
Qed.

(** C5, amended: for a manifest without include prefixes and a version that
    is neither empty nor [latest], the manifest is processed exactly when no
    exclude prefix is a prefix of the version, in process.go and in
    [part_000]. *)
Theorem shouldProcess_empty_include (v : string) :
  v <> "" -> v <> "latest" ->
  (forall m : Process.Manifest,
     Config.IncludePrefixes (Process.Filters m) = [] ->
     (Process.shouldProcess m v = true <->
      forall p, In p (Config.ExcludePrefixes (Process.Filters m)) ->
                HasPrefix v p = false)) /\
  (forall m : Part000.Manifest,
     Config.IncludePrefixes (Part000.Filters m) = [] ->
     (Part000.shouldProcess m v = true <->
      forall p, In p (Config.ExcludePrefixes (Part000.Filters m)) ->
                HasPrefix v p = false)).
Proof.
  intros Hne Hnl. split; intros m Hinc.
  - rewrite shouldProcess_accepts. apply accepts_no_include; assumption.
  - rewrite Part000_shouldProcess_accepts. apply accepts_no_include; assumption.
Qed.

Lemma shouldProcess_empty_include_witness :
  Process.shouldProcess Examples.prod "v1.2.3" = true <->
  forall p, In p (Config.ExcludePrefixes (Process.Filters Examples.prod)) ->
            HasPrefix "v1.2.3" p = false.
Proof.
  apply (proj1 (shouldProcess_empty_include "v1.2.3"
                  ltac:(discriminate) ltac:(discriminate)) Examples.prod).
  reflexivity.
Defined.

(** C10: an empty exclude prefix rejects every version; an empty include
    prefix accepts every version that is not empty, not [latest] and not
    excluded; in process.go and in [part_000]. *)
Theorem shouldProcess_empty_prefix :
  (forall m : Process.Manifest,
     (In "" (Config.ExcludePrefixes (Process.Filters m)) ->
      forall v, Process.shouldProcess m v = false) /\
     (In "" (Config.IncludePrefixes (Process.Filters m)) ->
      forall v, v <> "" -> v <> "latest" ->
        (forall p, In p (Config.ExcludePrefixes (Process.Filters m)) ->
                   HasPrefix v p = false) ->
        Process.shouldProcess m v = true)) /\
  (forall m : Part000.Manifest,
     (In "" (Config.ExcludePrefixes (Part000.Filters m)) ->
      forall v, Part000.shouldProcess m v = false) /\
     (In "" (Config.IncludePrefixes (Part000.Filters m)) ->
      forall v, v <> "" -> v <> "latest" ->
        (forall p, In p (Config.ExcludePrefixes (Part000.Filters m)) ->
                   HasPrefix v p = false) ->
        Part000.shouldProcess m v = true)).
Proof.
  split; intros m; split.
  - intros Hin v. rewrite shouldProcess_accepts. apply accepts_empty_exclude, Hin.
  - intros Hin v Hne Hnl Hex. rewrite shouldProcess_accepts.
    apply accepts_empty_include; assumption.
  - intros Hin v. rewrite Part000_shouldProcess_accepts. apply accepts_empty_exclude, Hin.
  - intros Hin v Hne Hnl Hex. rewrite Part000_shouldProcess_accepts.
    apply accepts_empty_include; assumption.
Qed.

Lemma shouldProcess_empty_prefix_witness :
  (forall v, Process.shouldProcess Examples.filtered v = false) /\
  Process.shouldProcess Examples.include_all "v1.2.3" = true.
Proof.
  split.
  - apply (proj1 (proj1 shouldProcess_empty_prefix Examples.filtered)).
    simpl. right. left. reflexivity.
  - apply (proj2 (proj1 shouldProcess_empty_prefix Examples.include_all)).
    + simpl. right. left. reflexivity.
    + discriminate.
    + discriminate.
    + intros p [<- | []]. reflexivity.
Defined.

End Filter.

(** ** Release naming and branch resolution *)

Section Naming.
Import Go Process.


(** The four levels of the order, one by one. *)
Lemma base_branch_levels (cfg : Config) (app : Application) (m : Manifest)
    (version : string) :
  let base := gitbot.BaseBranch (Repo (newRelease cfg app m version)) in
  (BaseBranch m <> "" -> base = BaseBranch m) /\
  (BaseBranch m = "" -> ManifestBaseBranch app <> "" -> base = ManifestBaseBranch app) /\
  (BaseBranch m = "" -> ManifestBaseBranch app = "" -> DefaultBranch cfg <> "" ->
   base = DefaultBranch cfg) /\
  (BaseBranch m = "" -> ManifestBaseBranch app = "" -> DefaultBranch cfg = "" ->
   base = "master").
Proof.
  intros base. subst base. unfold newRelease, NewRelease. simpl.
  repeat split; intros;
    repeat match goal with
           | H : ?s = "" |- _ => rewrite H; clear H; simpl
           | H : ?s <> "" |- _ => apply String.eqb_neq in H; rewrite ?H; simpl
           end; reflexivity.
Qed.

(** In [part_000] the order has two levels only: the manifest's base branch,
    else the application's, empty or not. *)
Lemma Part000_base_branch (cfg : Part000.Config) (app : Part000.Application)
    (m : Part000.Manifest) (version : string) :
  gitbot.BaseBranch (Part000.Repo (Part000.newRelease cfg app m version)) =
  Spec.first_non_empty [Part000.BaseBranch m] (Part000.ManifestBaseBranch app).
Proof.
  unfold Part000.newRelease. simpl.
  destruct (String.eqb (Part000.BaseBranch m) ""); reflexivity.
Qed.

(** Closed forms of the two names. *)
Lemma getBranchName_eq (a : Application) (m : Manifest) (version : string) :
  getBranchName a m version =
  "rollout/" +:+ Env m +:+
  (if HideSourceName m then ""
   else "-" +:+ (if ShowSourceOwner m then SourceOwner a +:+ "-" else "") +:+ SourceName a)
  +:+ "-" +:+ version.
Proof.
  unfold getBranchName.
  destruct (HideSourceName m), (ShowSourceOwner m); simpl;
    repeat (rewrite ?append_assoc, ?append_nil_r; simpl); reflexivity.
Qed.

Lemma getCommitMessage_eq (a : Application) (m : Manifest) (version : string) :
  getCommitMessage a m version =
  "Rollout " +:+ Env m +:+
  (if HideSourceName m then ""
   else " " +:+ (if ShowSourceOwner m then SourceOwner a +:+ "/" else "") +:+ SourceName a)
  +:+ " " +:+ version.
Proof.
  unfold getCommitMessage.
  destruct (HideSourceName m), (ShowSourceOwner m); simpl;
    repeat (rewrite ?append_assoc, ?append_nil_r; simpl); reflexivity.
Qed.

(** C7: the branch name and the commit message are functions of the
    application, the manifest and the version alone (they read neither [cfg]
    nor the remote world), and of these only of the fields they print; two
    calls whose arguments agree, in particular two calls with identical
    arguments, return the same strings, in process.go and in [part_000]. *)
Theorem naming_deterministic :
  (forall (a1 a2 : Application) (m1 m2 : Manifest) (v1 v2 : string),
     SourceOwner a1 = SourceOwner a2 ->
     SourceName a1 = SourceName a2 ->
     Env m1 = Env m2 ->
     ShowSourceOwner m1 = ShowSourceOwner m2 ->
     HideSourceName m1 = HideSourceName m2 ->
     v1 = v2 ->
     getBranchName a1 m1 v1 = getBranchName a2 m2 v2 /\
     getCommitMessage a1 m1 v1 = getCommitMessage a2 m2 v2) /\
  (forall (a1 a2 : Part000.Application) (m1 m2 : Part000.Manifest) (v1 v2 : string),
     Part000.SourceOwner a1 = Part000.SourceOwner a2 ->
     Part000.SourceName a1 = Part000.SourceName a2 ->
     Part000.Env m1 = Part000.Env m2 ->
     Part000.ShowSourceOwner m1 = Part000.ShowSourceOwner m2 ->
     Part000.ShowSourceName m1 = Part000.ShowSourceName m2 ->
     v1 = v2 ->
     Part000.getBranchName a1 m1 v1 = Part000.getBranchName a2 m2 v2 /\
     Part000.getCommitMessage a1 m1 v1 = Part000.getCommitMessage a2 m2 v2).
Proof.
  split; intros a1 a2 m1 m2 v1 v2 Ho Hn He Hs Hh Hv.
  - rewrite !getBranchName_eq, !getCommitMessage_eq.
    rewrite Ho, Hn, He, Hs, Hh, Hv. split; reflexivity.
  - unfold Part000.getBranchName, Part000.getCommitMessage.
    rewrite Ho, Hn, He, Hs, Hh, Hv. split; reflexivity.
Qed.

Lemma naming_deterministic_witness :
  (getBranchName (Examples.app_of []) Examples.filtered "v1.2.3" =
     getBranchName (Examples.app_of []) Examples.filtered "v1.2.3" /\
   getCommitMessage (Examples.app_of []) Examples.filtered "v1.2.3" =
     getCommitMessage (Examples.app_of []) Examples.filtered "v1.2.3") /\
  (Part000.getBranchName Examples.old_app (Examples.old_manifest "prod") "v1.2.3" =
     Part000.getBranchName Examples.old_app (Examples.old_manifest "prod") "v1.2.3" /\
   Part000.getCommitMessage Examples.old_app (Examples.old_manifest "prod") "v1.2.3" =
     Part000.getCommitMessage Examples.old_app (Examples.old_manifest "prod") "v1.2.3").
Proof.
  split.
  - apply (proj1 naming_deterministic (Examples.app_of []) (Examples.app_of [])
             Examples.filtered Examples.filtered "v1.2.3" "v1.2.3"); reflexivity.
  - apply (proj2 naming_deterministic Examples.old_app Examples.old_app
             (Examples.old_manifest "prod") (Examples.old_manifest "prod")
             "v1.2.3" "v1.2.3"); reflexivity.
Defined.

(** The message of a release, and its commit branch unless the manifest
    commits without a pull request, are these names whatever [cfg] holds. *)
Lemma newRelease_names (cfg : Config) (app : Application) (m : Manifest)
    (version : string) :
  Message (newRelease cfg app m version) = getCommitMessage app m version /\
  (CommitWithoutPR m = false ->
   gitbot.CommitBranch (Repo (newRelease cfg app m version)) =
   getBranchName app m version).
Proof.
  unfold newRelease, NewRelease. simpl. split; [reflexivity|].
  intros ->. reflexivity.
Qed.

Example branch_of_the_spec_scenario :
  getBranchName (Examples.app_of []) Examples.prod "v1.2.3" = "rollout/prod-app-v1.2.3" /\
  getCommitMessage (Examples.app_of []) Examples.prod "v1.2.3" = "Rollout prod app v1.2.3" /\
  Part000.getBranchName Examples.old_app (Examples.old_manifest "prod") "v1.2.3" =
    "release/prod-app-v1.2.3" /\
  Part000.getCommitMessage Examples.old_app (Examples.old_manifest "prod") "v1.2.3" =
    "Release prod app v1.2.3".
Proof. repeat split; reflexivity. Qed.

End Naming.

(** ** Runs of the monad *)

Section Runs.
Context {Event World : Type}.
Lemma bind_run {A B} (m : Eff.M Event World A) (f : A -> Eff.M Event World B)
    (w : World) :
  (m ≫= f) w =
  Eff.mkRun (Eff.result (f (Eff.result (m w)) (Eff.world (m w))))
            (Eff.world (f (Eff.result (m w)) (Eff.world (m w))))
            (Eff.trace (m w) ++ Eff.trace (f (Eff.result (m w)) (Eff.world (m w)))).
Proof. reflexivity. Qed.

Lemma ret_run {A} (a : A) (w : World) :
  (mret a : Eff.M Event World A) w = Eff.mkRun a w [].
Proof. reflexivity. Qed.

Lemma emit_run (ev : Event) (w : World) : Eff.emit ev w = Eff.mkRun tt w [ev].
Proof. reflexivity. Qed.

Lemma call_run {A} (ev : A -> Event) (op : World -> A * World) (w : World) :
  Eff.call ev op w = Eff.mkRun (fst (op w)) (snd (op w)) [ev (fst (op w))].
Proof. unfold Eff.call. destruct (op w); reflexivity. Qed.

Lemma run_eta {A} (r : Eff.Run Event World A) :
  Eff.mkRun (Eff.result r) (Eff.world r) (Eff.trace r) = r.
Proof. destruct r; reflexivity. Qed.

(** A loop over [l1 ++ l2] is the loop over [l1] followed by the loop over
    [l2], from the accumulator and the world the first one leaves. *)
Lemma for_range_app {A B} (body : A -> B -> Eff.M Event World B) (l1 l2 : list A)
    (acc : B) (w : World) :
  Eff.for_range (l1 ++ l2) body acc w =
  (Eff.for_range l1 body acc ≫= Eff.for_range l2 body) w.
Proof.
  revert acc w. induction l1 as [|x l1 IH]; intros acc w; simpl.
  - rewrite bind_run. simpl. symmetry. apply run_eta.
  - change (Eff.bind ?m ?f) with (m ≫= f). rewrite !bind_run.
    rewrite !IH, !bind_run. simpl. rewrite <- app_assoc. reflexivity.
Qed.

(** A property of the events of every iteration holds of the whole loop. *)
Lemma for_range_trace {A B} (P : Event -> Prop) (body : A -> B -> Eff.M Event World B)
    (l : list A) :
  (forall x acc w, Forall P (Eff.trace (body x acc w))) ->
  forall acc w, Forall P (Eff.trace (Eff.for_range l body acc w)).
Proof.
  intros Hbody. induction l as [|x l IH]; intros acc w; simpl.
  - constructor.
  - apply Forall_app. split; [apply Hbody | apply IH].
Qed.

End Runs.

(** ** The processing loop of process.go *)

Section ProcessLoop.
Import Go Process.
Context {World : Type}.
Variable NewGitHubClient : string -> Client World.
Variable cfg : Config.

Lemma makeChange_trace (client : Client World) (filePath regexText replacement : string)
    (acc : Release * gset string) (w : World) :
  Eff.trace (makeChange client filePath regexText replacement acc w) =
  [CallMakeChangeFunc filePath regexText].
Proof.
  unfold makeChange. destruct acc as [release set].
  rewrite bind_run, call_run. simpl.
  destruct (MakeChangeFunc client release filePath regexText _ w) as [[r ms] w'].
  reflexivity.
Qed.

Lemma rewriteFile_trace (client : Client World) (app : Application) (version filePath : string)
    (acc : Release * gset string) (w : World) :
  Forall (fun e => Spec.is_rewrite e = true)
         (Eff.trace (rewriteFile client app version filePath acc w)).
Proof.
  unfold rewriteFile. rewrite !bind_run. simpl.
  rewrite !makeChange_trace.
  repeat (apply Forall_app; split); try (repeat constructor);
    apply for_range_trace; intros; rewrite makeChange_trace; repeat constructor.
Qed.

(** What one iteration of the loop over the manifests does: either the
    manifest is filtered out and nothing happens, or its files are rewritten
    and the commit is attempted, after which the four ways on are: commit
    refused; committed without pull request; pull request refused; pull
    request opened, and then only an entry is appended. *)
Lemma processManifest_cases (client : Client World) (app : Application) (version : string)
    (m : Manifest) (prs : PullRequests) (w : World) :
  let run := processManifest cfg client app version m prs w in
  (shouldProcess m version = false /\ Eff.result run = prs /\ Eff.trace run = [])
  \/
  (shouldProcess m version = true /\
   exists (tr : list Event) (r : Release),
     Forall (fun e => Spec.is_rewrite e = true) tr /\
     ((exists e, Eff.trace run =
                   tr ++ [CallCommit r (Some e); Printf "Error Commiting: %s" [Eff.AErr e]] /\
                 Eff.result run = prs)
      \/ (CommitWithoutPR m = true /\
          Eff.trace run = tr ++ [CallCommit r None] /\ Eff.result run = prs)
      \/ (CommitWithoutPR m = false /\
          exists r' e, Eff.trace run =
                         tr ++ [CallCommit r None; CallCreatePR r' (inr e);
                                Printf "Error Submitting PR: %s" [Eff.AErr e]] /\
                       Eff.result run = prs)
      \/ (CommitWithoutPR m = false /\
          exists r' u, Eff.trace run = tr ++ [CallCommit r None; CallCreatePR r' (inl u)] /\
                       Eff.result run =
                         prs ++ [ {| env := Env m; url := u; err := None |} ]))).
Proof.
  intros run. subst run. unfold processManifest.
  destruct (shouldProcess m version) eqn:Hsp; cbn [negb].
  - right. split; [reflexivity|].
    rewrite bind_run.
    pose proof (for_range_trace _ _ (Files m)
                  (rewriteFile_trace client app version)
                  (newRelease cfg app m version, ∅) w) as Htr.
    destruct (Eff.for_range (Files m) (rewriteFile client app version)
                (newRelease cfg app m version, ∅) w) as [[rel set] w1 tr].
    cbn [Eff.result Eff.world Eff.trace] in *. exists tr.
    rewrite bind_run, call_run.
    destruct (Commit client (SetBody rel _) w1) as [[rel2 [e|]] w2];
      cbn [Eff.result Eff.world Eff.trace fst snd].
    + eexists. split; [exact Htr|]. left. exists e. split; reflexivity.
    + destruct (CommitWithoutPR m) eqn:Hc; cbn [negb].
      * eexists. split; [exact Htr|]. right. left. repeat split; reflexivity.
      * rewrite bind_run, call_run.
        destruct (CreatePR client rel2 w2) as [[rel3 [u|e]] w3];
          cbn [Eff.result Eff.world Eff.trace fst snd].
        -- eexists. split; [exact Htr|]. right. right. right.
           split; [reflexivity|]. exists rel2, u. split; reflexivity.
        -- eexists. split; [exact Htr|]. right. right. left.
           split; [reflexivity|]. exists rel2, e. split; reflexivity.
  - left. repeat split; reflexivity.
Qed.

Lemma created_urls_app (tr1 tr2 : list Event) :
  Spec.created_urls (tr1 ++ tr2) = Spec.created_urls tr1 ++ Spec.created_urls tr2.
Proof.
  induction tr1 as [|e tr1 IH]; simpl; [reflexivity|].
  destruct e as [| | r [u|e] |]; simpl; rewrite IH; reflexivity.
Qed.

Lemma created_urls_rewrite (tr : list Event) :
  Forall (fun e => Spec.is_rewrite e = true) tr -> Spec.created_urls tr = [].
Proof.
  induction 1 as [|e tr He _ IH]; simpl; [reflexivity|].
  destruct e; try discriminate He. exact IH.
Qed.

Lemma rewrite_not_failure (tr : list Event) :
  Forall (fun e => Spec.is_rewrite e = true) tr ->
  Forall (fun e => Spec.is_failure e = false /\ Spec.is_CreatePR e = false) tr.
Proof.
  intros H. eapply Forall_impl; [exact H|].
  intros e He. destruct e; try discriminate He. split; reflexivity.
Qed.




(** Whatever GitHub answers, no entry of the result carries an error: the
    field [err] is never set. *)
Lemma process_loop_no_error (client : Client World) (app : Application) (version : string)
    (ms : list Manifest) :
  forall (prs : PullRequests) (w : World),
    Forall (fun pr => err pr = None) prs ->
    Forall (fun pr => err pr = None)
           (Eff.result (Eff.for_range ms (processManifest cfg client app version) prs w)).
Proof.
  induction ms as [|m ms IH]; intros prs w Hprs; simpl; [exact Hprs|].
  apply IH.
  destruct (processManifest_cases client app version m prs w)
    as [(_ & Hres & _) | (_ & tr & r & _ & Hcase)].
  - rewrite Hres. exact Hprs.
  - destruct Hcase as [(e & _ & Hres) | [(_ & _ & Hres) |
                       [(_ & r' & e & _ & Hres) | (_ & r' & u & _ & Hres)]]];
      rewrite Hres; try exact Hprs.
    apply Forall_app. split; [exact Hprs | repeat constructor].
Qed.


(** C9: for an image that no application of the catalog carries,
    [processImage] returns the error [No application found for image ...]
    and makes no call at all: no manifest is processed, the remote world is
    left as it was. *)
Theorem processImage_unknown_image (f : Flow) (image version : string) (w : World) :
  (forall app, In app (ApplicationList cfg) -> Image app <> image) ->
  processImage NewGitHubClient cfg f image version w =
  Eff.mkRun (Some (errors_New ("No application found for image " +:+ image))) w [].
Proof.
  intros Hnone. unfold processImage, getApplicationByImage.
  assert (Hfind : find_application image (ApplicationList cfg) = None).
  { induction (ApplicationList cfg) as [|app apps IH]; simpl; [reflexivity|].
    destruct (String.eqb_spec image (Image app)) as [Heq|_].
    - exfalso. apply (Hnone app); [now left | now symmetry].
    - apply IH. intros app' Hin. apply Hnone. now right. }
  rewrite Hfind. reflexivity.
Qed.

(** When the image is in the catalog, the first application that carries it
    is the one processed. *)
Lemma getApplicationByImage_found (image : string) (app : Application) :
  getApplicationByImage cfg image = inl app ->
  In app (ApplicationList cfg) /\ Image app = image.
Proof.
  unfold getApplicationByImage.
  destruct (find_application image (ApplicationList cfg)) as [app'|] eqn:Hfind;
    [|discriminate].
  intros [= <-]. revert Hfind.
  induction (ApplicationList cfg) as [|a apps IH]; simpl; [discriminate|].
  destruct (String.eqb_spec image (Image a)) as [Heq|_].
  - intros [= <-]. split; [now left | now symmetry].
  - intros H. destruct (IH H) as [Hin Him]. split; [now right | exact Him].
Qed.

(** In process.go the commit is attempted once; when it is refused the
    iteration opens no pull request and appends nothing, and the loop goes
    on with the next manifest. *)
Lemma refused_commit_skips_manifest (client : Client World) (app : Application)
    (version : string) (m : Manifest) (prs : PullRequests) (w : World) :
  let run := processManifest cfg client app version m prs w in
  Exists (fun e => Spec.is_failure e = true /\ Spec.is_CreatePR e = false) (Eff.trace run) ->
  Eff.result run = prs /\
  Forall (fun e => Spec.is_CreatePR e = false) (Eff.trace run).
Proof.
  intros run Hex. subst run.
  destruct (processManifest_cases client app version m prs w)
    as [(_ & Hres & Htr) | (_ & tr & r & Hrw & Hcase)].
  - rewrite Hres, Htr. split; [reflexivity | constructor].
  - apply rewrite_not_failure in Hrw.
    assert (Hrw' : Forall (fun e => Spec.is_CreatePR e = false) tr).
    { eapply Forall_impl; [exact Hrw|]. intros e [_ He]. exact He. }
    assert (Hnone : ~ Exists (fun e => Spec.is_failure e = true /\ Spec.is_CreatePR e = false) tr).
    { intros Hbad. apply Exists_exists in Hbad. destruct Hbad as (e & Hin & Hf & _).
      rewrite Forall_forall in Hrw. destruct (Hrw e Hin) as [Hnf _]. congruence. }
    destruct Hcase as [(e & Htr & Hres) | [(_ & Htr & Hres) |
                       [(_ & r' & e & Htr & Hres) | (_ & r' & u & Htr & Hres)]]];
      rewrite Htr in *; rewrite Hres.
    + split; [reflexivity|]. apply Forall_app. split; [exact Hrw' | repeat constructor].
    + split; [reflexivity|]. apply Forall_app. split; [exact Hrw' | repeat constructor].
    + exfalso. apply Exists_app in Hex. destruct Hex as [Hex | Hex]; [exact (Hnone Hex)|].
      repeat (apply Exists_cons in Hex; destruct Hex as [[Hf Hc] | Hex]; try discriminate).
      inversion Hex.
    + exfalso. apply Exists_app in Hex. destruct Hex as [Hex | Hex]; [exact (Hnone Hex)|].
      repeat (apply Exists_cons in Hex; destruct Hex as [[Hf Hc] | Hex]; try discriminate).
      inversion Hex.
Qed.

End ProcessLoop.



Lemma processImage_unknown_image_witness :
  Process.processImage Examples.friendly (Examples.cfg_of [Examples.app_of [Examples.prod]])
    Examples.flow "registry/other" "v1.2.3" 0 =
  Eff.mkRun (Some (Go.errors_New "No application found for image registry/other")) 0 [].
Proof.
  apply (processImage_unknown_image Examples.friendly
           (Examples.cfg_of [Examples.app_of [Examples.prod]])
           Examples.flow "registry/other" "v1.2.3" 0).
  intros app [<- | []]. discriminate.
Defined.

(** ** The processing loop of part_000 *)

Section Part000Loop.
Import Go Part000.
Context {World : Type}.
Variable NewGitHubClient : string -> Client World.
Variable Post : string -> string -> MessageDetail -> World -> option error * World.
Variable cfg : Config.

Lemma commitDelay_three_seconds (n : nat) : commitDelay n = 3000000000%Z.
Proof. reflexivity. Qed.

(** The retried commit: at most three attempts, a pause of three seconds
    between two attempts, success as soon as one attempt succeeds, and an
    error once three attempts have been refused. *)
Lemma commit_retry_cases (client : Client World) (r : Release) (w : World) :
  let run := retry.Do Sleep (Eff.call (CallCommit r) (Commit client r))
                      commitDelay retryCommitTries w in
  let pause := Sleep 3000000000%Z in
  (Eff.result run = None /\
   (Eff.trace run = [CallCommit r None] \/
    (exists e1, Eff.trace run = [CallCommit r (Some e1); pause; CallCommit r None]) \/
    (exists e1 e2, Eff.trace run = [CallCommit r (Some e1); pause;
                                    CallCommit r (Some e2); pause; CallCommit r None])))
  \/
  (exists e1 e2 e3,
     Eff.result run = Some (retry_Error [e1; e2; e3]) /\
     Eff.trace run = [CallCommit r (Some e1); pause;
                      CallCommit r (Some e2); pause; CallCommit r (Some e3)]).
Proof.
  intros run pause. subst run pause.
  unfold retry.Do, retryCommitTries. simpl retry.attempts_from.
  rewrite bind_run, call_run.
  destruct (Commit client r w) as [[e1|] w1]; cbn [fst snd Eff.result Eff.world Eff.trace].
  2: { left. split; [reflexivity | left; reflexivity]. }
  rewrite !bind_run, emit_run, call_run. cbn [fst snd Eff.result Eff.world Eff.trace].
  destruct (Commit client r w1) as [[e2|] w2]; cbn [fst snd Eff.result Eff.world Eff.trace].
  2: { left. split; [reflexivity | right; left; exists e1; reflexivity]. }
  rewrite !bind_run, emit_run, call_run. cbn [fst snd Eff.result Eff.world Eff.trace].
  destruct (Commit client r w2) as [[e3|] w3]; cbn [fst snd Eff.result Eff.world Eff.trace].
  2: { left. split; [reflexivity | right; right; exists e1, e2; reflexivity]. }
  right. exists e1, e2, e3. split; reflexivity.
Qed.

(** What one iteration of the loop over the manifests does. *)
Lemma Part000_processManifest_cases (client : Client World) (app : Application)
    (version : string) (m : Manifest) (prs : PullRequests) (w : World) :
  let run := processManifest cfg client app version m prs w in
  let r := Spec.committed_release cfg app version m in
  let retried := retry.Do Sleep (Eff.call (CallCommit r) (Commit client r))
                          commitDelay retryCommitTries w in
  (shouldProcess m version = false /\ Eff.result run = prs /\ Eff.trace run = [])
  \/
  (shouldProcess m version = true /\
   ((exists e, Eff.result retried = Some e /\
               Eff.trace run = Eff.trace retried ++ [Printf "Error Commiting: %s" [Eff.AErr e]] /\
               Eff.result run = prs /\ Eff.world run = Eff.world retried)
    \/ (Eff.result retried = None /\ CommitWithoutPR m = true /\
        Eff.trace run = Eff.trace retried /\ Eff.result run = prs)
    \/ (Eff.result retried = None /\ CommitWithoutPR m = false /\
        exists e, Eff.trace run =
                    Eff.trace retried ++ [CallCreatePR r (inr e);
                                          Printf "Error Submitting PR: %s" [Eff.AErr e]] /\
                  Eff.result run = prs)
    \/ (Eff.result retried = None /\ CommitWithoutPR m = false /\
        exists u, Eff.trace run = Eff.trace retried ++ [CallCreatePR r (inl u)] /\
                  Eff.result run = prs ++ [ {| env := Env m; url := u; err := None |} ]))).
Proof.
  intros run r retried. subst run. unfold processManifest.
  destruct (shouldProcess m version) eqn:Hsp; cbn [negb].
  2: { left. repeat split; reflexivity. }
  right. split; [reflexivity|].
  rewrite bind_run. fold (Spec.committed_release cfg app version m). fold r. fold retried.
  destruct retried as [[e|] w1 tr]; cbn [Eff.result Eff.world Eff.trace].
  - left. exists e. repeat split; try reflexivity.
  - destruct (CommitWithoutPR m) eqn:Hc; cbn [negb].
    + right. left. rewrite app_nil_r. repeat split; reflexivity.
    + rewrite bind_run, call_run.
      destruct (CreatePR client r w1) as [[u|e] w2];
        cbn [fst snd Eff.result Eff.world Eff.trace].
      * right. right. right. repeat split. exists u. split; reflexivity.
      * right. right. left. repeat split. exists e. split; reflexivity.
Qed.

(** The events of an iteration, whatever GitHub answers. *)
Lemma Part000_iteration_bounds (client : Client World) (app : Application)
    (version : string) (m : Manifest) (prs : PullRequests) (w : World) :
  let run := processManifest cfg client app version m prs w in
  Spec.commit_attempts (Eff.trace run) <= 3 /\
  Forall Spec.pauses_three_seconds (Eff.trace run) /\
  (Spec.refused_commits (Eff.trace run) = 3 ->
   Eff.result run = prs /\ Forall Spec.opens_no_pr (Eff.trace run)).
Proof.
  intros run. subst run.
  destruct (Part000_processManifest_cases client app version m prs w)
    as [(_ & Hres & Htr) | (_ & Hcase)].
  { rewrite Hres, Htr. unfold Spec.commit_attempts, Spec.refused_commits. simpl.
    repeat split; try constructor; lia. }
  pose proof (commit_retry_cases client (Spec.committed_release cfg app version m) w)
    as Hretry. cbv zeta in Hretry.
  destruct Hcase as [(e & Hr & Htr & Hres & _) | [(Hr & _ & Htr & Hres) |
                     [(Hr & _ & e & Htr & Hres) | (Hr & _ & u & Htr & Hres)]]];
    rewrite Htr, Hres; clear Htr Hres;
    destruct Hretry as [(Hr' & [Ht | [(e1 & Ht) | (e1 & e2 & Ht)]])
                       | (e1 & e2 & e3 & Hr' & Ht)];
    try congruence; rewrite Ht; clear Ht;
    unfold Spec.commit_attempts, Spec.refused_commits; simpl;
    (split; [lia|]);
    (split; [repeat constructor|]);
    intros Hthree; try discriminate Hthree;
    (split; [reflexivity | repeat constructor]).
Qed.

(** The same two facts hold in [part_000] as in process.go: a manifest
    with [CommitWithoutPR] is committed to its base branch and its iteration
    opens no pull request and appends nothing; an image outside the catalog
    ends [processImage] with the error, before any call, the notification
    included. *)
Lemma Part000_commit_without_pr (client : Client World) (app : Application)
    (version : string) (m : Manifest) (prs : PullRequests) (w : World) :
  CommitWithoutPR m = true ->
  gitbot.CommitBranch (Repo (newRelease cfg app m version)) =
    gitbot.BaseBranch (Repo (newRelease cfg app m version)) /\
  Eff.result (processManifest cfg client app version m prs w) = prs /\
  Forall Spec.opens_no_pr (Eff.trace (processManifest cfg client app version m prs w)).
Proof.
  intros Hc. split; [|].
  { unfold newRelease. simpl. rewrite Hc. reflexivity. }
  destruct (Part000_processManifest_cases client app version m prs w)
    as [(_ & Hres & Htr) | (_ & Hcase)].
  { rewrite Hres, Htr. split; [reflexivity | constructor]. }
  pose proof (commit_retry_cases client (Spec.committed_release cfg app version m) w)
    as Hretry. cbv zeta in Hretry.
  destruct Hcase as [(e & Hr & Htr & Hres & _) | [(Hr & _ & Htr & Hres) |
                     [(_ & Hc' & _) | (_ & Hc' & _)]]]; try congruence;
    rewrite Htr, Hres; clear Htr Hres;
    destruct Hretry as [(Hr' & [Ht | [(e1 & Ht) | (e1 & e2 & Ht)]])
                       | (e1 & e2 & e3 & Hr' & Ht)];
    try congruence; rewrite Ht; (split; [reflexivity | repeat constructor]).
Qed.

Lemma Part000_processImage_unknown_image (f : Flow) (image version : string) (w : World) :
  (forall app, In app (ApplicationList cfg) -> Image app <> image) ->
  processImage NewGitHubClient Post cfg f image version w =
  Eff.mkRun (Some (errors_New ("No application found for image " +:+ image))) w [].
Proof.
  intros Hnone. unfold processImage, getApplicationByImage.
  assert (Hfind : find_application image (ApplicationList cfg) = None).
  { induction (ApplicationList cfg) as [|app apps IH]; simpl; [reflexivity|].
    destruct (String.eqb_spec image (Image app)) as [Heq|_].
    - exfalso. apply (Hnone app); [now left | now symmetry].
    - apply IH. intros app' Hin. apply Hnone. now right. }
  rewrite Hfind. reflexivity.
Qed.

(** No entry that [process] of [part_000] returns carries an error either,
    so that of the two branches of [notifyReleasePR] only the one that
    prints the URL is ever taken on what [processImage] hands over. *)
Lemma Part000_process_no_error (f : Flow) (app : Application) (version : string)
    (w : World) :
  Forall (fun pr => err pr = None)
         (Eff.result (process NewGitHubClient cfg f app version w)).
Proof.
  unfold process.
  generalize (NewGitHubClient (githubToken f)). intros client.
  assert (Hloop : forall ms prs w0,
             Forall (fun pr => err pr = None) prs ->
             Forall (fun pr => err pr = None)
                    (Eff.result (Eff.for_range ms (processManifest cfg client app version)
                                               prs w0))).
  { induction ms as [|m ms IH]; intros prs w0 Hprs; simpl; [exact Hprs|].
    apply IH.
    destruct (Part000_processManifest_cases client app version m prs w0)
      as [(_ & Hres & _) | (_ & Hcase)].
    - rewrite Hres. exact Hprs.
    - destruct Hcase as [(e & _ & _ & Hres & _) | [(_ & _ & _ & Hres) |
                         [(_ & _ & e & _ & Hres) | (_ & _ & u & _ & Hres)]]];
        rewrite Hres; try exact Hprs.
      apply Forall_app. split; [exact Hprs | repeat constructor]. }
  apply Hloop. constructor.
Qed.

Lemma notifyReleasePR_message (f : Flow) (image version : string) (prs : PullRequests)
    (app : Application) (w : World) :
  Forall (fun pr => err pr = None) prs ->
  exists e,
    Eff.trace (notifyReleasePR Post cfg f image version prs app w) =
    [CallPost (slackBotToken f) (SlackNotifiyChannel cfg)
       {| IsSuccess := true; IsPrNotify := true; AppName := Name app;
          Detail_Image := image; Version := version;
          PrURL := fold_left
                     (fun prURL pr =>
                        prURL +:+ Sprintf ("`%s`" +:+ newline +:+ "```%s```" +:+ newline)
                                          [env pr; url pr])
                     prs "" |} e].
Proof.
  intros Hok.
  assert (Hfold : forall acc,
             fold_left
               (fun prURL pr =>
                  match err pr with
                  | Some e =>
                      prURL +:+ Sprintf ("`%s`" +:+ newline +:+ "```%s```" +:+ newline)
                                        [env pr; Error e]
                  | None =>
                      prURL +:+ Sprintf ("`%s`" +:+ newline +:+ "```%s```" +:+ newline)
                                        [env pr; url pr]
                  end) prs acc =
             fold_left
               (fun prURL pr =>
                  prURL +:+ Sprintf ("`%s`" +:+ newline +:+ "```%s```" +:+ newline)
                                    [env pr; url pr]) prs acc).
  { induction Hok as [|pr prs Hpr _ IH]; intros acc; cbn [fold_left]; [reflexivity|].
    rewrite Hpr. apply IH. }
  unfold notifyReleasePR. rewrite call_run, Hfold. eexists. reflexivity.
Qed.

End Part000Loop.

(** ** The commit of a manifest: retried in part_000, attempted once in
    process.go *)

Section CommitRetry.
Import Go.

(** An iteration of part_000 on a manifest that accepts the version: the
    attempts to commit, then what follows them. *)
Lemma Part000_iteration_attempts {World : Type} (cfg : Part000.Config)
    (client : Part000.Client World) (app : Part000.Application) (version : string)
    (m : Part000.Manifest) (prs : Part000.PullRequests) (w : World) :
  Part000.shouldProcess m version = true ->
  let run := Part000.processManifest cfg client app version m prs w in
  let r := Spec.committed_release cfg app version m in
  exists refused last tail,
    Eff.trace run = ProcessSpec.retried_commit r refused last ++ tail /\
    Forall ProcessSpec.no_attempt tail /\
    ((last = None /\ List.length refused <= 2) \/
     (exists e3,
        last = Some e3 /\ List.length refused = 2 /\
        tail = [Part000.Printf "Error Commiting: %s"
                  [Eff.AErr (retry_Error (refused ++ [e3]))]] /\
        Eff.result run = prs)).
Proof.
  intros Hsp run r. subst run.
  pose proof (commit_retry_cases client r w) as Hretry. cbv zeta in Hretry.
  destruct (Part000_processManifest_cases cfg client app version m prs w)
    as [(Hno & _) | (_ & Hcase)]; [congruence|].
  fold r in Hcase.
  destruct Hcase as [(e & Hr & Htr & Hres & _) | [(Hr & _ & Htr & _) |
                     [(Hr & _ & e & Htr & _) | (Hr & _ & u & Htr & _)]]];
    rewrite Htr; clear Htr;
    destruct Hretry as [(Hr' & [Ht | [(e1 & Ht) | (e1 & e2 & Ht)]])
                       | (e1 & e2 & e3 & Hr' & Ht)];
    try congruence; rewrite Ht; clear Ht.
  - exists [e1; e2], (Some e3). eexists. split; [reflexivity|].
    split; [repeat constructor|]. right. exists e3.
    assert (e = retry_Error [e1; e2; e3]) as -> by congruence.
    repeat split; assumption.
  - exists [], None, []. split; [reflexivity|]. split; [constructor|].
    left. split; [reflexivity | cbn; lia].
  - exists [e1], None, []. split; [reflexivity|]. split; [constructor|].
    left. split; [reflexivity | cbn; lia].
  - exists [e1; e2], None, []. split; [reflexivity|]. split; [constructor|].
    left. split; [reflexivity | cbn; lia].
  - exists [], None. eexists. split; [reflexivity|]. split; [repeat constructor|].
    left. split; [reflexivity | cbn; lia].
  - exists [e1], None. eexists. split; [reflexivity|]. split; [repeat constructor|].
    left. split; [reflexivity | cbn; lia].
  - exists [e1; e2], None. eexists. split; [reflexivity|]. split; [repeat constructor|].
    left. split; [reflexivity | cbn; lia].
  - exists [], None. eexists. split; [reflexivity|]. split; [repeat constructor|].
    left. split; [reflexivity | cbn; lia].
  - exists [e1], None. eexists. split; [reflexivity|]. split; [repeat constructor|].
    left. split; [reflexivity | cbn; lia].
  - exists [e1; e2], None. eexists. split; [reflexivity|]. split; [repeat constructor|].
    left. split; [reflexivity | cbn; lia].
Qed.

(** An iteration of process.go on a manifest that accepts the version: the
    rewrite calls, one attempt to commit, then what follows it. *)
Lemma processManifest_single_attempt {World : Type} (cfg : Process.Config)
    (client : Process.Client World) (app : Process.Application) (version : string)
    (m : Process.Manifest) (prs : Process.PullRequests) (w : World) :
  Process.shouldProcess m version = true ->
  let run := Process.processManifest cfg client app version m prs w in
  exists rewrites r answer tail,
    Eff.trace run = rewrites ++ Process.CallCommit r answer :: tail /\
    Forall (fun e => Spec.is_rewrite e = true) rewrites /\
    Forall (fun e => ProcessSpec.is_Commit e = false) tail /\
    (forall e, answer = Some e ->
       tail = [Process.Printf "Error Commiting: %s" [Eff.AErr e]] /\
       Eff.result run = prs).
Proof.
  intros Hsp run. subst run.
  destruct (processManifest_cases cfg client app version m prs w)
    as [(Hno & _) | (_ & tr & r & Hrw & Hcase)]; [congruence|].
  destruct Hcase as [(e & Htr & Hres) | [(_ & Htr & _) |
                     [(_ & r' & e & Htr & _) | (_ & r' & u & Htr & _)]]];
    rewrite Htr.
  - exists tr, r, (Some e). eexists. split; [reflexivity|]. split; [exact Hrw|].
    split; [repeat constructor|]. intros e' [= <-]. split; [reflexivity | exact Hres].
  - exists tr, r, None, []. split; [reflexivity|]. split; [exact Hrw|].
    split; [constructor | intros e' [=]].
  - exists tr, r, None. eexists. split; [reflexivity|]. split; [exact Hrw|].
    split; [repeat constructor | intros e' [=]].
  - exists tr, r, None. eexists. split; [reflexivity|]. split; [exact Hrw|].
    split; [repeat constructor | intros e' [=]].
Qed.

End CommitRetry.

(** C3, as stated, fails on process.go, which attempts the commit of a
    manifest once: the commit below is refused and there is no second
    attempt. *)
Lemma commit_retry_counterexample :
  let run := Process.process Examples.refusing (Examples.cfg_of []) Examples.flow
               (Examples.app_of [Examples.prod]) "v1.2.3" 0 in
  Spec.passed "v1.2.3" [Examples.prod] = [Examples.prod] /\
  List.length (List.filter ProcessSpec.is_Commit (Eff.trace run)) = 1 /\
  List.length (List.filter ProcessSpec.is_refused_commit (Eff.trace run)) = 1 /\
  Eff.result run = [].
Proof. vm_compute. repeat split. Qed.

(** C3, amended: in part_000 the commit of a manifest that accepts the
    version is retried: the attempts are at most three, every refused attempt
    but the third is followed by a pause of three seconds and by the next
    attempt, and nothing is attempted after an accepted one; in process.go the
    commit is attempted once.  In both, when the attempts are exhausted
    (three refused, in process.go the one) the error is logged, the iteration
    opens no pull request and appends no entry, and the loop goes on with
    the manifests that follow, from the slice built before and the world the
    refused attempts leave. *)
Theorem commit_retry_exhausted
    {World : Type} (NewGitHubClient : string -> Part000.Client World)
    (cfg : Part000.Config) (f : Part000.Flow) (app : Part000.Application)
    (m : Part000.Manifest)
    {World' : Type} (NewGitHubClient' : string -> Process.Client World')
    (cfg' : Process.Config) (f' : Process.Flow) (app' : Process.Application)
    (m' : Process.Manifest) (version : string) :
  let body := Part000.processManifest cfg (NewGitHubClient (Part000.githubToken f))
                                      app version in
  let r := Spec.committed_release cfg app version m in
  let body' := Process.processManifest cfg' (NewGitHubClient' (Process.githubToken f'))
                                       app' version in
  (* part_000: three attempts, three seconds *)
  Part000.retryCommitTries = 3 /\
  (forall prs w,
     Part000.shouldProcess m version = true ->
     exists refused last tail,
       Eff.trace (body m prs w) = ProcessSpec.retried_commit r refused last ++ tail /\
       Forall ProcessSpec.no_attempt tail /\
       ((last = None /\ List.length refused <= 2) \/
        (exists e3,
           last = Some e3 /\ List.length refused = 2 /\
           tail = [Part000.Printf "Error Commiting: %s"
                     [Eff.AErr (Go.retry_Error (refused ++ [e3]))]] /\
           Eff.result (body m prs w) = prs))) /\
  (* part_000: the manifests that follow *)
  (forall ms1 ms2 w,
     Part000.Manifests app = ms1 ++ m :: ms2 ->
     let before := Eff.for_range ms1 body [] w in
     let this := body m (Eff.result before) (Eff.world before) in
     let after := Eff.for_range ms2 body (Eff.result before) (Eff.world this) in
     Spec.refused_commits (Eff.trace this) = Part000.retryCommitTries ->
     Forall Spec.opens_no_pr (Eff.trace this) /\
     Eff.result (Part000.process NewGitHubClient cfg f app version w) = Eff.result after /\
     Eff.trace (Part000.process NewGitHubClient cfg f app version w) =
       Eff.trace before ++ Eff.trace this ++ Eff.trace after) /\
  (* process.go: one attempt *)
  (forall prs w,
     Process.shouldProcess m' version = true ->
     exists rewrites r' answer tail,
       Eff.trace (body' m' prs w) = rewrites ++ Process.CallCommit r' answer :: tail /\
       Forall (fun e => Spec.is_rewrite e = true) rewrites /\
       Forall (fun e => ProcessSpec.is_Commit e = false) tail /\
       (forall e, answer = Some e ->
          tail = [Process.Printf "Error Commiting: %s" [Eff.AErr e]] /\
          Eff.result (body' m' prs w) = prs)) /\
  (* process.go: the manifests that follow *)
  (forall ms1 ms2 w,
     Process.Manifests app' = ms1 ++ m' :: ms2 ->
     let before := Eff.for_range ms1 body' [] w in
     let this := body' m' (Eff.result before) (Eff.world before) in
     let after := Eff.for_range ms2 body' (Eff.result before) (Eff.world this) in
     Exists (fun e => ProcessSpec.is_refused_commit e = true) (Eff.trace this) ->
     Forall (fun e => Spec.is_CreatePR e = false) (Eff.trace this) /\
     Eff.result (Process.process NewGitHubClient' cfg' f' app' version w) =
       Eff.result after /\
     Eff.trace (Process.process NewGitHubClient' cfg' f' app' version w) =
       Eff.trace before ++ Eff.trace this ++ Eff.trace after).
Proof.
  intros body r body'. split; [reflexivity|]. split; [|split; [|split]].
  - intros prs w Hsp.
    exact (Part000_iteration_attempts cfg (NewGitHubClient (Part000.githubToken f))
             app version m prs w Hsp).
  - intros ms1 ms2 w Hms before this after Hthree.
    destruct (Part000_iteration_bounds cfg
                (NewGitHubClient (Part000.githubToken f)) app version m
                (Eff.result before) (Eff.world before)) as (_ & _ & Habort).
    destruct (Habort Hthree) as [Hres Hnopr].
    split; [exact Hnopr|].
    subst after this before. unfold Part000.process. fold body.
    rewrite Hms, for_range_app, bind_run. cbn [Eff.for_range Eff.result Eff.trace].
    change (Eff.bind ?x ?k) with (x ≫= k). rewrite bind_run.
    cbn [Eff.result Eff.world Eff.trace].
    fold body in Hres. rewrite Hres. split; reflexivity.
  - intros prs w Hsp.
    exact (processManifest_single_attempt cfg' (NewGitHubClient' (Process.githubToken f'))
             app' version m' prs w Hsp).
  - intros ms1 ms2 w Hms before this after Hrefused.
    assert (Hex : Exists (fun e => Spec.is_failure e = true /\ Spec.is_CreatePR e = false)
                         (Eff.trace this)).
    { apply Exists_exists in Hrefused. destruct Hrefused as (e & Hin & He).
      apply Exists_exists. exists e. split; [exact Hin|].
      destruct e as [| rel [err|] | |]; try discriminate He. split; reflexivity. }
    pose proof (refused_commit_skips_manifest cfg'
                  (NewGitHubClient' (Process.githubToken f')) app' version m'
                  (Eff.result before) (Eff.world before)) as Hskip.
    cbv zeta in Hskip. destruct (Hskip Hex) as [Hres Hnopr].
    split; [exact Hnopr|].
    subst after this before. unfold Process.process. fold body'.
    rewrite Hms, for_range_app, bind_run. cbn [Eff.for_range Eff.result Eff.trace].
    change (Eff.bind ?x ?k) with (x ≫= k). rewrite bind_run.
    cbn [Eff.result Eff.world Eff.trace].
    fold body' in Hres. rewrite Hres. split; reflexivity.
Qed.

Lemma commit_retry_exhausted_witness :
  let run := Part000.process Examples.flaky Examples.old_cfg Examples.old_flow
               Examples.old_app "v1.2.3" 0 in
  let r := Spec.committed_release Examples.old_cfg Examples.old_app "v1.2.3"
             (Examples.old_manifest "dev") in
  (exists refused last tail,
     Eff.trace (Part000.processManifest Examples.old_cfg (Examples.flaky "g")
                  Examples.old_app "v1.2.3" (Examples.old_manifest "dev") [] 0) =
       ProcessSpec.retried_commit r refused last ++ tail /\
     List.length refused = 2 /\ is_Some last) /\
  Eff.result run =
    [ {| Part000.env := "prod";
         Part000.url := "https://github.com/owner/manifests/pull/4";
         Part000.err := None |} ] /\
  Spec.commit_attempts (Eff.trace run) = 4 /\
  Spec.refused_commits (Eff.trace run) = 3.
Proof.
  pose proof (commit_retry_exhausted Examples.flaky Examples.old_cfg Examples.old_flow
                Examples.old_app (Examples.old_manifest "dev")
                Examples.refusing (Examples.cfg_of []) Examples.flow
                (Examples.app_of [Examples.prod]) Examples.prod "v1.2.3") as H.
  cbv zeta in H. destruct H as (_ & Hiter & Hloop & _).
  cbv zeta. split.
  - destruct (Hiter [] 0 eq_refl) as (refused & last & tail & Htr & _ & Hcase).
    exists refused, last, tail. split; [exact Htr|].
    destruct Hcase as [[-> _] | (e3 & -> & Hlen & _)].
    + exfalso. revert Htr. vm_compute.
      destruct refused as [|e1 [|e2 [|e3 refused]]]; cbn; intros [=].
    + split; [exact Hlen | eexists; reflexivity].
  - destruct (Hloop [] [Examples.old_manifest "prod"] 0 eq_refl eq_refl)
      as (_ & Hres & Htr).
    rewrite Hres, Htr. vm_compute. repeat split.
Defined.

(** ** The version-key rule *)

Section VersionRule.
Import regexp2 Rewrite.

Lemma MustCompile_versionRewriteRegex :
  MustCompile Process.versionRewriteRegex = Some versionRewrite.
Proof. vm_compute. reflexivity. Qed.

Lemma versionRewrite_shape :
  versionRewrite =
  Concat (NegLookahead lookahead_body)
    (Concat
       (Capture None
          (lit "version:"
             (Concat (Plus (Char " "))
                (Concat (Capture (Some "version") (Concat (Star AnyChar) Empty)) Empty))))
       Empty).
Proof. reflexivity. Qed.

(** A repetition of a one-character pattern is [greedy]. *)
Lemma rounds_class {A} (p : ascii -> bool)
    (step : string -> captures -> (string -> captures -> option A) -> option A)
    (k : string -> captures -> option A) :
  (forall s cs k', step s cs k' =
                   match s with
                   | String c t => if p c then k' t cs else None
                   | EmptyString => None
                   end) ->
  forall n s cs, String.length s <= n ->
    rounds step k n s cs = greedy p s (fun s' => k s' cs).
Proof.
  intros Hstep. induction n as [|n IH]; intros s cs Hlen.
  - destruct s; [reflexivity | simpl in Hlen; lia].
  - simpl. rewrite Hstep. destruct s as [|c t]; [reflexivity|].
    simpl. destruct (p c); [|reflexivity].
    replace (String.length t <? S (String.length t)) with true
      by (symmetry; apply Nat.ltb_lt; lia).
    rewrite IH by (simpl in Hlen; lia). reflexivity.
Qed.

Lemma backtrack_star_any {A} (s : string) (cs : captures)
    (k : string -> captures -> option A) :
  backtrack (Star AnyChar) s cs k = greedy in_line s (fun s' => k s' cs).
Proof.
  simpl. apply rounds_class; [|lia].
  intros s0 cs0 k'. destruct s0 as [|c t]; [reflexivity|].
  unfold in_line. destruct (Ascii.eqb c line_feed); reflexivity.
Qed.

Lemma backtrack_star_space {A} (s : string) (cs : captures)
    (k : string -> captures -> option A) :
  backtrack (Star (Char " ")) s cs k = greedy is_space s (fun s' => k s' cs).
Proof.
  simpl. apply rounds_class; [|lia].
  intros s0 cs0 k'. destruct s0 as [|c t]; reflexivity.
Qed.

Lemma backtrack_lit {A} (l : string) (r : regex) (s : string) (cs : captures)
    (k : string -> captures -> option A) :
  backtrack (lit l r) s cs k =
  match strip_prefix l s with
  | Some s' => backtrack r s' cs k
  | None => None
  end.
Proof.
  revert s. induction l as [|c l IH]; intros s; [reflexivity|].
  simpl. destruct s as [|c' s']; [reflexivity|].
  destruct (Ascii.eqb c' c); [apply IH | reflexivity].
Qed.

Lemma greedy_ext {A} (p : ascii -> bool) (s : string) (k1 k2 : string -> option A) :
  (forall s', k1 s' = k2 s') -> greedy p s k1 = greedy p s k2.
Proof.
  intros Hk. induction s as [|c t IH]; simpl; [apply Hk|].
  rewrite IH, Hk. reflexivity.
Qed.

(** In front of a continuation that never fails, the repetition takes the
    longest run. *)
Lemma greedy_total {A} (p : ascii -> bool) (s : string) (k : string -> option A) :
  (forall s', k s' <> None) -> greedy p s k = k (skip p s).
Proof.
  intros Hk. induction s as [|c t IH]; simpl; [reflexivity|].
  destruct (p c); [|reflexivity].
  rewrite IH. destruct (k (skip p t)) eqn:Hkt; [reflexivity|].
  exfalso. exact (Hk _ Hkt).
Qed.

Lemma strip_prefix_prefix (l s : string) :
  String.prefix l s = match strip_prefix l s with Some _ => true | None => false end.
Proof.
  revert s. induction l as [|c l IH]; intros s; [destruct s; reflexivity|].
  destruct s as [|c' s']; [reflexivity|]. simpl.
  destruct (ascii_dec c c') as [->|Hne].
  - rewrite Ascii.eqb_refl. apply IH.
  - replace (Ascii.eqb c' c) with false; [reflexivity|].
    symmetry. apply Ascii.eqb_neq. congruence.
Qed.

(** The lookahead body matches exactly when a marker is ahead in the line. *)
Lemma backtrack_lookahead_body (s : string) (cs : captures) :
  backtrack lookahead_body s cs (fun _ _ => Some tt) =
  if marker_ahead s then Some tt else None.
Proof.
  unfold lookahead_body.
  change (backtrack (Concat ?r1 ?r2) s cs ?k)
    with (backtrack r1 s cs (fun s' cs' => backtrack r2 s' cs' k)).
  rewrite backtrack_star_any.
  rewrite (greedy_ext _ _ _ (fun s' => if has_marker_prefix s' then Some tt else None)).
  - induction s as [|c t IH]; [reflexivity|].
    cbn [greedy marker_ahead]. destruct (in_line c); cbn [andb].
    + rewrite IH.
      destruct (marker_ahead t), (has_marker_prefix (String c t)); reflexivity.
    + destruct (has_marker_prefix (String c t)); reflexivity.
  - intros s'.
    change (backtrack (Concat ?r1 ?r2) s' cs ?k)
      with (backtrack r1 s' cs (fun s1 cs1 => backtrack r2 s1 cs1 k)).
    change (backtrack (Capture None ?r0) s' cs ?k) with (backtrack r0 s' cs k).
    change (backtrack (Alternate ?r1 ?r2) s' cs ?k)
      with (match backtrack r1 s' cs k with
            | Some a => Some a
            | None => backtrack r2 s' cs k
            end).
    rewrite !backtrack_lit. unfold has_marker_prefix.
    rewrite !strip_prefix_prefix.
    assert (Hany : forall s1 cs1,
               backtrack (Concat (Star AnyChar) Empty) s1 cs1 (fun _ _ => Some tt) = Some tt).
    { intros s1 cs1.
      change (backtrack (Concat ?r1 ?r2) s1 cs1 ?k)
        with (backtrack r1 s1 cs1 (fun s2 cs2 => backtrack r2 s2 cs2 k)).
      rewrite backtrack_star_any. rewrite greedy_total; [reflexivity | discriminate]. }
    destruct (strip_prefix "do-not-rewrite" s') as [s1|].
    + change (backtrack Empty s1 cs ?k) with (k s1 cs). cbv beta.
      rewrite Hany. reflexivity.
    + destruct (strip_prefix "no-rewrite" s') as [s1|]; [|reflexivity].
      change (backtrack Empty s1 cs ?k) with (k s1 cs). cbv beta.
      rewrite Hany. reflexivity.
Qed.

(** The capture group named [version], at the end of the pattern, takes
    the rest of the line. *)
Lemma backtrack_version_group {A} (s : string) (cs : captures)
    (f : string -> captures -> A) :
  backtrack (Concat (Capture (Some "version") (Concat (Star AnyChar) Empty)) Empty) s cs
            (fun s' cs' => Some (f s' cs')) =
  Some (f (skip in_line s) (("version", consumed s (skip in_line s)) :: cs)).
Proof.
  change (backtrack (Star AnyChar) s cs
            (fun s4 cs4 => Some (f s4 (("version", consumed s s4) :: cs4))) = 
          Some (f (skip in_line s) (("version", consumed s (skip in_line s)) :: cs))).
  rewrite backtrack_star_any, greedy_total; [reflexivity | discriminate].
Qed.

(** The matcher on the compiled pattern computes [version_match]. *)
Lemma match_here_versionRewrite (s : string) :
  match_here versionRewrite s = version_match s.
Proof.
  unfold match_here, version_match. rewrite versionRewrite_shape.
  change (backtrack (Concat (NegLookahead ?l) ?m) s [] ?k)
    with (match backtrack l s [] (fun _ _ => Some tt) with
          | Some _ => None
          | None => backtrack m s [] k
          end).
  rewrite backtrack_lookahead_body.
  destruct (marker_ahead s); [reflexivity|].
  change (backtrack (Concat (Capture None ?r) Empty) s [] ?k) with (backtrack r s [] k).
  rewrite backtrack_lit.
  destruct (strip_prefix "version:" s) as [[|c s2]|]; try reflexivity.
  change (backtrack (Concat (Plus (Char " ")) ?r2) (String c s2) [] ?k)
    with (if Ascii.eqb c " "
          then backtrack (Star (Char " ")) s2 [] (fun s3 cs3 => backtrack r2 s3 cs3 k)
          else None).
  unfold is_space at 1. destruct (Ascii.eqb c " "); [|reflexivity].
  rewrite backtrack_star_space.
  rewrite (greedy_ext _ _ _
             (fun s3 => Some (String.length s - String.length (skip in_line s3),
                              [("version", consumed s3 (skip in_line s3))]))).
  - rewrite greedy_total; [reflexivity | discriminate].
  - intros s3.
    apply (backtrack_version_group s3 []
             (fun s' cs' => (String.length s - String.length s', cs'))).
Qed.

(** *** A match sees the line it starts in, and nothing else *)

Lemma strip_prefix_eq (l s s' : string) : strip_prefix l s = Some s' -> s = l +:+ s'.
Proof.
  revert s. induction l as [|c l IH]; intros s H; simpl in *; [congruence|].
  destruct s as [|c' t]; [discriminate|].
  destruct (Ascii.eqb_spec c' c) as [->|]; [|discriminate].
  rewrite (IH _ H). reflexivity.
Qed.

Lemma strip_prefix_line (l s b : string) :
  one_line l = true ->
  strip_prefix l (s +:+ String line_feed b) =
  option_map (fun t => t +:+ String line_feed b) (strip_prefix l s).
Proof.
  revert s. induction l as [|c l IH]; intros s Hl; [reflexivity|].
  simpl in Hl. apply andb_true_iff in Hl. destruct Hl as [Hc Hl].
  destruct s as [|c' t]; cbn [String.append strip_prefix option_map].
  - unfold in_line in Hc. rewrite Ascii.eqb_sym.
    destruct (Ascii.eqb c line_feed); [discriminate | reflexivity].
  - destruct (Ascii.eqb c' c); [apply IH; exact Hl | reflexivity].
Qed.

Lemma prefix_line (l s b : string) :
  one_line l = true ->
  String.prefix l (s +:+ String line_feed b) = String.prefix l s.
Proof.
  intros Hl. rewrite !strip_prefix_prefix, strip_prefix_line by exact Hl.
  destruct (strip_prefix l s); reflexivity.
Qed.

Lemma skip_line (p : ascii -> bool) (s b : string) :
  p line_feed = false ->
  skip p (s +:+ String line_feed b) = skip p s +:+ String line_feed b.
Proof.
  intros Hp. induction s as [|c t IH]; simpl.
  - rewrite Hp. reflexivity.
  - destruct (p c); [exact IH | reflexivity].
Qed.

Lemma skip_length (p : ascii -> bool) (s : string) :
  String.length (skip p s) <= String.length s.
Proof.
  induction s as [|c t IH]; simpl; [lia|].
  destruct (p c); simpl; lia.
Qed.

Lemma marker_ahead_line (s b : string) :
  marker_ahead (s +:+ String line_feed b) = marker_ahead s.
Proof.
  assert (Hp : forall t, has_marker_prefix (t +:+ String line_feed b) = has_marker_prefix t).
  { intros t. unfold has_marker_prefix. rewrite !prefix_line by reflexivity. reflexivity. }
  induction s as [|c t IH].
  - reflexivity.
  - change (marker_ahead (String c t +:+ String line_feed b))
      with (has_marker_prefix (String c t +:+ String line_feed b) ||
            in_line c && marker_ahead (t +:+ String line_feed b)).
    rewrite Hp, IH. reflexivity.
Qed.

Lemma version_match_line (s b : string) :
  version_match (s +:+ String line_feed b) = version_match s.
Proof.
  unfold version_match. rewrite marker_ahead_line.
  destruct (marker_ahead s); [reflexivity|].
  rewrite strip_prefix_line by reflexivity.
  destruct (strip_prefix "version:" s) as [[|c s2]|] eqn:Hstrip; try reflexivity.
  change (option_map _ (Some (String c s2))) with (Some (String c (s2 +:+ String line_feed b))).
  cbv iota. destruct (is_space c); [|reflexivity].
  rewrite !skip_line by reflexivity.
  cbv zeta. unfold consumed.
  set (x := String line_feed b).
  set (s3 := skip is_space s2). set (s4 := skip in_line s3).
  assert (H1 : String.length s4 <= String.length s3) by apply skip_length.
  assert (H2 : String.length s3 <= String.length s2) by apply skip_length.
  assert (H3 : String.length s2 <= String.length s).
  { apply strip_prefix_eq in Hstrip. subst s. rewrite length_append. simpl. lia. }
  rewrite !length_append.
  replace (String.length s + String.length x - (String.length s4 + String.length x))
    with (String.length s - String.length s4) by lia.
  replace (String.length s3 + String.length x - (String.length s4 + String.length x))
    with (String.length s3 - String.length s4) by lia.
  rewrite substring_append by lia. reflexivity.
Qed.

(** A match is not empty and does not extend beyond the input. *)
Lemma version_match_length (s : string) (n : nat) (cs : captures) :
  version_match s = Some (n, cs) -> 1 <= n <= String.length s.
Proof.
  unfold version_match. destruct (marker_ahead s); [discriminate|].
  destruct (strip_prefix "version:" s) as [[|c s2]|] eqn:Hstrip; try discriminate.
  destruct (is_space c); [|discriminate].
  intros [= <- _].
  pose proof (skip_length in_line (skip is_space s2)) as H1.
  pose proof (skip_length is_space s2) as H2.
  apply strip_prefix_eq in Hstrip. subst s. rewrite !length_append. simpl. lia.
Qed.

(** A match starts with the key, a colon and a space. *)
Lemma version_match_key (s : string) :
  String.prefix "version: " s = false -> version_match s = None.
Proof.
  intros Hkey. unfold version_match. destruct (marker_ahead s); [reflexivity|].
  destruct (strip_prefix "version:" s) as [[|c s2]|] eqn:Hstrip; try reflexivity.
  destruct (is_space c) eqn:Hc; [|reflexivity].
  apply strip_prefix_eq in Hstrip. subst s.
  apply Ascii.eqb_eq in Hc. subst c.
  rewrite strip_prefix_prefix in Hkey. cbv in Hkey. discriminate Hkey.
Qed.

(** *** Replacement, line by line *)

Lemma version_match_empty : version_match "" = None.
Proof. reflexivity. Qed.

(** Replacing in a text that ends a line and in what follows it are
    independent of each other. *)
Lemma replace_from_line (ev : Match -> string) (s b : string) :
  forall n, n <= String.length s ->
    replace_from versionRewrite ev n (s +:+ String line_feed b) =
    replace_from versionRewrite ev n s +:+
    String line_feed (replace_from versionRewrite ev 0 b).
Proof.
  induction s as [|c t IH]; intros n Hn.
  - simpl in Hn. replace n with 0 by lia.
    cbn [String.append replace_from].
    rewrite !match_here_versionRewrite.
    change (String line_feed b) with ("" +:+ String line_feed b) at 1.
    rewrite version_match_line, version_match_empty. reflexivity.
  - destruct n as [|n]; cbn [String.append replace_from].
    + change (String c (t +:+ String line_feed b))
        with (String c t +:+ String line_feed b) at 1 2 3.
      rewrite !match_here_versionRewrite, version_match_line.
      destruct (version_match (String c t)) as [[[|m] cs]|] eqn:Hm.
      * apply version_match_length in Hm. lia.
      * apply version_match_length in Hm. simpl in Hm.
        rewrite IH by lia. rewrite append_assoc.
        unfold to_Match. cbn [fst snd]. rewrite substring_append by (simpl; lia).
        reflexivity.
      * rewrite IH by lia. reflexivity.
    + simpl in Hn. apply IH. lia.
Qed.

Lemma replace_no_match (ev : Match -> string) (l : string) :
  no_match_in l -> replace_from versionRewrite ev 0 l = l.
Proof.
  induction l as [|c t IH]; intros [Hhere Hrest]; cbn [replace_from];
    rewrite match_here_versionRewrite, Hhere; [reflexivity|].
  rewrite (IH Hrest). reflexivity.
Qed.

(** *** Lines that carry a marker *)

Lemma marker_ahead_intro (a x : string) :
  one_line a = true -> has_marker_prefix x = true -> marker_ahead (a +:+ x) = true.
Proof.
  intros Ha Hx. induction a as [|c a IH].
  - destruct x; cbn [String.append marker_ahead]; rewrite Hx; reflexivity.
  - cbn [one_line] in Ha. apply andb_true_iff in Ha. destruct Ha as [Hc Ha].
    cbn [String.append marker_ahead]. rewrite Hc, (IH Ha). apply orb_true_r.
Qed.

Lemma version_match_marker (s : string) : marker_ahead s = true -> version_match s = None.
Proof. intros H. unfold version_match. rewrite H. reflexivity. Qed.

Lemma no_match_before_marker (a x : string) :
  one_line a = true -> has_marker_prefix x = true ->
  no_match_in x -> no_match_in (a +:+ x).
Proof.
  intros Ha Hx Hnm. induction a as [|c a IH]; [exact Hnm|].
  pose proof (marker_ahead_intro _ _ Ha Hx) as Hahead.
  cbn [one_line] in Ha. apply andb_true_iff in Ha. destruct Ha as [_ Ha].
  cbn [String.append no_match_in] in *. split.
  - apply version_match_marker. exact Hahead.
  - apply IH. exact Ha.
Qed.

Lemma has_marker_prefix_marker (marker b : string) :
  marker = "do-not-rewrite" \/ marker = "no-rewrite" ->
  has_marker_prefix (marker +:+ b) = true.
Proof.
  intros [-> | ->]; unfold has_marker_prefix; rewrite !strip_prefix_prefix;
    reflexivity.
Qed.

(** No match starts inside a marker: the key does not begin with any of its
    characters. *)
Lemma no_match_in_marker (marker b : string) :
  marker = "do-not-rewrite" \/ marker = "no-rewrite" ->
  no_match_in b -> no_match_in (marker +:+ b).
Proof.
  intros Hm Hb.
  pose proof (has_marker_prefix_marker marker b Hm) as Hp.
  assert (Hhere : version_match (marker +:+ b) = None).
  { apply version_match_marker.
    apply (marker_ahead_intro "" (marker +:+ b) eq_refl Hp). }
  destruct Hm as [-> | ->]; cbn [String.append no_match_in] in *;
    (split; [exact Hhere|]);
    repeat (split; [apply version_match_key; reflexivity|]);
    exact Hb.
Qed.

Lemma no_match_without_key (b : string) :
  Go.Contains b "version: " = false -> no_match_in b.
Proof.
  induction b as [|c t IH]; intros H.
  - split; [reflexivity | exact I].
  - cbn [Go.Contains] in H. apply orb_false_iff in H. destruct H as [Hkey Hrest].
    split; [apply version_match_key; exact Hkey | apply IH; exact Hrest].
Qed.

Lemma versionKeyRule_eq (version content : string) :
  versionKeyRule version content =
  replace_from versionRewrite (fun _ => Go.Sprintf "version: %s" [version]) 0 content.
Proof.
  unfold versionKeyRule, applyRule. rewrite MustCompile_versionRewriteRegex. reflexivity.
Qed.

(** The rule works line by line. *)
Lemma versionKeyRule_lines (version s b : string) :
  versionKeyRule version (s +:+ String line_feed b) =
  versionKeyRule version s +:+ String line_feed (versionKeyRule version b).
Proof. rewrite !versionKeyRule_eq. apply replace_from_line. lia. Qed.

(** C4: the version-key rule does not keep every marked line.  The comment
    above [versionRewriteRegex] says: rewrite version but do not if there is
    comment [# do-not-rewrite] or [# no-rewrite]; the lookahead of the
    pattern is tried where a match starts, so that it sees the markers to the
    right of that [version: ] only.  On the line below, which starts with the
    key and carries the marker [# no-rewrite], the [version: ] inside the
    comment has no marker ahead: the rule rewrites it, and with it the rest of
    the line. *)
Theorem marked_line_rewritten :
  let line := "version: 1.0 # no-rewrite (chart version: 2.0)" in
  String.prefix "version: " line = true /\
  Go.Contains line "# no-rewrite" = true /\
  one_line line = true /\
  versionKeyRule "1.1" line = "version: 1.0 # no-rewrite (chart version: 1.1" /\
  versionKeyRule "1.1" line <> line.
Proof. vm_compute. repeat split. discriminate. Qed.

(** Where the rule does keep a marked line: a line that carries one of the
    two markers and does not go on, after the marker, with another
    [version: ] is left as it is, whatever the rest of the file is and
    however the other lines are rewritten. *)
Theorem marked_line_unchanged (version pre a marker b post : string) :
  marker = "do-not-rewrite" \/ marker = "no-rewrite" ->
  one_line (a +:+ marker +:+ b) = true ->
  Go.Contains b "version: " = false ->
  ends_line pre -> starts_line post ->
  versionKeyRule version (pre +:+ (a +:+ marker +:+ b) +:+ post) =
  versionKeyRule version pre +:+ (a +:+ marker +:+ b) +:+ versionKeyRule version post.
Proof.
  intros Hm Hline Hb Hpre Hpost.
  assert (Ha : one_line a = true).
  { clear - Hline. induction a as [|c a IH]; [reflexivity|].
    cbn [String.append one_line] in *. apply andb_true_iff in Hline.
    destruct Hline as [Hc Hl]. rewrite Hc, (IH Hl). reflexivity. }
  assert (Hkeep : versionKeyRule version (a +:+ marker +:+ b) = a +:+ marker +:+ b).
  { rewrite versionKeyRule_eq. apply replace_no_match.
    apply no_match_before_marker;
      [exact Ha | apply has_marker_prefix_marker; exact Hm |].
    apply no_match_in_marker; [exact Hm|].
    apply no_match_without_key. exact Hb. }
  assert (Hempty : versionKeyRule version "" = "").
  { rewrite versionKeyRule_eq. reflexivity. }
  assert (Htail : versionKeyRule version ((a +:+ marker +:+ b) +:+ post) =
                  (a +:+ marker +:+ b) +:+ versionKeyRule version post).
  { destruct Hpost as [-> | [q ->]].
    - rewrite append_nil_r, Hempty, append_nil_r. exact Hkeep.
    - rewrite !versionKeyRule_lines, Hkeep.
      change (versionKeyRule version (String line_feed q))
        with (versionKeyRule version ("" +:+ String line_feed q)).
      rewrite versionKeyRule_lines, Hempty. reflexivity. }
  destruct Hpre as [-> | [p ->]].
  - rewrite Hempty. exact Htail.
  - rewrite !append_assoc. cbn [String.append].
    rewrite !versionKeyRule_lines, Hempty. rewrite !append_assoc in Htail.
    rewrite Htail. rewrite !append_assoc. reflexivity.
Qed.

End VersionRule.

(** A file of four lines: the second and the fourth are rewritten, the
    marked third line is not. *)
Example version_rule_on_a_file :
  let nl := Go.newline in
  Rewrite.versionKeyRule "1.1"
    ("name: app" +:+ nl +:+
     "version: 1.0" +:+ nl +:+
     "  version: 0.9 # do-not-rewrite" +:+ nl +:+
     "chart:" +:+ nl +:+ "  version:   1.0") =
    "name: app" +:+ nl +:+
    "version: 1.1" +:+ nl +:+
    "  version: 0.9 # do-not-rewrite" +:+ nl +:+
    "chart:" +:+ nl +:+ "  version: 1.1".
Proof. vm_compute. reflexivity. Qed.

Lemma marked_line_unchanged_witness :
  let nl := Go.newline in
  Rewrite.versionKeyRule "1.1"
    (("name: app" +:+ nl +:+ "version: 1.0" +:+ nl) +:+
     ("  version: 0.9 " +:+ "do-not-rewrite" +:+ " (pinned)") +:+
     (nl +:+ "chart:" +:+ nl +:+ "  version:   1.0")) =
  Rewrite.versionKeyRule "1.1" ("name: app" +:+ nl +:+ "version: 1.0" +:+ nl) +:+
  ("  version: 0.9 " +:+ "do-not-rewrite" +:+ " (pinned)") +:+
  Rewrite.versionKeyRule "1.1" (nl +:+ "chart:" +:+ nl +:+ "  version:   1.0").
Proof.
  apply (marked_line_unchanged "1.1"
           ("name: app" +:+ Go.newline +:+ "version: 1.0" +:+ Go.newline)
           "  version: 0.9 " "do-not-rewrite" " (pinned)"
           (Go.newline +:+ "chart:" +:+ Go.newline +:+ "  version:   1.0")).
  - left. reflexivity.
  - reflexivity.
  - reflexivity.
  - right. exists ("name: app" +:+ Go.newline +:+ "version: 1.0"). reflexivity.
  - right. exists ("chart:" +:+ Go.newline +:+ "  version:   1.0"). reflexivity.
Defined.

(** * Package gitbot *)

(** ** Runs of code that may panic *)

Section PanicRuns.
Context {Event World : Type}.

Lemma panic_bind_run {A B} (m : Panic.MP Event World A) (f : A -> Panic.MP Event World B)
    (w : World) :
  Panic.bind m f w =
  match Eff.result (m w) with
  | Some a =>
      Eff.mkRun (Eff.result (f a (Eff.world (m w)))) (Eff.world (f a (Eff.world (m w))))
                (Eff.trace (m w) ++ Eff.trace (f a (Eff.world (m w))))
  | None => Eff.mkRun None (Eff.world (m w)) (Eff.trace (m w))
  end.
Proof.
  unfold Panic.bind, Eff.bind. destruct (m w) as [[a|] w1 tr]; simpl; [reflexivity|].
  rewrite app_nil_r. reflexivity.
Qed.

Lemma panic_call_run {A} (ev : A -> Event) (op : World -> A * World) (w : World) :
  Panic.lift (Eff.call ev op) w =
  Eff.mkRun (Some (fst (op w))) (snd (op w)) [ev (fst (op w))].
Proof. unfold Panic.lift, Eff.bind, Eff.call. destruct (op w); reflexivity. Qed.

Lemma panic_emit_run (ev : Event) (w : World) :
  Panic.lift (Eff.emit ev) w = Eff.mkRun (Some tt) w [ev].
Proof. reflexivity. Qed.

Lemma panic_ret_run {A} (a : A) (w : World) :
  (Panic.ret a : Panic.MP Event World A) w = Eff.mkRun (Some a) w [].
Proof. reflexivity. Qed.

Lemma panic_deref_run {A} (p : option A) (w : World) :
  (Panic.deref p : Panic.MP Event World A) w = Eff.mkRun p w [].
Proof. destruct p; reflexivity. Qed.

(** An invariant of the accumulator and a property of the events, kept by
    every iteration, hold of the whole loop. *)
Lemma panic_for_range_invariant {A B} (I : B -> Prop) (P : Event -> Prop)
    (body : A -> B -> Panic.MP Event World B) (l : list A) :
  (forall x acc w, In x l -> I acc ->
     Forall P (Eff.trace (body x acc w)) /\
     forall acc', Eff.result (body x acc w) = Some acc' -> I acc') ->
  forall acc w, I acc ->
    Forall P (Eff.trace (Panic.for_range l body acc w)) /\
    forall acc', Eff.result (Panic.for_range l body acc w) = Some acc' -> I acc'.
Proof.
  induction l as [|x l IH]; intros Hbody acc w Hacc; cbn [Panic.for_range].
  - rewrite panic_ret_run. cbn. split; [constructor|]. intros acc' [= <-]. exact Hacc.
  - rewrite panic_bind_run.
    destruct (Hbody x acc w (or_introl eq_refl) Hacc) as [Htr Hres].
    destruct (Eff.result (body x acc w)) as [acc1|] eqn:Hr;
      cbn [Eff.result Eff.world Eff.trace].
    + destruct (IH (fun x' acc' w' Hin => Hbody x' acc' w' (or_intror Hin))
                   acc1 (Eff.world (body x acc w)) (Hres _ eq_refl)) as [Htr' Hres'].
      split; [apply Forall_app; split; assumption | exact Hres'].
    + split; [exact Htr | discriminate].
Qed.

End PanicRuns.

#[global] Hint Rewrite @panic_bind_run @panic_call_run @panic_emit_run @panic_ret_run
  @panic_deref_run : panic_run.

(** ** The helpers that talk to GitHub *)

Section Gitbot.
Import Go GitbotHelpers.
Context {World Regexp : Type}.
Variable client : github.Client World.
Variable MustCompile : string -> option Regexp.
Variable Replace : Regexp -> string -> string -> string + error.
Variable range_map : gmap string string -> list (string * string).

(** X1: [getRef] creates a reference only after the lookup of the commit
    branch has failed and the lookup of the base branch has succeeded; the
    reference it creates is the commit branch, at the commit the base branch
    points to, and what the creation answers is what [getRef] returns. *)
Theorem getRef_creates_from_base (r : Part000.Release) (w : World)
    (o p : string) (newRef : github.Reference) (res : github.Reference + error) :
  In (github.CreateRef o p newRef res) (Eff.trace (getRef client r w)) ->
  exists e baseRef object,
    Eff.trace (getRef client r w) =
      [github.GetRef (SourceOwner r) (SourceRepo r)
                     ("refs/heads/" +:+ CommitBranch r) (inr e);
       github.GetRef (SourceOwner r) (SourceRepo r)
                     ("refs/heads/" +:+ BaseBranch r) (inl baseRef);
       github.CreateRef (SourceOwner r) (SourceRepo r) newRef res] /\
    github.Object baseRef = Some object /\
    newRef = {| github.Ref := Some ("refs/heads/" +:+ CommitBranch r);
                github.Object := Some {| github.SHA := github.SHA object |} |} /\
    Eff.result (getRef client r w) = Some res.
Proof.
  unfold getRef. panic_step.
  destruct (github.Git_GetRef client (SourceOwner r) (SourceRepo r)
              ("refs/heads/" +:+ CommitBranch r) w)
    as [[ref|e] w1]; panic_step.
  { intros [H|[]]. discriminate H. }
  destruct (github.Git_GetRef client (SourceOwner r) (SourceRepo r)
              ("refs/heads/" +:+ BaseBranch r) w1)
    as [[baseRef|e2] w2]; panic_step.
  2: { intros [H|[H|[]]]; discriminate H. }
  destruct (github.Object baseRef) as [object|] eqn:Hobj; panic_step.
  2: { intros [H|[H|[]]]; discriminate H. }
  intros [H|[H|[H|[]]]]; try discriminate H.
  injection H as <- <- <- <-.
  exists e, baseRef, object. repeat split; try reflexivity. exact Hobj.
Qed.

(** X2: the error that [getRef] returns is never the one of the lookup of
    the commit branch: it is the error of the lookup of the base branch, or
    the error of the creation of the commit branch. *)
Theorem getRef_error_origin (r : Part000.Release) (w : World) (err : error) :
  Eff.result (getRef client r w) = Some (inr err) ->
  exists first rest,
    Eff.trace (getRef client r w) =
      github.GetRef (SourceOwner r) (SourceRepo r)
                    ("refs/heads/" +:+ CommitBranch r) (inr first) :: rest /\
    (rest = [github.GetRef (SourceOwner r) (SourceRepo r)
                           ("refs/heads/" +:+ BaseBranch r) (inr err)] \/
     exists baseRef newRef,
       rest = [github.GetRef (SourceOwner r) (SourceRepo r)
                             ("refs/heads/" +:+ BaseBranch r) (inl baseRef);
               github.CreateRef (SourceOwner r) (SourceRepo r) newRef (inr err)]).
Proof.
  unfold getRef. panic_step.
  destruct (github.Git_GetRef client (SourceOwner r) (SourceRepo r)
              ("refs/heads/" +:+ CommitBranch r) w)
    as [[ref|e] w1]; panic_step.
  { discriminate. }
  destruct (github.Git_GetRef client (SourceOwner r) (SourceRepo r)
              ("refs/heads/" +:+ BaseBranch r) w1)
    as [[baseRef|e2] w2]; panic_step.
  2: { intros [= <-]. exists e. eexists. split; [reflexivity|]. left. reflexivity. }
  destruct (github.Object baseRef) as [object|] eqn:Hobj; panic_step.
  2: { discriminate. }
  match goal with
  | |- context [github.Git_CreateRef ?c ?o ?p ?n ?w0] =>
      destruct (github.Git_CreateRef c o p n w0) as [[created|e3] w3]
  end; cbn [fst snd]; [discriminate|].
  intros [= <-]. exists e. eexists. split; [reflexivity|].
  right. exists baseRef. eexists. reflexivity.
Qed.

(** *** [getTree] *)

(** One iteration of the loop over the changes. *)
Lemma getTree_change_run (r : Part000.Release) (c : Part000.Change)
    (m : gmap string string) (w : World) :
  getTree_change client MustCompile Replace r c m w =
  match m !! Part000.filePath c with
  | Some content =>
      Eff.mkRun (option_map (fun changed => <[Part000.filePath c := changed]> m)
                   (getChangedText MustCompile Replace content (Part000.regexText c)
                                   (Part000.changedText c)))
                w []
  | None =>
      let answer := github.Repositories_GetContents client (SourceOwner r) (SourceRepo r)
                      (Part000.filePath c) (BaseBranch r) w in
      let fetch := github.GetContents (SourceOwner r) (SourceRepo r) (Part000.filePath c)
                                      (BaseBranch r) (fst answer) in
      match GitbotSpec.original_content (fst answer) with
      | None => Eff.mkRun None (snd answer) [fetch]
      | Some (inr err) =>
          Eff.mkRun (Some m) (snd answer)
                    [fetch; github.Printf "Error fetching content %s" [Eff.AErr err]]
      | Some (inl content) =>
          Eff.mkRun (option_map (fun changed => <[Part000.filePath c := changed]> m)
                       (getChangedText MustCompile Replace content (Part000.regexText c)
                                       (Part000.changedText c)))
                    (snd answer) [fetch]
      end
  end.
Proof.
  unfold getTree_change, getOriginalContent.
  destruct (m !! Part000.filePath c) as [content|]; panic_step.
  - destruct (getChangedText MustCompile Replace content (Part000.regexText c)
                (Part000.changedText c)); reflexivity.
  - cbv zeta.
    destruct (github.Repositories_GetContents client (SourceOwner r) (SourceRepo r)
                (Part000.filePath c) (BaseBranch r) w) as [[[f|]|err] w1];
      panic_step; cbn [GitbotSpec.original_content]; try reflexivity.
    destruct (github.GetContent f) as [[content|err]|]; panic_step; try reflexivity.
    destruct (getChangedText MustCompile Replace content (Part000.regexText c)
                (Part000.changedText c)); reflexivity.
Qed.

(** What [getTree] does after the loop. *)
Lemma getTree_run (r : Part000.Release) (ref : github.Reference) (w : World) :
  let loop := Panic.for_range (Part000.Changes r)
                (getTree_change client MustCompile Replace r) ∅ w in
  getTree client MustCompile Replace range_map r ref w =
  match Eff.result loop, github.Object ref with
  | Some entryMap, Some {| github.SHA := Some sha |} =>
      let entries := map tree_entry (range_map entryMap) in
      let answer := github.Git_CreateTree client (SourceOwner r) (SourceRepo r) sha entries
                      (Eff.world loop) in
      Eff.mkRun (Some (fst answer)) (snd answer)
                (Eff.trace loop ++
                 [github.CreateTree (SourceOwner r) (SourceRepo r) sha entries (fst answer)])
  | _, _ => Eff.mkRun None (Eff.world loop) (Eff.trace loop)
  end.
Proof.
  intros loop. unfold getTree. rewrite panic_bind_run. fold loop.
  destruct (Eff.result loop) as [entryMap|]; [|reflexivity]. panic_step.
  destruct (github.Object ref) as [[[sha|]]|]; cbn [github.SHA]; panic_step;
    rewrite ?app_nil_r; reflexivity.
Qed.

(** The loop calls [Repositories.GetContents] and the log only, and the
    paths of the map it builds are paths of changes. *)
Lemma getTree_loop_invariant (r : Part000.Release) (changes : list Part000.Change) :
  forall (m : gmap string string) (w : World),
    (forall path, is_Some (m !! path) ->
       exists c, In c (Part000.Changes r) /\ Part000.filePath c = path) ->
    (forall c, In c changes -> In c (Part000.Changes r)) ->
    let loop := Panic.for_range changes (getTree_change client MustCompile Replace r) m w in
    Forall (fun e => match e with
                     | github.GetContents o p path b _ =>
                         o = SourceOwner r /\ p = SourceRepo r /\ b = BaseBranch r /\
                         exists c, In c (Part000.Changes r) /\ Part000.filePath c = path
                     | github.Printf _ _ => True
                     | _ => False
                     end) (Eff.trace loop) /\
    forall m', Eff.result loop = Some m' ->
      forall path, is_Some (m' !! path) ->
        exists c, In c (Part000.Changes r) /\ Part000.filePath c = path.
Proof.
  intros m w Hm Hsub loop. subst loop.
  apply (panic_for_range_invariant
           (fun m => forall path, is_Some (m !! path) ->
                       exists c, In c (Part000.Changes r) /\ Part000.filePath c = path));
    [|exact Hm].
  clear m w Hm. intros c m w Hin Hm. rewrite getTree_change_run.
  assert (Hins : forall changed path,
             is_Some (<[Part000.filePath c := changed]> m !! path) ->
             exists c', In c' (Part000.Changes r) /\ Part000.filePath c' = path).
  { intros changed path Hp.
    destruct (decide (Part000.filePath c = path)) as [<-|Hne].
    - exists c. split; [apply Hsub, Hin | reflexivity].
    - rewrite lookup_insert_ne in Hp by exact Hne. apply Hm, Hp. }
  assert (Hfetch : SourceOwner r = SourceOwner r /\ SourceRepo r = SourceRepo r /\
                   BaseBranch r = BaseBranch r /\
                   exists c', In c' (Part000.Changes r) /\
                              Part000.filePath c' = Part000.filePath c).
  { repeat split. exists c. split; [apply Hsub, Hin | reflexivity]. }
  destruct (m !! Part000.filePath c) as [content|]; cbn [Eff.trace Eff.result].
  - split; [constructor|].
    destruct (getChangedText MustCompile Replace content (Part000.regexText c)
                (Part000.changedText c)); cbn [option_map]; [|intros ? [=]].
    intros m' [= <-]. apply Hins.
  - cbv zeta.
    destruct (GitbotSpec.original_content _) as [[content|err]|];
      cbn [Eff.trace Eff.result].
    + split; [constructor; [exact Hfetch | constructor]|].
      destruct (getChangedText MustCompile Replace content (Part000.regexText c)
                (Part000.changedText c)); cbn [option_map]; [|intros ? [=]].
      intros m' [= <-]. apply Hins.
    + split; [constructor; [exact Hfetch | constructor; [exact I | constructor]]|].
      intros m' [= <-]. exact Hm.
    + split; [constructor; [exact Hfetch | constructor] | intros ? [=]].
Qed.

(** X3: the tree that [getTree] asks GitHub to create is based on the commit
    the reference points to and holds one entry per path, each a blob of mode
    100644 whose path is the path of a registered change; no path occurs
    twice, in whatever order Go visits the map. *)
Theorem getTree_entries (r : Part000.Release) (ref : github.Reference) (w : World)
    (o p base : string) (entries : list github.TreeEntry) (res : github.Tree + error) :
  (forall m, range_map m ≡ₚ map_to_list m) ->
  In (github.CreateTree o p base entries res)
     (Eff.trace (getTree client MustCompile Replace range_map r ref w)) ->
  o = SourceOwner r /\ p = SourceRepo r /\
  (exists object, github.Object ref = Some object /\ github.SHA object = Some base) /\
  NoDup (map github.Path entries) /\
  Forall (fun e => github.Type_ e = Some "blob" /\ github.Mode e = Some "100644" /\
                   is_Some (github.Content e) /\
                   exists c, In c (Part000.Changes r) /\
                             github.Path e = Some (Part000.filePath c)) entries.
Proof.
  intros Hperm. rewrite getTree_run. cbv zeta.
  destruct (getTree_loop_invariant r (Part000.Changes r) ∅ w) as [Htr Hres].
  { intros path [x Hx]. rewrite lookup_empty in Hx. discriminate. }
  { auto. }
  cbv zeta in Htr, Hres.
  assert (Hnone : ~ In (github.CreateTree o p base entries res)
                       (Eff.trace (Panic.for_range (Part000.Changes r)
                                     (getTree_change client MustCompile Replace r) ∅ w))).
  { intros Hin. rewrite Forall_forall in Htr.
    exact (Htr _ (proj2 (list_elem_of_In _ _) Hin)). }
  destruct (Eff.result _) as [entryMap|]; cbn [Eff.trace]; [|intros H; destruct (Hnone H)].
  destruct (github.Object ref) as [[[sha|]]|]; cbn [Eff.trace];
    try (intros H; destruct (Hnone H)).
  intros Hin. apply in_app_or in Hin. destruct Hin as [Hin|[Hin|[]]]; [destruct (Hnone Hin)|].
  injection Hin as <- <- <- <- _.
  split; [reflexivity|]. split; [reflexivity|].
  split; [eexists; split; reflexivity|].
  split.
  - rewrite map_map. cbn [tree_entry github.Path].
    rewrite <- (map_map fst Some).
    apply (NoDup_fmap_2 Some).
    change (NoDup ((range_map entryMap).*1)).
    rewrite (Hperm entryMap). apply NoDup_fst_map_to_list.
  - apply Forall_forall. intros e He. apply list_elem_of_In, in_map_iff in He.
    destruct He as ([path content] & <- & Hin).
    cbn [tree_entry github.Type_ github.Mode github.Content github.Path fst snd].
    split; [reflexivity|]. split; [reflexivity|]. split; [eexists; reflexivity|].
    destruct (Hres entryMap eq_refl path) as (c & Hc & Hpath).
    + exists content. apply elem_of_map_to_list.
      rewrite <- (Hperm entryMap). apply list_elem_of_In. exact Hin.
    + exists c. split; [exact Hc | rewrite Hpath; reflexivity].
Qed.

(** A file whose content is in the map is not fetched again. *)
Lemma getTree_loop_fetches (r : Part000.Release) (changes : list Part000.Change)
    (path : string) :
  forall (m : gmap string string) (w : World),
    let loop := Panic.for_range changes (getTree_change client MustCompile Replace r) m w in
    List.length (List.filter (GitbotSpec.fetched path) (Eff.trace loop)) <= 1 /\
    (is_Some (m !! path) ->
     List.length (List.filter (GitbotSpec.fetched path) (Eff.trace loop)) = 0).
Proof.
  induction changes as [|c changes IH]; intros m w loop; subst loop;
    cbn [Panic.for_range].
  { rewrite panic_ret_run. cbn. split; [lia | reflexivity]. }
  rewrite panic_bind_run, getTree_change_run.
  assert (Hkeep : forall changed,
             is_Some (m !! path) ->
             is_Some (<[Part000.filePath c := changed]> m !! path)).
  { intros changed Hp. rewrite lookup_insert. destruct (decide _); [eexists; reflexivity|].
    exact Hp. }
  destruct (m !! Part000.filePath c) as [content|] eqn:Hlook;
    cbn [Eff.result Eff.world Eff.trace].
  - destruct (getChangedText MustCompile Replace content (Part000.regexText c)
                (Part000.changedText c)) as [changed|];
      cbn [option_map Eff.result Eff.world Eff.trace app].
    + destruct (IH (<[Part000.filePath c := changed]> m) w) as [Hle Hzero].
      split; [exact Hle|]. intros Hp. apply Hzero, Hkeep, Hp.
    + cbn. split; [lia | reflexivity].
  - cbv zeta.
    destruct (github.Repositories_GetContents client (SourceOwner r) (SourceRepo r)
                (Part000.filePath c) (BaseBranch r) w) as [answer w1].
    cbn [fst snd].
    assert (Hfetched :
              GitbotSpec.fetched path
                (github.GetContents (SourceOwner r) (SourceRepo r) (Part000.filePath c)
                                    (BaseBranch r) answer) =
              String.eqb (Part000.filePath c) path &&
              match GitbotSpec.original_content answer with
              | Some (inl _) => true
              | _ => false
              end).
    { unfold GitbotSpec.fetched, GitbotSpec.fetched_content. f_equal.
      destruct (GitbotSpec.original_content answer) as [[content|err]|].
      - apply bool_decide_eq_true_2. eexists; reflexivity.
      - apply bool_decide_eq_false_2. intros [x Hx]; discriminate Hx.
      - apply bool_decide_eq_false_2. intros [x Hx]; discriminate Hx. }
    destruct (GitbotSpec.original_content answer) as [[content|err]|] eqn:Hans;
      cbn [Eff.result Eff.world Eff.trace].
    + destruct (getChangedText MustCompile Replace content (Part000.regexText c)
                  (Part000.changedText c)) as [changed|];
        cbn [option_map Eff.result Eff.world Eff.trace app List.filter];
        rewrite Hfetched, andb_true_r.
      * destruct (IH (<[Part000.filePath c := changed]> m) w1) as [Hle Hzero].
        destruct (String.eqb_spec (Part000.filePath c) path) as [Heq|Hne].
        -- cbn [List.length]. rewrite Hzero.
           ++ split; [lia|]. intros Hp. rewrite <- Heq, Hlook in Hp.
              destruct Hp as [x Hx]. discriminate Hx.
           ++ rewrite <- Heq, lookup_insert_eq. eexists; reflexivity.
        -- split; [exact Hle|]. intros Hp. apply Hzero, Hkeep, Hp.
      * destruct (String.eqb_spec (Part000.filePath c) path) as [Heq|Hne];
          cbn [List.length].
        -- split; [lia|]. intros Hp. rewrite <- Heq, Hlook in Hp.
           destruct Hp as [x Hx]. discriminate Hx.
        -- split; [lia | reflexivity].
    + cbn [app List.filter]. rewrite Hfetched, andb_false_r.
      cbn [GitbotSpec.fetched]. apply (IH m w1).
    + cbn [List.filter]. rewrite Hfetched, andb_false_r.
      cbn. split; [lia | reflexivity].
Qed.

(** X4: [getTree] reads the files at the base branch of the release, in the
    repository of the release, and only files for which a change is
    registered; once a file has been fetched with its content it is not
    fetched again, however many changes are registered for it. *)
Theorem getTree_fetches (r : Part000.Release) (ref : github.Reference) (w : World) :
  let tr := Eff.trace (getTree client MustCompile Replace range_map r ref w) in
  (forall path, List.length (List.filter (GitbotSpec.fetched path) tr) <= 1) /\
  Forall (fun e => match e with
                   | github.GetContents o p path b _ =>
                       o = SourceOwner r /\ p = SourceRepo r /\ b = BaseBranch r /\
                       exists c, In c (Part000.Changes r) /\ Part000.filePath c = path
                   | _ => True
                   end) tr.
Proof.
  intros tr. subst tr. rewrite getTree_run. cbv zeta.
  destruct (getTree_loop_invariant r (Part000.Changes r) ∅ w) as [Htr _].
  { intros path [x Hx]. rewrite lookup_empty in Hx. discriminate. }
  { auto. }
  cbv zeta in Htr.
  assert (Htr' : Forall (fun e => match e with
                   | github.GetContents o p path b _ =>
                       o = SourceOwner r /\ p = SourceRepo r /\ b = BaseBranch r /\
                       exists c, In c (Part000.Changes r) /\ Part000.filePath c = path
                   | _ => True
                   end)
                  (Eff.trace (Panic.for_range (Part000.Changes r)
                                (getTree_change client MustCompile Replace r) ∅ w))).
  { eapply Forall_impl; [exact Htr|]. intros e He. destruct e; try exact I. exact He. }
  assert (Hcount : forall path,
             List.length (List.filter (GitbotSpec.fetched path)
               (Eff.trace (Panic.for_range (Part000.Changes r)
                             (getTree_change client MustCompile Replace r) ∅ w))) <= 1).
  { intros path. apply (getTree_loop_fetches r (Part000.Changes r) path ∅ w). }
  destruct (Eff.result _) as [entryMap|]; cbn [Eff.trace]; [|split; assumption].
  destruct (github.Object ref) as [[[sha|]]|]; cbn [Eff.trace]; try (split; assumption).
  split.
  - intros path. rewrite List.filter_app, length_app. cbn. specialize (Hcount path). lia.
  - apply Forall_app. split; [exact Htr' | repeat constructor].
Qed.

(** X5: [getTree] asks GitHub for a tree exactly once when it returns, as
    its last call, and returns what GitHub answers; when it panics (on a
    pattern that does not compile, on a file or a reference without its
    content) it has asked for no tree. *)
Theorem getTree_creates_one_tree (r : Part000.Release) (ref : github.Reference)
    (w : World) :
  let run := getTree client MustCompile Replace range_map r ref w in
  match Eff.result run with
  | Some res =>
      exists pre base entries,
        Eff.trace run =
          pre ++ [github.CreateTree (SourceOwner r) (SourceRepo r) base entries res] /\
        Forall (fun e => GitbotSpec.is_CreateTree e = false) pre
  | None => Forall (fun e => GitbotSpec.is_CreateTree e = false) (Eff.trace run)
  end.
Proof.
  intros run. subst run. rewrite getTree_run. cbv zeta.
  destruct (getTree_loop_invariant r (Part000.Changes r) ∅ w) as [Htr _].
  { intros path [x Hx]. rewrite lookup_empty in Hx. discriminate. }
  { auto. }
  cbv zeta in Htr.
  assert (Htr' : Forall (fun e => GitbotSpec.is_CreateTree e = false)
                  (Eff.trace (Panic.for_range (Part000.Changes r)
                                (getTree_change client MustCompile Replace r) ∅ w))).
  { eapply Forall_impl; [exact Htr|]. intros e He. destruct e; try destruct He; reflexivity. }
  destruct (Eff.result (Panic.for_range _ _ _ _)) as [entryMap|];
    cbn [Eff.trace Eff.result]; [|exact Htr'].
  destruct (github.Object ref) as [[[sha|]]|]; cbn [Eff.trace Eff.result]; try exact Htr'.
  eexists. eexists. eexists. split; [reflexivity | exact Htr'].
Qed.

(** X6: when every pattern of the release compiles, GitHub answers no
    directory and no file without content, and the reference has its SHA,
    [getTree] does not panic: it asks for the tree on top of that SHA and
    returns the answer, whatever errors the fetches ran into. *)
Theorem getTree_returns (r : Part000.Release) (ref : github.Reference) (w : World)
    (sha : string) :
  Forall (fun c => is_Some (MustCompile (Part000.regexText c))) (Part000.Changes r) ->
  (forall path w',
     is_Some (GitbotSpec.original_content
                (fst (github.Repositories_GetContents client (SourceOwner r) (SourceRepo r)
                        path (BaseBranch r) w')))) ->
  github.Object ref = Some {| github.SHA := Some sha |} ->
  let run := getTree client MustCompile Replace range_map r ref w in
  exists pre entries res,
    Eff.result run = Some res /\
    Eff.trace run =
      pre ++ [github.CreateTree (SourceOwner r) (SourceRepo r) sha entries res].
Proof.
  intros Hcompile Hfiles Href run. subst run. rewrite getTree_run. cbv zeta.
  assert (Hloop : forall changes m w',
             Forall (fun c => is_Some (MustCompile (Part000.regexText c))) changes ->
             is_Some (Eff.result (Panic.for_range changes
                                    (getTree_change client MustCompile Replace r) m w'))).
  { clear Hcompile. induction changes as [|c changes IH]; intros m w' Hc;
      cbn [Panic.for_range].
    { eexists; reflexivity. }
    apply Forall_cons in Hc. destruct Hc as [[re Hre] Hc].
    assert (Hchanged : forall content,
               is_Some (getChangedText MustCompile Replace content
                          (Part000.regexText c) (Part000.changedText c))).
    { intros content. unfold getChangedText. rewrite Hre.
      destruct (Replace re content (Part000.changedText c)); eexists; reflexivity. }
    rewrite panic_bind_run, getTree_change_run.
    destruct (m !! Part000.filePath c) as [content|]; cbn [Eff.result Eff.world].
    - destruct (Hchanged content) as [changed ->]. cbn [option_map Eff.result].
      apply IH, Hc.
    - cbv zeta. specialize (Hfiles (Part000.filePath c) w').
      destruct (GitbotSpec.original_content _) as [[content|err]|];
        cbn [Eff.result Eff.world].
      + destruct (Hchanged content) as [changed ->]. cbn [option_map Eff.result].
        apply IH, Hc.
      + apply IH, Hc.
      + destruct Hfiles as [x Hx]. discriminate Hx. }
  destruct (Hloop (Part000.Changes r) ∅ w Hcompile) as [entryMap ->].
  rewrite Href. eexists. eexists. eexists. split; reflexivity.
Qed.

(** The map that the loop builds, path by path. *)
Lemma getTree_loop_content (r : Part000.Release)
    (content_of : string -> option github.RepositoryContent + error) :
  (forall path w',
     fst (github.Repositories_GetContents client (SourceOwner r) (SourceRepo r)
            path (BaseBranch r) w') = content_of path) ->
  forall (changes : list Part000.Change) (m : gmap string string) (w : World)
         (m' : gmap string string),
    Eff.result (Panic.for_range changes (getTree_change client MustCompile Replace r) m w)
      = Some m' ->
    forall path,
      m' !! path =
      match m !! path with
      | Some text =>
          GitbotSpec.apply_rules MustCompile Replace (GitbotSpec.rules_for path changes) text
      | None =>
          match GitbotSpec.fetched_content (content_of path),
                GitbotSpec.rules_for path changes with
          | Some original, _ :: _ =>
              GitbotSpec.apply_rules MustCompile Replace
                (GitbotSpec.rules_for path changes) original
          | _, _ => None
          end
      end.
Proof.
  intros Hstable.
  induction changes as [|c changes IH]; intros m w m'; cbn [Panic.for_range].
  { rewrite panic_ret_run. cbn [Eff.result]. intros [= <-] path.
    cbn [GitbotSpec.rules_for List.filter].
    destruct (m !! path); [reflexivity|].
    destruct (GitbotSpec.fetched_content (content_of path)); reflexivity. }
  rewrite panic_bind_run, getTree_change_run.
  assert (Hstep : forall text changed path,
             getChangedText MustCompile Replace text (Part000.regexText c)
                            (Part000.changedText c) = Some changed ->
             (m !! Part000.filePath c = Some text \/
              (m !! Part000.filePath c = None /\
               GitbotSpec.fetched_content (content_of (Part000.filePath c)) = Some text)) ->
             match <[Part000.filePath c := changed]> m !! path with
             | Some text =>
                 GitbotSpec.apply_rules MustCompile Replace
                   (GitbotSpec.rules_for path changes) text
             | None =>
                 match GitbotSpec.fetched_content (content_of path),
                       GitbotSpec.rules_for path changes with
                 | Some original, _ :: _ =>
                     GitbotSpec.apply_rules MustCompile Replace
                       (GitbotSpec.rules_for path changes) original
                 | _, _ => None
                 end
             end =
             match m !! path with
             | Some text =>
                 GitbotSpec.apply_rules MustCompile Replace
                   (GitbotSpec.rules_for path (c :: changes)) text
             | None =>
                 match GitbotSpec.fetched_content (content_of path),
                       GitbotSpec.rules_for path (c :: changes) with
                 | Some original, _ :: _ =>
                     GitbotSpec.apply_rules MustCompile Replace
                       (GitbotSpec.rules_for path (c :: changes)) original
                 | _, _ => None
                 end
             end).
  { intros text changed path Hchanged Hfrom.
    cbn [GitbotSpec.rules_for List.filter].
    destruct (String.eqb_spec (Part000.filePath c) path) as [Heq|Hne].
    - rewrite <- Heq, lookup_insert_eq.
      fold (GitbotSpec.rules_for (Part000.filePath c) changes).
      destruct Hfrom as [-> | [-> ->]];
        unfold GitbotSpec.apply_rules; cbn [fold_left]; rewrite Hchanged; reflexivity.
    - rewrite lookup_insert_ne by exact Hne. reflexivity. }
  destruct (m !! Part000.filePath c) as [content|] eqn:Hlook;
    cbn [Eff.result Eff.world Eff.trace].
  - destruct (getChangedText MustCompile Replace content (Part000.regexText c)
                (Part000.changedText c)) as [changed|] eqn:Hchanged;
      cbn [option_map Eff.result Eff.world]; [|discriminate].
    intros Hres path. rewrite (IH _ _ _ Hres path).
    apply (Hstep content changed path Hchanged). left. reflexivity.
  - cbv zeta.
    pose proof (Hstable (Part000.filePath c) w) as Hfetch.
    destruct (github.Repositories_GetContents client (SourceOwner r) (SourceRepo r)
                (Part000.filePath c) (BaseBranch r) w) as [answer w1].
    cbn [fst snd] in *. subst answer.
    destruct (GitbotSpec.original_content (content_of (Part000.filePath c)))
      as [[content|err]|] eqn:Hans; cbn [Eff.result Eff.world]; [| |discriminate].
    + destruct (getChangedText MustCompile Replace content (Part000.regexText c)
                  (Part000.changedText c)) as [changed|] eqn:Hchanged;
        cbn [option_map Eff.result Eff.world]; [|discriminate].
      intros Hres path. rewrite (IH _ _ _ Hres path).
      apply (Hstep content changed path Hchanged). right. split; [reflexivity|].
      unfold GitbotSpec.fetched_content. rewrite Hans. reflexivity.
    + intros Hres path. rewrite (IH _ _ _ Hres path).
      cbn [GitbotSpec.rules_for List.filter].
      destruct (String.eqb_spec (Part000.filePath c) path) as [Heq|Hne]; [|reflexivity].
      rewrite <- Heq, Hlook. unfold GitbotSpec.fetched_content. rewrite Hans. reflexivity.
Qed.

(** X7: when the content GitHub answers for a path does not depend on the
    moment of the call, the tree of a run of [getTree] that returns holds,
    for each path that has a registered change and whose content can be
    fetched, the content fetched once and rewritten by the changes of that
    path in the order of their registration, each applied to what the one
    before it left; a path whose fetch fails is left out of the tree and
    the other paths are still there. *)
Theorem getTree_content (r : Part000.Release) (ref : github.Reference) (w : World)
    (content_of : string -> option github.RepositoryContent + error)
    (res : github.Tree + error) :
  (forall m, range_map m ≡ₚ map_to_list m) ->
  (forall path w',
     fst (github.Repositories_GetContents client (SourceOwner r) (SourceRepo r)
            path (BaseBranch r) w') = content_of path) ->
  Eff.result (getTree client MustCompile Replace range_map r ref w) = Some res ->
  exists pre base entries,
    Eff.trace (getTree client MustCompile Replace range_map r ref w) =
      pre ++ [github.CreateTree (SourceOwner r) (SourceRepo r) base entries res] /\
    forall path content,
      In (tree_entry (path, content)) entries <->
      (GitbotSpec.rules_for path (Part000.Changes r) <> [] /\
       exists original,
         GitbotSpec.fetched_content (content_of path) = Some original /\
         GitbotSpec.apply_rules MustCompile Replace
           (GitbotSpec.rules_for path (Part000.Changes r)) original = Some content).
Proof.
  intros Hperm Hstable. rewrite getTree_run. cbv zeta.
  pose proof (getTree_loop_content r content_of Hstable (Part000.Changes r) ∅ w) as Hloop.
  destruct (Eff.result (Panic.for_range _ _ _ _)) as [entryMap|];
    cbn [Eff.result Eff.trace]; [|discriminate].
  specialize (Hloop entryMap eq_refl).
  destruct (github.Object ref) as [[[sha|]]|]; cbn [Eff.result Eff.trace];
    try discriminate.
  intros [= <-]. eexists. eexists. eexists. split; [reflexivity|].
  intros path content.
  assert (Hin : In (tree_entry (path, content)) (map tree_entry (range_map entryMap)) <->
                entryMap !! path = Some content).
  { rewrite in_map_iff. split.
    - intros ([path' content'] & [= -> ->] & Hin).
      apply elem_of_map_to_list. rewrite <- (Hperm entryMap).
      apply list_elem_of_In. exact Hin.
    - intros Hlook. exists (path, content). split; [reflexivity|].
      apply list_elem_of_In. rewrite (Hperm entryMap).
      apply elem_of_map_to_list. exact Hlook. }
  rewrite Hin, (Hloop path), lookup_empty.
  destruct (GitbotSpec.fetched_content (content_of path)) as [original|].
  - destruct (GitbotSpec.rules_for path (Part000.Changes r)) as [|c rules] eqn:Hrules.
    + split; [discriminate | intros [Hne _]; destruct (Hne eq_refl)].
    + split.
      * intros Happly. split; [discriminate|]. exists original. split; [reflexivity|].
        exact Happly.
      * intros (_ & original' & [= <-] & Happly). exact Happly.
  - split; [discriminate | intros (_ & original & Hsome & _); discriminate Hsome].
Qed.

(** *** [pushCommit] *)

(** X8: [pushCommit] moves a reference only after it has fetched the commit
    the reference points to and created the new commit; the move is not
    forced and goes to the new commit, whose only parent is the commit
    fetched (under the SHA GitHub reports for it), whose author is the
    author of the release at the time of the call, whose message is the
    message of the release and whose tree is the tree handed over. *)
Theorem pushCommit_moves_ref (r : Part000.Release) (ref : github.Reference)
    (tree : option github.Tree) (w : World)
    (o p : string) (moved : github.Reference) (force : bool)
    (res : github.Reference + error) :
  In (github.UpdateRef o p moved force res)
     (Eff.trace (pushCommit client r ref tree w)) ->
  force = false /\
  exists sha parent parentCommit date newCommit,
    github.Object ref = Some {| github.SHA := Some sha |} /\
    github.RepositoryCommit_Commit parent = Some parentCommit /\
    moved = {| github.Ref := github.Ref ref;
               github.Object := Some {| github.SHA := github.Commit_SHA newCommit |} |} /\
    Eff.trace (pushCommit client r ref tree w) =
      [github.GetCommit (SourceOwner r) (SourceRepo r) sha (inl parent);
       github.Now date;
       github.CreateCommit (SourceOwner r) (SourceRepo r)
         (github.mkCommit None
            (Some {| github.Date := Some date;
                     github.Name := Some (gitbot.Name (Part000.Author r));
                     github.Email := Some (gitbot.Email (Part000.Author r)) |})
            (Some (Part000.Message r))
            tree
            [github.mkCommit (github.RepositoryCommit_SHA parent)
                             (github.Commit_Author parentCommit)
                             (github.Commit_Message parentCommit)
                             (github.Commit_Tree parentCommit)
                             (github.Commit_Parents parentCommit)])
         (inl newCommit);
       github.UpdateRef (SourceOwner r) (SourceRepo r) moved false res].
Proof.
  unfold pushCommit. panic_step.
  destruct (github.Object ref) as [[[sha|]]|]; cbn [github.SHA]; panic_step;
    try solve [intros []].
  destruct (github.Repositories_GetCommit client (SourceOwner r) (SourceRepo r) sha w)
    as [[parent|err] w1]; panic_step.
  2: { intros [H|[]]. discriminate H. }
  destruct (github.RepositoryCommit_Commit parent) as [parentCommit|] eqn:Hparent;
    panic_step.
  2: { intros [H|[]]. discriminate H. }
  destruct (github.time_Now client w1) as [date w2]; panic_step.
  match goal with
  | |- context [github.Git_CreateCommit ?c ?o' ?p' ?k ?w0] =>
      destruct (github.Git_CreateCommit c o' p' k w0) as [[newCommit|err] w3]
  end; panic_step.
  2: { intros [H|[H|[H|[]]]]; discriminate H. }
  match goal with
  | |- context [github.Git_UpdateRef ?c ?o' ?p' ?k ?f ?w0] =>
      destruct (github.Git_UpdateRef c o' p' k f w0) as [[updated|err] w4]
  end; panic_step;
    (intros [H|[H|[H|[H|[]]]]]; try discriminate H;
     injection H as <- <- <- <- <-;
     split; [reflexivity|];
     exists sha, parent, parentCommit, date, newCommit;
     repeat split; try reflexivity; exact Hparent).
Qed.

(** X9: [pushCommit] stops at the first call that GitHub refuses and returns
    the error of that call; it returns nil only when no call has been
    refused; and the reference it hands back is the one it was given unless
    it went as far as the move of the reference. *)
Theorem pushCommit_first_failure (r : Part000.Release) (ref : github.Reference)
    (tree : option github.Tree) (w : World)
    (ref' : github.Reference) (err : option error) :
  Eff.result (pushCommit client r ref tree w) = Some (ref', err) ->
  exists pre last,
    Eff.trace (pushCommit client r ref tree w) = pre ++ [last] /\
    Forall (fun e => GitbotSpec.refused e = None) pre /\
    GitbotSpec.refused last = err /\
    (GitbotSpec.is_UpdateRef last = false -> ref' = ref).
Proof.
  unfold pushCommit. panic_step.
  destruct (github.Object ref) as [[[sha|]]|]; cbn [github.SHA]; panic_step;
    try discriminate.
  destruct (github.Repositories_GetCommit client (SourceOwner r) (SourceRepo r) sha w)
    as [[parent|e] w1]; panic_step.
  2: { intros [= <- <-]. exists []. eexists. split; [reflexivity|].
       split; [constructor|]. split; reflexivity. }
  destruct (github.RepositoryCommit_Commit parent) as [parentCommit|] eqn:Hparent;
    panic_step; [|discriminate].
  destruct (github.time_Now client w1) as [date w2]; panic_step.
  match goal with
  | |- context [github.Git_CreateCommit ?c ?o' ?p' ?k ?w0] =>
      destruct (github.Git_CreateCommit c o' p' k w0) as [[newCommit|e] w3]
  end; panic_step.
  2: { intros [= <- <-]. eexists [_; _]. eexists. split; [reflexivity|].
       split; [repeat constructor|]. split; reflexivity. }
  match goal with
  | |- context [github.Git_UpdateRef ?c ?o' ?p' ?k ?f ?w0] =>
      destruct (github.Git_UpdateRef c o' p' k f w0) as [[updated|e] w4]
  end; panic_step.
  - intros [= <- <-]. eexists [_; _; _]. eexists. split; [reflexivity|].
    split; [repeat constructor|]. split; [reflexivity | discriminate].
  - intros [= <- <-]. eexists [_; _; _]. eexists. split; [reflexivity|].
    split; [repeat constructor|]. split; [reflexivity | discriminate].
Qed.

(** *** [createPR] *)

(** X10: the pull request that [createPR] asks for is titled with the
    message of the release, goes from the commit branch into the base
    branch, carries the body of the release and can be modified by the
    maintainers; once GitHub has opened it, [createPR] asks for the labels
    of the release on it and returns its URL, also when the labels are
    refused, which is only logged. *)
Theorem createPR_labels_not_fatal (r : Part000.Release) (w : World)
    (o p : string) (pull : github.NewPullRequest) (pr : github.PullRequest)
    (number : Z) :
  In (github.CreatePullRequest o p pull (inl pr)) (Eff.trace (createPR client r w)) ->
  github.Number pr = Some number ->
  pull = {| github.Title := Some (Part000.Message r);
            github.Head := Some (CommitBranch r);
            github.Base := Some (BaseBranch r);
            github.Body := Some (Part000.Body r);
            github.MaintainerCanModify := Some true |} /\
  Eff.result (createPR client r w) = Some (inl (github.GetHTMLURL pr)) /\
  exists err,
    In (github.AddLabelsToIssue (SourceOwner r) (SourceRepo r) number
                                (Part000.Release_Labels r) err)
       (Eff.trace (createPR client r w)) /\
    forall e, err = Some e ->
      In (github.Printf "Error Adding Lables: %s" [Eff.AErr e])
         (Eff.trace (createPR client r w)).
Proof.
  unfold createPR, addLabels. panic_step.
  match goal with
  | |- context [github.PullRequests_Create ?c ?o' ?p' ?k ?w0] =>
      destruct (github.PullRequests_Create c o' p' k w0) as [[pr'|e] w1]
  end; panic_step.
  2: { intros [H|[]]. discriminate H. }
  destruct (github.Number pr') as [number'|] eqn:Hnumber; panic_step.
  2: { intros [H|[]] Hn. injection H as <- <- <- <-. congruence. }
  destruct (github.Issues_AddLabelsToIssue client (SourceOwner r) (SourceRepo r) number'
              (Part000.Release_Labels r) w1) as [[e|] w2]; panic_step.
  - intros [H|[H|[H|[]]]] Hn; try discriminate H. injection H as <- <- <- <-.
    assert (number' = number) as -> by congruence.
    split; [reflexivity|]. split; [reflexivity|].
    exists (Some e). split; [right; left; reflexivity|].
    intros e' [= <-]. right. right. left. reflexivity.
  - intros [H|[H|[]]] Hn; try discriminate H. injection H as <- <- <- <-.
    assert (number' = number) as -> by congruence.
    split; [reflexivity|]. split; [reflexivity|].
    exists None. split; [right; left; reflexivity|]. intros e' [=].
Qed.

(** X11: [createPR] returns an error exactly when GitHub refuses to open the
    pull request: the error is the one of the refusal and no label is asked
    for. *)
Theorem createPR_refused (r : Part000.Release) (w : World) (err : error) :
  Eff.result (createPR client r w) = Some (inr err) <->
  exists pull,
    Eff.trace (createPR client r w) =
      [github.CreatePullRequest (SourceOwner r) (SourceRepo r) pull (inr err)].
Proof.
  unfold createPR, addLabels. panic_step.
  match goal with
  | |- context [github.PullRequests_Create ?c ?o' ?p' ?k ?w0] =>
      destruct (github.PullRequests_Create c o' p' k w0) as [[pr'|e] w1]
  end; panic_step.
  2: { split.
       - intros [= <-]. eexists. reflexivity.
       - intros [pull [= _ <-]]. reflexivity. }
  destruct (github.Number pr') as [number'|] eqn:Hnumber; panic_step.
  2: { split; [discriminate | intros [pull H]; discriminate H]. }
  destruct (github.Issues_AddLabelsToIssue client (SourceOwner r) (SourceRepo r) number'
              (Part000.Release_Labels r) w1) as [[e|] w2]; panic_step;
    (split; [discriminate | intros [pull H]; discriminate H]).
Qed.

End Gitbot.

(** ** [createPR] on the release that [newRelease] of part_000 builds *)

Section PullRequestOfManifest.
Import Go GitbotHelpers.
Context {World : Type}.
Variable client : github.Client World.

(** X12: for the release that [newRelease] builds for a manifest,
    [createPR] asks, in the manifest repository of the application, for a
    pull request titled with the commit message, from the release branch
    (from the base branch itself when the manifest commits without pull
    request) into the base branch of the manifest, or of the application
    when the manifest names none; the labels it asks for are the source
    name, the env and the labels of the manifest, in this order. *)
Theorem createPR_of_newRelease (cfg : Part000.Config) (app : Part000.Application)
    (m : Part000.Manifest) (version : string) (w : World) :
  let base := Spec.first_non_empty [Part000.BaseBranch m] (Part000.ManifestBaseBranch app) in
  Forall (fun e =>
            match e with
            | github.CreatePullRequest o p pull _ =>
                o = Part000.ManifestOwner app /\ p = Part000.ManifestName app /\
                github.Title pull = Some (Part000.getCommitMessage app m version) /\
                github.Head pull =
                  Some (if Part000.CommitWithoutPR m then base
                        else Part000.getBranchName app m version) /\
                github.Base pull = Some base
            | github.AddLabelsToIssue o p _ labels _ =>
                o = Part000.ManifestOwner app /\ p = Part000.ManifestName app /\
                labels = Part000.SourceName app :: Part000.Env m :: Part000.Labels m
            | _ => True
            end)
         (Eff.trace (createPR client (Part000.newRelease cfg app m version) w)).
Proof.
  intros base. subst base.
  assert (Hbase : BaseBranch (Part000.newRelease cfg app m version) =
                  Spec.first_non_empty [Part000.BaseBranch m]
                                       (Part000.ManifestBaseBranch app)).
  { unfold BaseBranch, Part000.newRelease. cbn.
    destruct (String.eqb (Part000.BaseBranch m) ""); reflexivity. }
  assert (Hhead : CommitBranch (Part000.newRelease cfg app m version) =
                  if Part000.CommitWithoutPR m
                  then Spec.first_non_empty [Part000.BaseBranch m]
                                            (Part000.ManifestBaseBranch app)
                  else Part000.getBranchName app m version).
  { rewrite <- Hbase. unfold CommitBranch, BaseBranch, Part000.newRelease. cbn.
    destruct (Part000.CommitWithoutPR m); reflexivity. }
  unfold createPR, addLabels. panic_step.
  match goal with
  | |- context [github.PullRequests_Create ?c ?o' ?p' ?k ?w0] =>
      destruct (github.PullRequests_Create c o' p' k w0) as [[pr'|e] w1]
  end; panic_step.
  2: { constructor; [|constructor]. cbn [github.Title github.Head github.Base].
       rewrite Hbase, Hhead. repeat split; reflexivity. }
  assert (Hfirst :
            Part000.ManifestOwner app = Part000.ManifestOwner app /\
            Part000.ManifestName app = Part000.ManifestName app /\
            Some (Part000.Message (Part000.newRelease cfg app m version)) =
              Some (Part000.getCommitMessage app m version) /\
            Some (CommitBranch (Part000.newRelease cfg app m version)) =
              Some (if Part000.CommitWithoutPR m
                    then Spec.first_non_empty [Part000.BaseBranch m]
                                              (Part000.ManifestBaseBranch app)
                    else Part000.getBranchName app m version) /\
            Some (BaseBranch (Part000.newRelease cfg app m version)) =
              Some (Spec.first_non_empty [Part000.BaseBranch m]
                                         (Part000.ManifestBaseBranch app))).
  { rewrite Hbase, Hhead. repeat split; reflexivity. }
  destruct (github.Number pr') as [number'|]; panic_step.
  2: { constructor; [exact Hfirst | constructor]. }
  match goal with
  | |- context [github.Issues_AddLabelsToIssue ?c ?o' ?p' ?k ?l ?w0] =>
      destruct (github.Issues_AddLabelsToIssue c o' p' k l w0) as [[e|] w2]
  end; panic_step.
  - constructor; [exact Hfirst|]. constructor; [repeat split; reflexivity|].
    constructor; [exact I | constructor].
  - constructor; [exact Hfirst|]. constructor; [repeat split; reflexivity|]. constructor.
Qed.

End PullRequestOfManifest.

(** * flow.go *)

Section FlowFile.
Import Go FlowGo.
Context {Client World : Type}.
Variable os_Getenv : string -> World -> string.
Variable api : pubsub.API Client World.

Lemma outside_call_run {A} (ev : A -> Event Client) (op : World -> A * World)
    (s : State Client World) :
  outside_call ev op s =
  Eff.mkRun (fst (op (outside s)))
            {| globals := globals s; outside := snd (op (outside s)) |}
            [ev (fst (op (outside s)))].
Proof. unfold outside_call. rewrite call_run. destruct (op (outside s)); reflexivity. Qed.

Lemma getenv_run (key : string) (s : State Client World) :
  getenv os_Getenv key s =
  Eff.mkRun (os_Getenv key (outside s)) {| globals := globals s; outside := outside s |}
            [Getenv key (os_Getenv key (outside s))].
Proof. unfold getenv. rewrite outside_call_run. reflexivity. Qed.

Lemma assign_run (update : Globals Client -> Globals Client) (s : State Client World) :
  assign update s =
  Eff.mkRun tt {| globals := update (globals s); outside := outside s |} [].
Proof. reflexivity. Qed.

(** X13: [New] installs the configuration it is given, also when it fails;
    it reads the four variables of the environment, fails exactly when one
    of them is empty, and otherwise returns the [Flow] that holds their
    values. *)
Theorem New_requires_environment (c : Process.Config) (s : State Client World) :
  let run := New (Client := Client) os_Getenv c s in
  let env key := os_Getenv key (outside s) in
  ((exists err, Eff.result run = inr err) <->
   (env "FLOW_ENV" = "" \/ env "FLOW_GCP_PROJECT_ID" = "" \/
    env "FLOW_SLACK_BOT_TOKEN" = "" \/ env "FLOW_GITHUB_TOKEN" = "")) /\
  (forall f, Eff.result run = inl f ->
     f = {| Process.Flow_Env := env "FLOW_ENV";
            Process.projectID := env "FLOW_GCP_PROJECT_ID";
            Process.slackBotToken := env "FLOW_SLACK_BOT_TOKEN";
            Process.githubToken := env "FLOW_GITHUB_TOKEN" |}) /\
  cfg (globals (Eff.world run)) = Some c /\
  outside (Eff.world run) = outside s /\
  Eff.trace run = [Getenv "FLOW_ENV" (env "FLOW_ENV");
                   Getenv "FLOW_GCP_PROJECT_ID" (env "FLOW_GCP_PROJECT_ID");
                   Getenv "FLOW_SLACK_BOT_TOKEN" (env "FLOW_SLACK_BOT_TOKEN");
                   Getenv "FLOW_GITHUB_TOKEN" (env "FLOW_GITHUB_TOKEN")].
Proof.
  intros run env. subst run env. unfold New.
  rewrite bind_run, assign_run. cbn [Eff.result Eff.world Eff.trace app].
  do 4 (rewrite bind_run, getenv_run;
        cbn [Eff.result Eff.world Eff.trace globals outside app]).
  cbn [Process.Flow_Env Process.projectID Process.slackBotToken Process.githubToken].
  destruct (String.eqb_spec (os_Getenv "FLOW_ENV" (outside s)) "") as [H1|H1];
    cbn [orb].
  { repeat split; try reflexivity.
    - intros _. left. exact H1.
    - intros _. eexists. reflexivity.
    - intros f [=]. }
  destruct (String.eqb_spec (os_Getenv "FLOW_GCP_PROJECT_ID" (outside s)) "") as [H2|H2];
    cbn [orb].
  { repeat split; try reflexivity.
    - intros _. right. left. exact H2.
    - intros _. eexists. reflexivity.
    - intros f [=]. }
  destruct (String.eqb_spec (os_Getenv "FLOW_SLACK_BOT_TOKEN" (outside s)) "") as [H3|H3];
    cbn [orb].
  { repeat split; try reflexivity.
    - intros _. right. right. left. exact H3.
    - intros _. eexists. reflexivity.
    - intros f [=]. }
  destruct (String.eqb_spec (os_Getenv "FLOW_GITHUB_TOKEN" (outside s)) "") as [H4|H4].
  { repeat split; try reflexivity.
    - intros _. right. right. right. exact H4.
    - intros _. eexists. reflexivity.
    - intros f [=]. }
  repeat split; try reflexivity.
  - intros [err [=]].
  - intros [H|[H|[H|H]]]; contradiction.
  - intros f [= <-]. reflexivity.
Qed.

(** What [createGCBSubscription] does, by the answer to the check. *)
Lemma createGCBSubscription_run (client : Client) (s : State Client World) :
  let name := "flow-sub-cloud-builds%!s(MISSING)" in
  let subscription := {| pubsub.Subscription_client := client;
                         pubsub.Subscription_id := name |} in
  let config := {| pubsub.Config_Topic := {| pubsub.Topic_client := client;
                                             pubsub.Topic_id := "cloud-builds" |} |} in
  let checked := pubsub.Exists api subscription (outside s) in
  let created := pubsub.CreateSubscription api client name config (snd checked) in
  createGCBSubscription api client s =
  match fst checked with
  | inr err =>
      Eff.mkRun (Some (Errorf "Error checking for subscription: %s" [Error err]))
                {| globals := set_subscriptionGCB (Some subscription) (globals s);
                   outside := snd checked |}
                [Exists subscription (inr err)]
  | inl true =>
      Eff.mkRun None
                {| globals := set_subscriptionGCB (Some subscription) (globals s);
                   outside := snd checked |}
                [Exists subscription (inl true)]
  | inl false =>
      Eff.mkRun None
                {| globals := set_subscriptionGCB (Some subscription) (globals s);
                   outside := snd created |}
                [Exists subscription (inl false);
                 CreateSubscription client name config (fst created)]
  end.
Proof.
  intros name subscription config checked created.
  unfold createGCBSubscription.
  change (Sprintf "%s%s" [subscriptionPrefix +:+ pubsubGCBTopicID]) with name.
  fold subscription. change pubsubGCBTopicID with "cloud-builds". fold config.
  rewrite bind_run, assign_run. cbn [Eff.result Eff.world Eff.trace app].
  rewrite bind_run, outside_call_run.
  cbn [Eff.result Eff.world Eff.trace app globals outside].
  fold checked. destruct (fst checked) as [[|]|err]; cbn [negb].
  - reflexivity.
  - rewrite !bind_run, outside_call_run.
    cbn [Eff.result Eff.world Eff.trace app globals outside]. fold created.
    destruct (fst created); reflexivity.
  - reflexivity.
Qed.

(** X14: [createGCBSubscription] checks, and when needed creates on the
    topic [cloud-builds], the subscription whose name is what
    [Sprintf] makes of a format of two verbs and a single argument; it
    keeps the handle of that subscription in [subscriptionGCB] whatever
    happens next. *)
Theorem createGCBSubscription_name (client : Client) (s : State Client World) :
  let run := createGCBSubscription api client s in
  let name := "flow-sub-cloud-builds%!s(MISSING)" in
  subscriptionGCB (globals (Eff.world run)) =
    Some {| pubsub.Subscription_client := client; pubsub.Subscription_id := name |} /\
  Forall (fun e =>
            match e with
            | Exists subscription _ =>
                subscription = {| pubsub.Subscription_client := client;
                                  pubsub.Subscription_id := name |}
            | CreateSubscription c id config _ =>
                c = client /\ id = name /\
                config = {| pubsub.Config_Topic :=
                              {| pubsub.Topic_client := client;
                                 pubsub.Topic_id := "cloud-builds" |} |}
            | _ => False
            end) (Eff.trace run).
Proof.
  intros run name. subst run name. rewrite createGCBSubscription_run. cbv zeta.
  destruct (fst (pubsub.Exists api _ (outside s))) as [[|]|err];
    cbn [Eff.world Eff.trace globals set_subscriptionGCB subscriptionGCB];
    (split; [reflexivity|]); repeat constructor.
Qed.

(** X15: [createGCBSubscription] fails exactly when the check of the
    subscription fails; it asks for the creation exactly when the check
    answers that the subscription does not exist, and returns nil also when
    the creation is refused. *)
Theorem createGCBSubscription_result (client : Client) (s : State Client World) :
  let run := createGCBSubscription api client s in
  let checked :=
    fst (pubsub.Exists api {| pubsub.Subscription_client := client;
                              pubsub.Subscription_id :=
                                "flow-sub-cloud-builds%!s(MISSING)" |} (outside s)) in
  (Eff.result run = None <-> exists b, checked = inl b) /\
  (forall err, checked = inr err ->
     Eff.result run = Some (Errorf "Error checking for subscription: %s" [Error err])) /\
  ((exists c id config res, In (CreateSubscription c id config res) (Eff.trace run)) <->
   checked = inl false).
Proof.
  intros run checked. subst run checked. rewrite createGCBSubscription_run. cbv zeta.
  destruct (fst (pubsub.Exists api _ (outside s))) as [[|]|err];
    cbn [Eff.result Eff.trace].
  - split; [split; [intros _; eexists; reflexivity | reflexivity]|].
    split; [intros err [=]|].
    split; [intros (c & id & config & res & [H|[]]); discriminate H | discriminate].
  - split; [split; [intros _; eexists; reflexivity | reflexivity]|].
    split; [intros err [=]|].
    split; [reflexivity|]. intros _. do 4 eexists. right. left. reflexivity.
  - split; [split; [discriminate | intros [b [=]]]|].
    split; [intros err' [= <-]; reflexivity|].
    split; [intros (c & id & config & res & [H|[]]); discriminate H | discriminate].
Qed.

Lemma newPubSubClient_run (projectID : string) (s : State Client World) :
  let answer := pubsub.NewClient api projectID (outside s) in
  newPubSubClient api projectID s =
  Eff.mkRun (match fst answer with
             | inr err => inr (Errorf "Error creating pubsub client: %s" [Error err])
             | inl client => inl client
             end)
            {| globals := globals s; outside := snd answer |}
            [NewClient projectID (fst answer)].
Proof.
  intros answer. unfold newPubSubClient. rewrite bind_run, outside_call_run.
  cbn [Eff.result Eff.world Eff.trace]. fold answer.
  destruct (fst answer); rewrite ret_run; reflexivity.
Qed.

(** X16: [Start] starts the subscriber exactly when the Pub/Sub client has
    been created and the check of the subscription has not failed, and then
    as its last step; the client it creates stays in a variable of its own:
    the package-level [client] and [cfg] are as they were. *)
Theorem Start_subscribes (f : Process.Flow) (s : State Client World) :
  let run := Start api f s in
  (In (Go_subscribeGCB f) (Eff.trace run) <->
   exists c subscription b,
     In (NewClient (Process.projectID f) (inl c)) (Eff.trace run) /\
     In (Exists subscription (inl b)) (Eff.trace run)) /\
  (forall f', In (Go_subscribeGCB f') (Eff.trace run) ->
     exists calls, Eff.trace run = calls ++ [Go_subscribeGCB f] /\
                   ~ In (Go_subscribeGCB f) calls) /\
  client (globals (Eff.world run)) = client (globals s) /\
  cfg (globals (Eff.world run)) = cfg (globals s).
Proof.
  intros run. subst run. unfold Start.
  rewrite bind_run, newPubSubClient_run. cbv zeta.
  cbn [Eff.result Eff.world Eff.trace app].
  destruct (pubsub.NewClient api (Process.projectID f) (outside s)) as [[c|err] w1];
    cbn [fst snd Eff.result Eff.world Eff.trace app globals];
    rewrite ?ret_run; cbn [Eff.result Eff.world Eff.trace app globals].
  2: { split; [|split; [|split; reflexivity]].
       - split.
         + intros [H|[]]. discriminate H.
         + intros (c & sub & b & [H|[]] & _). discriminate H.
       - intros f' [H|[]]. discriminate H. }
  rewrite bind_run, createGCBSubscription_run. cbv zeta.
  cbn [globals outside].
  destruct (fst (pubsub.Exists api _ w1)) as [[|]|err];
    cbn [Eff.result Eff.world Eff.trace app globals set_subscriptionGCB client cfg];
    rewrite ?ret_run, ?emit_run;
    cbn [Eff.result Eff.world Eff.trace app globals set_subscriptionGCB client cfg].
  - split; [|split; [|split; reflexivity]].
    + split; [intros _ | intros _; right; right; left; reflexivity].
      do 3 eexists. split; [left; reflexivity | right; left; reflexivity].
    + intros f' _. eexists [_; _]. split; [reflexivity|].
      intros [H|[H|[]]]; discriminate H.
  - split; [|split; [|split; reflexivity]].
    + split; [intros _ | intros _; right; right; right; left; reflexivity].
      do 3 eexists. split; [left; reflexivity | right; left; reflexivity].
    + intros f' _. eexists [_; _; _]. split; [reflexivity|].
      intros [H|[H|[H|[]]]]; discriminate H.
  - split; [|split; [|split; reflexivity]].
    + split.
      * intros [H|[H|[]]]; discriminate H.
      * intros (c' & sub & b & _ & [H|[H|[]]]); discriminate H.
    + intros f' [H|[H|[]]]; discriminate H.
Qed.

End FlowFile.

(** * More on process.go *)

Section MoreRuns.
Context {Event World : Type}.

(** When the events of an iteration depend on the element only, the events
    of the loop are those of its iterations, in order. *)
Lemma for_range_trace_exact {A B} (body : A -> B -> Eff.M Event World B)
    (events : A -> list Event) (l : list A) :
  (forall x acc w, Eff.trace (body x acc w) = events x) ->
  forall acc w, Eff.trace (Eff.for_range l body acc w) = flat_map events l.
Proof.
  intros Hbody. induction l as [|x l IH]; intros acc w; cbn [Eff.for_range flat_map].
  - reflexivity.
  - change (Eff.bind ?m ?f) with (m ≫= f). rewrite bind_run. cbn [Eff.trace].
    rewrite Hbody, IH. reflexivity.
Qed.

(** A loop that only logs. *)
Lemma for_range_emit {A} (line : A -> Event) (l : list A) (w : World) :
  Eff.for_range l (fun x (_ : unit) => Eff.emit (line x)) tt w =
  Eff.mkRun tt w (map line l).
Proof.
  induction l as [|x l IH]; cbn [Eff.for_range map]; [reflexivity|].
  change (Eff.bind ?m ?f) with (m ≫= f). rewrite bind_run, emit_run.
  cbn [Eff.result Eff.world Eff.trace]. rewrite IH. reflexivity.
Qed.

End MoreRuns.

Section MoreFilter.
Import Go.

Lemma HasPrefix_iff (s prefix : string) :
  HasPrefix s prefix = true <-> exists rest, s = prefix +:+ rest.
Proof.
  unfold HasPrefix. revert s. induction prefix as [|c prefix IH]; intros s.
  - destruct s; cbn; (split; [intros _; eexists; reflexivity | reflexivity]).
  - destruct s as [|c' s]; cbn.
    + split; [discriminate | intros [rest H]; discriminate H].
    + destruct (ascii_dec c c') as [<-|Hne].
      * rewrite IH. split.
        -- intros [rest ->]. exists rest. reflexivity.
        -- intros [rest [= ->]]. exists rest. reflexivity.
      * split; [discriminate|]. intros [rest [= <- _]]. destruct (Hne eq_refl).
Qed.

Lemma accepts_iff (f : Config.Filters) (v : string) :
  Spec.accepts f v = true <->
  v <> "" /\ v <> "latest" /\
  (forall prefix, In prefix (Config.ExcludePrefixes f) ->
     ~ exists rest, v = prefix +:+ rest) /\
  (Config.IncludePrefixes f = [] \/
   exists prefix rest, In prefix (Config.IncludePrefixes f) /\ v = prefix +:+ rest).
Proof.
  unfold Spec.accepts.
  destruct (String.eqb_spec v "") as [Hv|Hne1]; cbn [negb andb].
  { split; [discriminate | intros [H _]; destruct (H Hv)]. }
  destruct (String.eqb_spec v "latest") as [Hv|Hne2]; cbn [negb andb].
  { split; [discriminate | intros (_ & H & _); destruct (H Hv)]. }
  destruct (existsb (HasPrefix v) (Config.ExcludePrefixes f)) eqn:Hex; cbn [negb andb].
  { split; [discriminate|]. intros (_ & _ & Hno & _).
    apply existsb_exists in Hex. destruct Hex as (prefix & Hin & Hp).
    apply HasPrefix_iff in Hp. destruct (Hno prefix Hin Hp). }
  assert (Hno : forall prefix, In prefix (Config.ExcludePrefixes f) ->
                  ~ exists rest, v = prefix +:+ rest).
  { intros prefix Hin Hp. apply HasPrefix_iff in Hp.
    rewrite (proj1 (existsb_false_iff _ _) Hex prefix Hin) in Hp. discriminate Hp. }
  destruct (Config.IncludePrefixes f) as [|p ps] eqn:Hinc; cbn [List.length Nat.eqb orb].
  { split; [intros _ | reflexivity]. repeat split; try assumption. left. reflexivity. }
  rewrite <- Hinc. split.
  - intros Hin. apply existsb_exists in Hin. destruct Hin as (prefix & Hin & Hp).
    apply HasPrefix_iff in Hp. destruct Hp as [rest Hp].
    repeat split; try assumption. right. exists prefix, rest. split; assumption.
  - intros (_ & _ & _ & [Hnil | (prefix & rest & Hin & Hp)]).
    + rewrite Hinc in Hnil. discriminate Hnil.
    + apply existsb_exists. exists prefix. split; [exact Hin|].
      apply HasPrefix_iff. exists rest. exact Hp.
Qed.

(** X17: [shouldProcess], in both revisions, accepts a version exactly when
    it is not empty, is not [latest], starts with no exclude prefix, and
    starts with some include prefix unless there is no include prefix at
    all; a version that starts with an exclude prefix is refused whatever
    the include prefixes say. *)
Theorem shouldProcess_iff (filters : Config.Filters) (v : string) :
  let accepted :=
    v <> "" /\ v <> "latest" /\
    (forall prefix, In prefix (Config.ExcludePrefixes filters) ->
       ~ exists rest, v = prefix +:+ rest) /\
    (Config.IncludePrefixes filters = [] \/
     exists prefix rest, In prefix (Config.IncludePrefixes filters) /\
                         v = prefix +:+ rest) in
  (forall m, Process.Filters m = filters ->
     (Process.shouldProcess m v = true <-> accepted)) /\
  (forall m, Part000.Filters m = filters ->
     (Part000.shouldProcess m v = true <-> accepted)).
Proof.
  intros accepted. subst accepted. split; intros m <-.
  - rewrite shouldProcess_accepts. apply accepts_iff.
  - rewrite Part000_shouldProcess_accepts. apply accepts_iff.
Qed.

End MoreFilter.

Section MoreProcess.
Import Go Process.
Context {World : Type}.
Variable NewGitHubClient : string -> Client World.
Variable cfg : Config.

(** X18: [getApplicationByImage] answers the first application of the
    catalog that carries the image, also when later ones carry it too, and
    the error [No application found for image ...] exactly when none
    does. *)
Theorem getApplicationByImage_first (image : string) :
  match getApplicationByImage cfg image with
  | inl app =>
      exists before after,
        ApplicationList cfg = before ++ app :: after /\
        Image app = image /\
        Forall (fun a => Image a <> image) before
  | inr err =>
      err = errors_New ("No application found for image " +:+ image) /\
      Forall (fun a => Image a <> image) (ApplicationList cfg)
  end.
Proof.
  unfold getApplicationByImage.
  induction (ApplicationList cfg) as [|a apps IH]; cbn [find_application].
  - split; [reflexivity | constructor].
  - destruct (String.eqb_spec image (Image a)) as [Heq|Hne].
    + exists [], apps. repeat split; [symmetry; exact Heq | constructor].
    + destruct (find_application image apps) as [app|].
      * destruct IH as (before & after & -> & Him & Hbefore).
        exists (a :: before), after. repeat split; [exact Him|].
        constructor; [congruence | exact Hbefore].
      * destruct IH as [Herr Hnone]. split; [exact Herr|].
        constructor; [congruence | exact Hnone].
Qed.

(** X19: the release that [newRelease] of process.go builds lives in the
    manifest repository of the application, each of owner and name falling
    back on the default of the configuration when the application leaves it
    empty; its author is the author of the configuration, its message the
    commit message, its body empty, and its labels the source name, the env
    and the labels of the manifest, in this order. *)
Theorem newRelease_coordinates (app : Application) (m : Manifest) (version : string) :
  let r := newRelease cfg app m version in
  gitbot.SourceOwner (Repo r) =
    Spec.first_non_empty [ManifestOwner app] (DefaultManifestOwner cfg) /\
  gitbot.SourceRepo (Repo r) =
    Spec.first_non_empty [ManifestName app] (DefaultManifestName cfg) /\
  Author r = {| gitbot.Name := Config.Name (GitAuthor cfg);
                gitbot.Email := Config.Email (GitAuthor cfg) |} /\
  Message r = getCommitMessage app m version /\
  Body r = "" /\
  Release_Labels r = SourceName app :: Env m :: Labels m /\
  changedContent r = ∅.
Proof.
  unfold newRelease, NewRelease. cbn.
  destruct (String.eqb (ManifestOwner app) ""), (String.eqb (ManifestName app) "");
    repeat split; reflexivity.
Qed.

Lemma fold_left_append (link : string -> string) (texts : list string) (body : string) :
  fold_left (fun body text => body +:+ link text) texts body =
  body +:+ ProcessSpec.join_all (map link texts).
Proof.
  revert body. induction texts as [|text texts IH]; intros body;
    cbn [fold_left map ProcessSpec.join_all].
  - symmetry. apply append_nil_r.
  - rewrite IH. apply append_assoc.
Qed.

(** X20: the body that [generateBody] builds is the section on the release
    of the source followed by the text of the manifest: the section holds
    the link to the release and then one compare link per old version, in
    the order given, and is left out as a whole when the manifest hides it;
    the text of the manifest comes after two line feeds and is left out when
    it is empty, so that a manifest that hides the section and has no text
    gets an empty body. *)
Theorem generateBody_sections (app : Application) (m : Manifest) (version : string)
    (oldVersions : list string) :
  generateBody app m version oldVersions =
  (if HideSourceReleaseDesc m then ""
   else ProcessSpec.release_section app version oldVersions) +:+
  (if String.eqb (PRBody m) "" then "" else newline +:+ newline +:+ PRBody m).
Proof.
  unfold generateBody.
  assert (Htext : Sprintf (newline +:+ newline +:+ "%s") [PRBody m] =
                  newline +:+ newline +:+ PRBody m).
  { cbn. rewrite append_nil_r. reflexivity. }
  rewrite Htext.
  destruct (HideSourceReleaseDesc m); cbn [negb].
  - destruct (String.eqb (PRBody m) ""); reflexivity.
  - rewrite (fold_left_append (ProcessSpec.compare_link app version)).
    unfold ProcessSpec.release_section.
    destruct (String.eqb (PRBody m) ""); cbn [negb];
      rewrite ?append_nil_r, ?append_assoc; reflexivity.
Qed.

(** The calls of [MakeChangeFunc] for one file, and for the files of a
    manifest. *)
Lemma rewriteFile_calls (client : Client World) (app : Application)
    (version filePath : string) (acc : Release * gset string) (w : World) :
  Eff.trace (rewriteFile client app version filePath acc w) =
  ProcessSpec.rewrite_calls app filePath.
Proof.
  unfold rewriteFile, ProcessSpec.rewrite_calls.
  rewrite bind_run. cbn [Eff.trace]. rewrite makeChange_trace.
  rewrite bind_run. cbn [Eff.trace]. rewrite makeChange_trace.
  rewrite bind_run. cbn [Eff.trace].
  rewrite (for_range_trace_exact _
             (fun key => [CallMakeChangeFunc filePath
                            (Sprintf additionalRewriteKeysRegexTemplate [key])]))
    by (intros; apply makeChange_trace).
  rewrite (for_range_trace_exact _
             (fun prefix => [CallMakeChangeFunc filePath
                               (Sprintf additionalRewritePrefixRegexTemplate [prefix])]))
    by (intros; apply makeChange_trace).
  assert (Hsingle : forall (A : Type) (g : A -> Event) (l : list A),
             flat_map (fun x => [g x]) l = map g l).
  { intros A g l. induction l as [|x l IH]; cbn; [reflexivity | rewrite IH; reflexivity]. }
  rewrite !Hsingle. reflexivity.
Qed.

Lemma processManifest_calls (client : Client World) (app : Application)
    (version : string) (m : Manifest) (prs : PullRequests) (w : World) :
  shouldProcess m version = true ->
  exists rel (oldVersionSet : gset string) err tail,
    Eff.trace (processManifest cfg client app version m prs w) =
      flat_map (ProcessSpec.rewrite_calls app) (Files m) ++
      CallCommit (SetBody rel (generateBody app m version (elements oldVersionSet))) err
      :: tail /\
    Forall (fun e => Spec.is_rewrite e = false /\ ProcessSpec.is_Commit e = false) tail.
Proof.
  intros Hsp. unfold processManifest. rewrite Hsp. cbn [negb].
  rewrite bind_run. cbn [Eff.trace].
  rewrite (for_range_trace_exact _ (ProcessSpec.rewrite_calls app))
    by (intros; apply rewriteFile_calls).
  destruct (Eff.for_range (Files m) (rewriteFile client app version)
              (newRelease cfg app m version, ∅) w) as [[rel set] w1 tr].
  cbn [Eff.result Eff.world Eff.trace].
  rewrite bind_run, call_run.
  destruct (Commit client (SetBody rel _) w1) as [[rel2 [e|]] w2];
    cbn [Eff.result Eff.world Eff.trace fst snd Datatypes.app].
  - exists rel, set. eexists. eexists. split; [reflexivity|]. repeat constructor.
  - destruct (CommitWithoutPR m); cbn [negb].
    + exists rel, set. eexists. eexists. split; [reflexivity|]. constructor.
    + rewrite bind_run, call_run.
      destruct (CreatePR client rel2 w2) as [[rel3 [u|e]] w3];
        cbn [Eff.result Eff.world Eff.trace fst snd Datatypes.app];
        (exists rel, set; eexists; eexists; split; [reflexivity|]; repeat constructor).
Qed.

Lemma filter_all {A} (keep : A -> bool) (l : list A) :
  (Forall (fun x => keep x = true) l -> List.filter keep l = l) /\
  (Forall (fun x => keep x = false) l -> List.filter keep l = []).
Proof.
  split; induction 1 as [|x l Hx _ IH]; cbn [List.filter]; try reflexivity;
    rewrite Hx, IH; reflexivity.
Qed.

Lemma rewrite_calls_only (app : Application) (files : list string) :
  Forall (fun e => Spec.is_rewrite e = true /\ ProcessSpec.is_Commit e = false)
         (flat_map (ProcessSpec.rewrite_calls app) files).
Proof.
  induction files as [|filePath files IH]; cbn [flat_map]; [constructor|].
  apply Forall_app. split; [|exact IH].
  unfold ProcessSpec.rewrite_calls.
  repeat (apply Forall_app; split); repeat constructor.
  - generalize (AdditionalRewriteKeys app). intros keys.
    induction keys; cbn [map]; constructor; [split; reflexivity | assumption].
  - generalize (AdditionalRewritePrefix app). intros prefixes.
    induction prefixes; cbn [map]; constructor; [split; reflexivity | assumption].
Qed.

Lemma filter_rewrite_calls (app : Application) (files : list string) :
  List.filter Spec.is_rewrite (flat_map (ProcessSpec.rewrite_calls app) files) =
  flat_map (ProcessSpec.rewrite_calls app) files /\
  List.filter ProcessSpec.is_Commit (flat_map (ProcessSpec.rewrite_calls app) files) = [].
Proof.
  pose proof (rewrite_calls_only app files) as Hall. split.
  - apply filter_all. eapply Forall_impl; [exact Hall|]. intros e [He _]. exact He.
  - apply filter_all. eapply Forall_impl; [exact Hall|]. intros e [_ He]. exact He.
Qed.

Lemma filter_tail (tail : list Event) :
  Forall (fun e => Spec.is_rewrite e = false /\ ProcessSpec.is_Commit e = false) tail ->
  List.filter Spec.is_rewrite tail = [] /\ List.filter ProcessSpec.is_Commit tail = [].
Proof.
  induction 1 as [|e tail [He1 He2] _ [IH1 IH2]]; cbn [List.filter]; [split; reflexivity|].
  rewrite He1, He2. split; assumption.
Qed.

(** X21: the calls of [MakeChangeFunc] of a run of [process] are, for each
    manifest that accepts the version, in the order of the manifests, and for
    each of its files, in order: the image rule, the version rule, one rule
    per additional key and one rule per additional prefix; a failure on one
    manifest changes nothing to the calls made for the next ones. *)
Theorem process_rewrite_calls (f : Flow) (app : Application) (version : string)
    (w : World) :
  List.filter Spec.is_rewrite
    (Eff.trace (process NewGitHubClient cfg f app version w)) =
  flat_map (fun m => flat_map (ProcessSpec.rewrite_calls app) (Files m))
           (Spec.passed version (Manifests app)).
Proof.
  unfold process. generalize (NewGitHubClient (githubToken f)). intros client.
  generalize (@nil PullRequest). revert w.
  induction (Manifests app) as [|m ms IH]; intros w prs;
    cbn [Eff.for_range Spec.passed List.filter flat_map]; [reflexivity|].
  change (Eff.bind ?x ?k) with (x ≫= k). rewrite bind_run. cbn [Eff.trace].
  rewrite List.filter_app, IH. fold (Spec.passed version ms).
  destruct (shouldProcess m version) eqn:Hsp; cbn [flat_map].
  - destruct (processManifest_calls client app version m prs w Hsp)
      as (rel & set & err & tail & -> & Htail).
    rewrite List.filter_app. cbn [List.filter Spec.is_rewrite].
    rewrite (proj1 (filter_rewrite_calls app (Files m))), (proj1 (filter_tail _ Htail)).
    rewrite app_nil_r. reflexivity.
  - destruct (processManifest_cases cfg client app version m prs w)
      as [(_ & _ & ->) | (Hsp' & _)]; [reflexivity | congruence].
Qed.

(** X22: a run of [process] attempts exactly one commit per manifest that
    accepts the version, whatever GitHub answered for the manifests
    before. *)
Theorem process_commits_once_per_manifest (f : Flow) (app : Application)
    (version : string) (w : World) :
  List.length (List.filter ProcessSpec.is_Commit
                 (Eff.trace (process NewGitHubClient cfg f app version w))) =
  List.length (Spec.passed version (Manifests app)).
Proof.
  unfold process. generalize (NewGitHubClient (githubToken f)). intros client.
  generalize (@nil PullRequest). revert w.
  induction (Manifests app) as [|m ms IH]; intros w prs;
    cbn [Eff.for_range Spec.passed List.filter]; [reflexivity|].
  change (Eff.bind ?x ?k) with (x ≫= k). rewrite bind_run. cbn [Eff.trace].
  rewrite List.filter_app, length_app, IH. fold (Spec.passed version ms).
  destruct (shouldProcess m version) eqn:Hsp.
  - destruct (processManifest_calls client app version m prs w Hsp)
      as (rel & set & err & tail & -> & Htail).
    rewrite List.filter_app. cbn [List.filter ProcessSpec.is_Commit].
    rewrite (proj2 (filter_rewrite_calls app (Files m))), (proj2 (filter_tail _ Htail)).
    reflexivity.
  - destruct (processManifest_cases cfg client app version m prs w)
      as [(_ & _ & ->) | (Hsp' & _)]; [reflexivity | congruence].
Qed.

(** The old versions after a call of [MakeChangeFunc]: those before it and
    the captures [version] of the matches it reported. *)
Lemma fold_versions (matches : list regexp2.Match) :
  forall (set : gset string) (v : string),
    v ∈ fold_left (fun set m => {[ regexp2.GroupByName m "version" ]} ∪ set) matches set <->
    v ∈ set \/ exists mt, In mt matches /\ regexp2.GroupByName mt "version" = v.
Proof.
  induction matches as [|mt matches IH]; intros set v; cbn [fold_left].
  - split; [intros H; left; exact H | intros [H | (mt & [] & _)]; exact H].
  - rewrite IH, elem_of_union, elem_of_singleton. split.
    + intros [[-> | H] | (mt' & Hin & Hv)].
      * right. exists mt. split; [left; reflexivity | reflexivity].
      * left. exact H.
      * right. exists mt'. split; [right; exact Hin | exact Hv].
    + intros [H | (mt' & [<- | Hin] & Hv)].
      * left. right. exact H.
      * left. left. symmetry. exact Hv.
      * right. exists mt'. split; assumption.
Qed.

(** An invariant of the accumulator and the world, kept by every iteration,
    is kept by the loop. *)
Lemma for_range_state_invariant {A B} (I : B -> World -> Prop)
    (body : A -> B -> Eff.M Event World B) (l : list A) :
  (forall x acc w, I acc w -> I (Eff.result (body x acc w)) (Eff.world (body x acc w))) ->
  forall acc w, I acc w ->
    I (Eff.result (Eff.for_range l body acc w)) (Eff.world (Eff.for_range l body acc w)).
Proof.
  intros Hbody. induction l as [|x l IH]; intros acc w Hacc; cbn [Eff.for_range].
  - exact Hacc.
  - change (Eff.bind ?m ?k) with (m ≫= k). rewrite bind_run.
    cbn [Eff.result Eff.world]. apply IH, Hbody, Hacc.
Qed.

(** With a log of the matches reported, every rewrite call keeps this: the
    old versions recorded are the captures [version] of the matches logged
    since the world [w0]. *)
Lemma makeChange_recorded (client : Client World) (log : World -> list regexp2.Match)
    (w0 : World) (filePath regexText replacement : string)
    (acc : Release * gset string) (w : World) :
  ProcessSpec.keeps_log client log ->
  (exists reported,
     log w = log w0 ++ reported /\
     forall v, v ∈ snd acc <->
               exists mt, In mt reported /\ regexp2.GroupByName mt "version" = v) ->
  let run := makeChange client filePath regexText replacement acc w in
  exists reported,
    log (Eff.world run) = log w0 ++ reported /\
    forall v, v ∈ snd (Eff.result run) <->
              exists mt, In mt reported /\ regexp2.GroupByName mt "version" = v.
Proof.
  intros (Hlog & _ & _) (reported & Hw & Hset) run. subst run.
  unfold makeChange. destruct acc as [release set]. cbn [snd] in Hset.
  rewrite bind_run, call_run.
  specialize (Hlog release filePath regexText (fun _ => replacement) w).
  destruct (MakeChangeFunc client release filePath regexText (fun _ => replacement) w)
    as [[release' matches] w1].
  cbn [fst snd Eff.result Eff.world] in *.
  rewrite ret_run. cbn [Eff.result Eff.world].
  exists (reported ++ matches). split.
  - rewrite Hlog, Hw, app_assoc. reflexivity.
  - intros v. cbn [snd]. rewrite fold_versions, Hset. split.
    + intros [(mt & Hin & Hv) | (mt & Hin & Hv)]; exists mt;
        (split; [apply in_or_app; auto | exact Hv]).
    + intros (mt & Hin & Hv). apply in_app_or in Hin.
      destruct Hin as [Hin | Hin]; [left | right]; exists mt; split; assumption.
Qed.

Lemma rewriteFile_recorded (client : Client World) (log : World -> list regexp2.Match)
    (w0 : World) (app : Application) (version filePath : string)
    (acc : Release * gset string) (w : World) :
  ProcessSpec.keeps_log client log ->
  (exists reported,
     log w = log w0 ++ reported /\
     forall v, v ∈ snd acc <->
               exists mt, In mt reported /\ regexp2.GroupByName mt "version" = v) ->
  let run := rewriteFile client app version filePath acc w in
  exists reported,
    log (Eff.world run) = log w0 ++ reported /\
    forall v, v ∈ snd (Eff.result run) <->
              exists mt, In mt reported /\ regexp2.GroupByName mt "version" = v.
Proof.
  intros Hkeeps Hacc run. subst run. unfold rewriteFile.
  rewrite bind_run. cbn [Eff.result Eff.world].
  rewrite bind_run. cbn [Eff.result Eff.world].
  rewrite bind_run. cbn [Eff.result Eff.world].
  apply (for_range_state_invariant
           (fun acc w => exists reported,
              log w = log w0 ++ reported /\
              forall v, v ∈ snd acc <->
                        exists mt, In mt reported /\ regexp2.GroupByName mt "version" = v)).
  { intros prefix acc' w' Hacc'. apply (makeChange_recorded client log w0); assumption. }
  apply (for_range_state_invariant
           (fun acc w => exists reported,
              log w = log w0 ++ reported /\
              forall v, v ∈ snd acc <->
                        exists mt, In mt reported /\ regexp2.GroupByName mt "version" = v)).
  { intros key acc' w' Hacc'. apply (makeChange_recorded client log w0); assumption. }
  apply (makeChange_recorded client log w0); [assumption|].
  apply (makeChange_recorded client log w0); assumption.
Qed.

(** X30: when the world keeps a log of the matches that [MakeChangeFunc]
    reports, the body of the release that an iteration of [process] hands to
    [Commit] is the body that [generateBody] builds over the old versions
    that are the captures [version] of the matches reported during this
    iteration, each of them listed once, however many rules and files
    reported it, and no other version. *)
Theorem process_commit_body (client : Client World) (log : World -> list regexp2.Match)
    (app : Application) (version : string) (m : Manifest) (prs : PullRequests)
    (w : World) :
  ProcessSpec.keeps_log client log ->
  shouldProcess m version = true ->
  let run := processManifest cfg client app version m prs w in
  exists reported oldVersions rel answer tail,
    log (Eff.world run) = log w ++ reported /\
    Eff.trace run =
      flat_map (ProcessSpec.rewrite_calls app) (Files m) ++
      CallCommit (SetBody rel (generateBody app m version oldVersions)) answer :: tail /\
    Forall (fun e => ProcessSpec.is_Commit e = false) tail /\
    NoDup oldVersions /\
    forall v, In v oldVersions <->
              exists mt, In mt reported /\ regexp2.GroupByName mt "version" = v.
Proof.
  intros Hkeeps Hsp run. subst run. unfold processManifest. rewrite Hsp. cbn [negb].
  rewrite bind_run. cbn [Eff.trace].
  rewrite (for_range_trace_exact _ (ProcessSpec.rewrite_calls app))
    by (intros; apply rewriteFile_calls).
  assert (Hfiles :
            exists reported,
              log (Eff.world (Eff.for_range (Files m) (rewriteFile client app version)
                                (newRelease cfg app m version, ∅) w)) = log w ++ reported /\
              forall v,
                v ∈ snd (Eff.result (Eff.for_range (Files m) (rewriteFile client app version)
                                       (newRelease cfg app m version, ∅) w)) <->
                exists mt, In mt reported /\ regexp2.GroupByName mt "version" = v).
  { apply (for_range_state_invariant
             (fun acc w' => exists reported,
                log w' = log w ++ reported /\
                forall v, v ∈ snd acc <->
                          exists mt, In mt reported /\ regexp2.GroupByName mt "version" = v)).
    - intros filePath acc w' Hacc. apply (rewriteFile_recorded client log w); assumption.
    - exists []. split; [rewrite app_nil_r; reflexivity|].
      intros v. cbn [snd]. rewrite elem_of_empty. split; [intros [] | intros (mt & [] & _)]. }
  destruct Hkeeps as (_ & Hcommit & Hpr).
  destruct (Eff.for_range (Files m) (rewriteFile client app version)
              (newRelease cfg app m version, ∅) w) as [[rel set] w1 tr].
  cbn [Eff.result Eff.world Eff.trace snd] in *.
  destruct Hfiles as (reported & Hw1 & Hset).
  assert (Hold : forall v, In v (elements set) <->
                           exists mt, In mt reported /\ regexp2.GroupByName mt "version" = v).
  { intros v. rewrite <- Hset, <- list_elem_of_In. apply elem_of_elements. }
  exists reported, (elements set), rel.
  rewrite bind_run, call_run.
  specialize (Hcommit (SetBody rel (generateBody app m version (elements set))) w1).
  destruct (Commit client (SetBody rel (generateBody app m version (elements set))) w1)
    as [[rel2 [e|]] w2];
    cbn [Eff.result Eff.world Eff.trace fst snd Datatypes.app] in *.
  - eexists. eexists.
    split; [transitivity (log w2); [reflexivity | rewrite Hcommit; exact Hw1]|].
    split; [reflexivity|]. split; [repeat constructor|].
    split; [apply NoDup_elements | exact Hold].
  - destruct (CommitWithoutPR m); cbn [negb].
    + eexists. eexists.
      split; [transitivity (log w2); [reflexivity | rewrite Hcommit; exact Hw1]|].
      split; [reflexivity|]. split; [constructor|].
      split; [apply NoDup_elements | exact Hold].
    + rewrite bind_run, call_run. specialize (Hpr rel2 w2).
      destruct (CreatePR client rel2 w2) as [[rel3 [u|e]] w3];
        cbn [Eff.result Eff.world Eff.trace fst snd Datatypes.app] in *;
        (eexists; eexists;
         split; [transitivity (log w3);
                 [reflexivity | rewrite Hpr, Hcommit; exact Hw1]|];
         split; [reflexivity|]; split; [repeat constructor|];
         split; [apply NoDup_elements | exact Hold]).
Qed.

(** The loop over the manifests, from any slice built so far, whatever
    GitHub answers. *)
Lemma process_loop_entries (client : Client World) (app : Application) (version : string)
    (ms : list Manifest) :
  forall (prs : PullRequests) (w : World),
    let run := Eff.for_range ms (processManifest cfg client app version) prs w in
    exists new,
      Eff.result run = prs ++ new /\
      map url new = Spec.created_urls (Eff.trace run) /\
      sublist (map env new) (map Env (Spec.opens_pr version ms)).
Proof.
  induction ms as [|m ms IH]; intros prs w run; subst run.
  - exists []. cbn. rewrite app_nil_r. repeat split; constructor.
  - cbn [Eff.for_range]. change (Eff.bind ?x ?k) with (x ≫= k). rewrite bind_run.
    cbn [Eff.result Eff.trace].
    destruct (IH (Eff.result (processManifest cfg client app version m prs w))
                 (Eff.world (processManifest cfg client app version m prs w)))
      as (new & Hr & Hu & He).
    rewrite Hr, created_urls_app, <- Hu. clear Hr Hu.
    unfold Spec.opens_pr in *. cbn [List.filter].
    destruct (processManifest_cases cfg client app version m prs w)
      as [(Hsp & Hres & Htr) | (Hsp & tr & r & Hrw & Hcase)]; rewrite Hsp; cbn [andb].
    + rewrite Hres, Htr. exists new. split; [reflexivity|]. split; [reflexivity|].
      exact He.
    + destruct Hcase as [(e & Htr & Hres) | [(Hc & Htr & Hres) |
                         [(Hc & r' & e & Htr & Hres) | (Hc & r' & u & Htr & Hres)]]];
        rewrite Htr, Hres, created_urls_app, (created_urls_rewrite _ Hrw);
        cbn [Spec.created_urls Datatypes.app].
      * exists new. split; [reflexivity|]. split; [reflexivity|].
        destruct (CommitWithoutPR m); cbn [negb map]; [exact He|].
        apply sublist_cons, He.
      * exists new. rewrite Hc. cbn [negb]. split; [reflexivity|]. split; [reflexivity|].
        exact He.
      * exists new. rewrite Hc. cbn [negb map]. split; [reflexivity|].
        split; [reflexivity|]. apply sublist_cons, He.
      * exists ({| env := Env m; url := u; err := None |} :: new).
        rewrite <- app_assoc. rewrite Hc. cbn [negb map env url Datatypes.app].
        split; [reflexivity|]. split; [reflexivity|]. apply sublist_skip, He.
Qed.

(** X23: whatever GitHub answers, the URLs of the entries that [process]
    returns are the URLs of the pull requests that GitHub opened during the
    run, in the order of their opening, and the envs of the entries are envs
    of manifests that accept the version and are not configured to commit
    without pull request, in the order of the manifests: a manifest whose
    commit or pull request is refused is left out and the next ones are
    still processed. *)
Theorem process_entries (f : Flow) (app : Application) (version : string) (w : World) :
  let run := process NewGitHubClient cfg f app version w in
  map url (Eff.result run) = Spec.created_urls (Eff.trace run) /\
  sublist (map env (Eff.result run)) (map Env (Spec.opens_pr version (Manifests app))).
Proof.
  intros run. subst run. unfold process.
  destruct (process_loop_entries (NewGitHubClient (githubToken f)) app version
              (Manifests app) [] w) as (new & Hr & Hu & He).
  rewrite Hr. cbn [Datatypes.app]. split; assumption.
Qed.

(** X24: when no manifest of the application accepts the version, [process]
    calls nothing, not even for the files, leaves the world as it is and
    returns no entry. *)
Theorem process_nothing_accepted (f : Flow) (app : Application) (version : string)
    (w : World) :
  Forall (fun m => shouldProcess m version = false) (Manifests app) ->
  process NewGitHubClient cfg f app version w = Eff.mkRun [] w [].
Proof.
  unfold process. generalize (NewGitHubClient (githubToken f)). intros client.
  generalize (@nil PullRequest).
  induction (Manifests app) as [|m ms IH]; intros prs Hall; cbn [Eff.for_range].
  - reflexivity.
  - apply Forall_cons in Hall. destruct Hall as [Hsp Hall].
    assert (Hskip : processManifest cfg client app version m prs w = Eff.mkRun prs w []).
    { unfold processManifest. rewrite Hsp. reflexivity. }
    change (Eff.bind ?x ?k) with (x ≫= k). rewrite bind_run, Hskip.
    cbn [Eff.result Eff.world Eff.trace Datatypes.app].
    rewrite (IH prs Hall). reflexivity.
Qed.

(** X25: for an image of the catalog, [processImage] of process.go runs
    [process] on the application found, then logs one line per entry
    returned, with its URL, and returns nil: the commits and the pull
    requests that GitHub refused are not reported to the caller. *)
Theorem processImage_known_image (f : Flow) (image version : string)
    (app : Application) (w : World) :
  getApplicationByImage cfg image = inl app ->
  let run := process NewGitHubClient cfg f app version w in
  processImage NewGitHubClient cfg f image version w =
  Eff.mkRun None (Eff.world run)
            (Eff.trace run ++ map ProcessSpec.processed_line (Eff.result run)).
Proof.
  intros Happ run. subst run. unfold processImage. rewrite Happ.
  rewrite bind_run. cbn [Eff.result Eff.world Eff.trace].
  rewrite bind_run.
  rewrite (for_range_emit
             (fun pr => Printf ("Processed PR: %s" +:+ newline) [Eff.AStr (url pr)])).
  cbn [Eff.result Eff.world Eff.trace]. rewrite ret_run.
  cbn [Eff.result Eff.world Eff.trace]. rewrite app_nil_r. reflexivity.
Qed.

End MoreProcess.

(** * More on part_000 *)

Section MorePart000.
Import Go Part000.
Context {World : Type}.
Variable NewGitHubClient : string -> Client World.
Variable Post : string -> string -> MessageDetail -> World -> option error * World.
Variable cfg : Config.

Lemma addFileChanges_changes (app : Application) (version : string)
    (files : list string) :
  forall release,
    Changes (fold_left (addFileChanges app version) files release) =
    Changes release ++ flat_map (ProcessSpec.file_changes app version) files.
Proof.
  induction files as [|filePath files IH]; intros release; cbn [fold_left flat_map].
  - symmetry. apply app_nil_r.
  - rewrite IH. unfold addFileChanges, ProcessSpec.file_changes.
    destruct (RewriteVersion app), (RewriteNewTag app && Contains filePath "kustomization.yaml");
      cbn [AddChanges Changes]; rewrite <- ?app_assoc; reflexivity.
Qed.

(** The events of the retried commit carry the release it was given. *)
Lemma commit_retry_release (client : Client World) (r : Release) (w : World) :
  Forall (fun e => match e with
                   | CallCommit r' _ => r' = r
                   | Sleep _ => True
                   | _ => False
                   end)
         (Eff.trace (retry.Do Sleep (Eff.call (CallCommit r) (Commit client r))
                              commitDelay retryCommitTries w)).
Proof.
  destruct (commit_retry_cases client r w)
    as [(_ & [-> | [(e1 & ->) | (e1 & e2 & ->)]]) | (e1 & e2 & e3 & _ & ->)];
    repeat constructor.
Qed.

(** X26: every release that [process] of part_000 hands to [Commit] and to
    [CreatePR] is the release of a manifest of the application that accepts
    the version, and the changes registered in it are, for each file of that
    manifest, in order: the image rule, then the rule for the key [version]
    when the application rewrites versions, then the rule for the key
    [newTag] when the application rewrites new tags and the path of the file
    contains [kustomization.yaml]. *)
Theorem Part000_registered_changes (f : Flow) (app : Application) (version : string)
    (w : World) :
  Forall (fun e =>
            match e with
            | CallCommit r _ | CallCreatePR r _ =>
                exists m, In m (Manifests app) /\ shouldProcess m version = true /\
                          Repo r = Repo (newRelease cfg app m version) /\
                          Changes r = flat_map (ProcessSpec.file_changes app version)
                                               (Files m)
            | _ => True
            end)
         (Eff.trace (process NewGitHubClient cfg f app version w)).
Proof.
  unfold process. generalize (NewGitHubClient (githubToken f)). intros client.
  generalize (@nil PullRequest). revert w.
  enough (Hloop : forall ms, (forall m, In m ms -> In m (Manifests app)) ->
            forall w prs,
              Forall (fun e =>
                        match e with
                        | CallCommit r _ | CallCreatePR r _ =>
                            exists m, In m (Manifests app) /\
                                      shouldProcess m version = true /\
                                      Repo r = Repo (newRelease cfg app m version) /\
                                      Changes r =
                                        flat_map (ProcessSpec.file_changes app version)
                                                 (Files m)
                        | _ => True
                        end)
                     (Eff.trace (Eff.for_range ms (processManifest cfg client app version)
                                               prs w)))
    by (intros w prs; apply Hloop; auto).
  intros ms.
  induction ms as [|m ms IH]; intros Hsub w prs; cbn [Eff.for_range]; [constructor|].
  change (Eff.bind ?x ?k) with (x ≫= k). rewrite bind_run. cbn [Eff.trace].
  apply Forall_app. split; [|apply IH; intros m' Hm'; apply Hsub; right; exact Hm'].
  assert (Hrelease :
            shouldProcess m version = true ->
            exists m', In m' (Manifests app) /\ shouldProcess m' version = true /\
                       Repo (Spec.committed_release cfg app version m) =
                         Repo (newRelease cfg app m' version) /\
                       Changes (Spec.committed_release cfg app version m) =
                         flat_map (ProcessSpec.file_changes app version) (Files m')).
  { intros Hsp. exists m. split; [apply Hsub; left; reflexivity|]. split; [exact Hsp|].
    unfold Spec.committed_release. split.
    - generalize (newRelease cfg app m version). generalize (Files m).
      intros files. induction files as [|filePath files IHf]; intros release;
        cbn [fold_left]; [reflexivity|].
      rewrite IHf. unfold addFileChanges.
      destruct (RewriteVersion app),
               (RewriteNewTag app && Contains filePath "kustomization.yaml");
        reflexivity.
    - rewrite addFileChanges_changes. reflexivity. }
  pose proof (commit_retry_release client (Spec.committed_release cfg app version m) w)
    as Hretry.
  assert (Hretry' :
            shouldProcess m version = true ->
            Forall (fun e =>
                      match e with
                      | CallCommit r _ | CallCreatePR r _ =>
                          exists m, In m (Manifests app) /\ shouldProcess m version = true /\
                                    Repo r = Repo (newRelease cfg app m version) /\
                                    Changes r = flat_map (ProcessSpec.file_changes app version)
                                                         (Files m)
                      | _ => True
                      end)
                   (Eff.trace (retry.Do Sleep
                                 (Eff.call (CallCommit (Spec.committed_release cfg app version m))
                                           (Commit client
                                              (Spec.committed_release cfg app version m)))
                                 commitDelay retryCommitTries w))).
  { intros Hsp. eapply Forall_impl; [exact Hretry|].
    intros e He. destruct e; try exact I; try destruct He.
    apply Hrelease, Hsp. }
  destruct (Part000_processManifest_cases cfg client app version m prs w)
    as [(_ & _ & ->) | (Hsp & Hcase)]; [constructor|].
  destruct Hcase as [(e & _ & -> & _) | [(_ & _ & -> & _) |
                     [(_ & _ & e & -> & _) | (_ & _ & u & -> & _)]]].
  - apply Forall_app. split; [apply Hretry', Hsp | repeat constructor].
  - apply Hretry', Hsp.
  - apply Forall_app. split; [apply Hretry', Hsp|].
    constructor; [apply Hrelease, Hsp | repeat constructor].
  - apply Forall_app. split; [apply Hretry', Hsp|].
    constructor; [apply Hrelease, Hsp | constructor].
Qed.

Lemma notified_urls_fold (prs : PullRequests) :
  Forall (fun pr => err pr = None) prs ->
  forall prURL,
    fold_left
      (fun prURL pr =>
         match err pr with
         | Some e =>
             prURL +:+ Sprintf ("`%s`" +:+ newline +:+ "```%s```" +:+ newline)
                               [env pr; Error e]
         | None =>
             prURL +:+ Sprintf ("`%s`" +:+ newline +:+ "```%s```" +:+ newline)
                               [env pr; url pr]
         end) prs prURL =
    prURL +:+ ProcessSpec.notified_urls prs.
Proof.
  unfold ProcessSpec.notified_urls.
  induction 1 as [|pr prs Hpr _ IH]; intros prURL;
    cbn [fold_left map ProcessSpec.join_all].
  - symmetry. apply append_nil_r.
  - rewrite Hpr, IH. apply append_assoc.
Qed.

(** X27: for an image of the catalog, [processImage] of part_000 posts one
    notification, after the calls of [process], and returns what the post
    returns; the notification is marked as a success whatever GitHub
    answered, names the application, the image and the version, and lists
    the env and the URL of the entries that [process] returned and of
    nothing else, so that it is posted with an empty list when no manifest
    accepted the version or when every commit was refused. *)
Theorem Part000_processImage_notifies (f : Flow) (image version : string)
    (app : Application) (w : World) :
  getApplicationByImage cfg image = inl app ->
  let run := process NewGitHubClient cfg f app version w in
  let d := {| IsSuccess := true; IsPrNotify := true; AppName := Name app;
              Detail_Image := image; Version := version;
              PrURL := ProcessSpec.notified_urls (Eff.result run) |} in
  let posted := Post (slackBotToken f) (SlackNotifiyChannel cfg) d (Eff.world run) in
  processImage NewGitHubClient Post cfg f image version w =
  Eff.mkRun (fst posted) (snd posted)
            (Eff.trace run ++
             [CallPost (slackBotToken f) (SlackNotifiyChannel cfg) d (fst posted)]).
Proof.
  intros Happ run d posted. subst posted d run.
  unfold processImage. rewrite Happ. rewrite bind_run.
  unfold notifyReleasePR.
  rewrite (notified_urls_fold _ (Part000_process_no_error NewGitHubClient cfg f app version w)).
  cbn [String.append]. rewrite call_run. reflexivity.
Qed.

(** X28: in part_000, once an attempt to commit the release of a manifest is
    accepted, at most two attempts have been refused before it, no further
    attempt is made, and, unless the manifest commits without pull request,
    the next call asks for the pull request of the same release; the entry
    of the manifest is appended exactly when that request is granted, and a
    refusal is logged. *)
Theorem Part000_commit_accepted (client : Client World) (app : Application)
    (version : string) (m : Manifest) (prs : PullRequests) (w : World) :
  let run := processManifest cfg client app version m prs w in
  let r := Spec.committed_release cfg app version m in
  In (CallCommit r None) (Eff.trace run) ->
  CommitWithoutPR m = false ->
  exists before res,
    Eff.trace run =
      before ++ CallCommit r None :: CallCreatePR r res ::
      match res with
      | inl _ => []
      | inr e => [Printf "Error Submitting PR: %s" [Eff.AErr e]]
      end /\
    Spec.refused_commits before <= 2 /\
    Spec.commit_attempts before = Spec.refused_commits before /\
    Eff.result run =
      match res with
      | inl u => prs ++ [ {| env := Env m; url := u; err := None |} ]
      | inr _ => prs
      end.
Proof.
  intros run r Hin Hpr. subst run.
  pose proof (commit_retry_cases client r w) as Hretry. cbv zeta in Hretry.
  destruct (Part000_processManifest_cases cfg client app version m prs w)
    as [(_ & _ & Htr) | (_ & Hcase)].
  { rewrite Htr in Hin. destruct Hin. }
  fold r in Hcase.
  destruct Hcase as [(e & Hr & Htr & _) | [(_ & Hc & _) |
                     [(Hr & _ & e & Htr & Hres) | (Hr & _ & u & Htr & Hres)]]].
  - exfalso. rewrite Htr in Hin.
    destruct Hretry as [(Hr' & _) | (e1 & e2 & e3 & _ & Ht)]; [congruence|].
    rewrite Ht in Hin. cbn in Hin.
    repeat (destruct Hin as [Hin|Hin]; [discriminate Hin|]). destruct Hin.
  - congruence.
  - rewrite Htr, Hres.
    destruct Hretry as [(_ & [Ht | [(e1 & Ht) | (e1 & e2 & Ht)]])
                       | (e1 & e2 & e3 & Hr' & _)]; [| | |congruence]; rewrite Ht.
    + exists [], (inr e). repeat split. cbn. lia.
    + exists [CallCommit r (Some e1); Sleep 3000000000%Z], (inr e).
      repeat split. cbn. lia.
    + exists [CallCommit r (Some e1); Sleep 3000000000%Z;
              CallCommit r (Some e2); Sleep 3000000000%Z], (inr e).
      repeat split. cbn. lia.
  - rewrite Htr, Hres.
    destruct Hretry as [(_ & [Ht | [(e1 & Ht) | (e1 & e2 & Ht)]])
                       | (e1 & e2 & e3 & Hr' & _)]; [| | |congruence]; rewrite Ht.
    + exists [], (inl u). repeat split. cbn. lia.
    + exists [CallCommit r (Some e1); Sleep 3000000000%Z], (inl u).
      repeat split. cbn. lia.
    + exists [CallCommit r (Some e1); Sleep 3000000000%Z;
              CallCommit r (Some e2); Sleep 3000000000%Z], (inl u).
      repeat split. cbn. lia.
Qed.

Lemma counts_app (tr1 tr2 : list Event) :
  Spec.commit_attempts (tr1 ++ tr2) = Spec.commit_attempts tr1 + Spec.commit_attempts tr2 /\
  ProcessSpec.pauses (tr1 ++ tr2) = ProcessSpec.pauses tr1 + ProcessSpec.pauses tr2.
Proof.
  unfold Spec.commit_attempts, ProcessSpec.pauses.
  rewrite !List.filter_app, !length_app. split; reflexivity.
Qed.

(** Where the pauses of a trace stand, read off [pauses_in_place]. *)
Lemma pauses_in_place_split (tr : list Event) :
  forall before, ProcessSpec.pauses_in_place before tr ->
  forall pre d post,
    tr = pre ++ Sleep d :: post ->
    d = 3000000000%Z /\
    exists r e answer post',
      post = CallCommit r answer :: post' /\
      ((pre = [] /\ before = Some (CallCommit r (Some e))) \/
       exists pre', pre = pre' ++ [CallCommit r (Some e)]).
Proof.
  intros before Hplace pre. revert tr before Hplace.
  induction pre as [|x pre IH]; intros tr before Hplace d post ->.
  - cbn in Hplace. destruct Hplace as (Hd & (r & e & answer & rest' & Hb & Hrest) & _).
    split; [exact Hd|]. exists r, e, answer, rest'. split; [exact Hrest|].
    left. split; [reflexivity | exact Hb].
  - assert (Hrest : ProcessSpec.pauses_in_place (Some x) (pre ++ Sleep d :: post)).
    { destruct x; cbn in Hplace; try exact Hplace. destruct Hplace as (_ & _ & H). exact H. }
    destruct (IH _ _ Hrest d post eq_refl)
      as (Hd & r & e & answer & post' & Hpost & Hpre).
    split; [exact Hd|]. exists r, e, answer, post'. split; [exact Hpost|]. right.
    destruct Hpre as [[-> [= ->]] | [pre' ->]].
    + exists []. reflexivity.
    + exists (x :: pre'). reflexivity.
Qed.

Lemma pauses_in_place_app (tr1 tr2 : list Event) :
  forall before,
    ProcessSpec.pauses_in_place before tr1 ->
    (forall before', ProcessSpec.pauses_in_place before' tr2) ->
    ProcessSpec.pauses_in_place before (tr1 ++ tr2).
Proof.
  induction tr1 as [|x tr1 IH]; intros before H1 H2; cbn [Datatypes.app]; [apply H2|].
  destruct x; cbn in H1 |- *; try (apply IH; assumption).
  destruct H1 as (Hd & (r & e & answer & rest' & Hb & ->) & Hrest).
  split; [exact Hd|]. split.
  - exists r, e, answer, (rest' ++ tr2). split; [exact Hb | reflexivity].
  - apply IH; assumption.
Qed.

(** The pauses of one iteration are in place, whatever came before it. *)
Lemma iteration_pauses_in_place (client : Client World) (app : Application)
    (version : string) (m : Manifest) (prs : PullRequests) (w : World) :
  forall before,
    ProcessSpec.pauses_in_place before
      (Eff.trace (processManifest cfg client app version m prs w)).
Proof.
  intros before.
  destruct (shouldProcess m version) eqn:Hsp.
  2: { destruct (Part000_processManifest_cases cfg client app version m prs w)
         as [(_ & _ & ->) | (Hsp' & _)]; [exact I | congruence]. }
  destruct (Part000_iteration_attempts cfg client app version m prs w Hsp)
    as (refused & last & tail & -> & Htail & Hcase).
  assert (Hlen : List.length refused <= 2).
  { destruct Hcase as [[_ H] | (e3 & _ & H & _)]; lia. }
  assert (Htail' : forall before', ProcessSpec.pauses_in_place before' tail).
  { clear - Htail. induction Htail as [|x tail Hx _ IH]; intros before'; [exact I|].
    destruct x; try destruct Hx; cbn; apply IH. }
  apply pauses_in_place_app; [|exact Htail'].
  unfold ProcessSpec.retried_commit.
  destruct refused as [|e1 [|e2 [|e3 refused]]]; cbn in Hlen |- *; try lia.
  - repeat split. do 4 eexists. split; reflexivity.
  - repeat split; do 4 eexists; split; reflexivity.
Qed.

(** X29: in a run of [process] of part_000 the attempts to commit are one
    per manifest that accepts the version plus one per pause, and every
    pause lasts three seconds and stands right after a refused attempt to
    commit a release and right before the next attempt to commit the same
    release: there is no pause before the first attempt for a manifest, none
    after its last attempt, and none anywhere else in the run. *)
Theorem Part000_attempts_and_pauses (f : Flow) (app : Application) (version : string)
    (w : World) :
  let tr := Eff.trace (process NewGitHubClient cfg f app version w) in
  Spec.commit_attempts tr =
    ProcessSpec.pauses tr + List.length (ProcessSpec.accepting version (Manifests app)) /\
  Forall Spec.pauses_three_seconds tr /\
  (forall pre d post,
     tr = pre ++ Sleep d :: post ->
     d = 3000000000%Z /\
     exists pre' r e answer post',
       pre = pre' ++ [CallCommit r (Some e)] /\
       post = CallCommit r answer :: post').
Proof.
  intros tr. subst tr. unfold process.
  generalize (NewGitHubClient (githubToken f)). intros client.
  assert (Hplace : forall ms prs w0 before,
             ProcessSpec.pauses_in_place before
               (Eff.trace (Eff.for_range ms (processManifest cfg client app version)
                                         prs w0))).
  { induction ms as [|m ms IH]; intros prs w0 before; cbn [Eff.for_range]; [exact I|].
    change (Eff.bind ?x ?k) with (x ≫= k). rewrite bind_run. cbn [Eff.trace].
    apply pauses_in_place_app; [apply iteration_pauses_in_place|].
    intros before'. apply IH. }
  assert (Hcount : forall ms prs w0,
             let tr := Eff.trace (Eff.for_range ms (processManifest cfg client app version)
                                                prs w0) in
             Spec.commit_attempts tr =
               ProcessSpec.pauses tr + List.length (ProcessSpec.accepting version ms) /\
             Forall Spec.pauses_three_seconds tr).
  { induction ms as [|m ms IH]; intros prs w0;
      cbn [Eff.for_range ProcessSpec.accepting List.filter].
    { split; [reflexivity | constructor]. }
    change (Eff.bind ?x ?k) with (x ≫= k). rewrite bind_run. cbn [Eff.trace].
    destruct (IH (Eff.result (processManifest cfg client app version m prs w0))
                 (Eff.world (processManifest cfg client app version m prs w0)))
      as [IHc IHp].
    fold (ProcessSpec.accepting version ms).
    destruct (counts_app (Eff.trace (processManifest cfg client app version m prs w0))
                (Eff.trace (Eff.for_range ms (processManifest cfg client app version)
                   (Eff.result (processManifest cfg client app version m prs w0))
                   (Eff.world (processManifest cfg client app version m prs w0)))))
      as [-> ->].
    rewrite IHc.
    split; [|apply Forall_app; split;
               [apply (Part000_iteration_bounds cfg client app version m prs w0)
               | exact IHp]].
    pose proof (commit_retry_cases client (Spec.committed_release cfg app version m) w0)
      as Hretry. cbv zeta in Hretry.
    destruct (Part000_processManifest_cases cfg client app version m prs w0)
      as [(Hsp & _ & Htr) | (Hsp & Hcase)]; rewrite Hsp.
    { rewrite Htr. cbn. lia. }
    cbn [List.length].
    destruct Hcase as [(e & _ & Htr & _) | [(_ & _ & Htr & _) |
                       [(_ & _ & e & Htr & _) | (_ & _ & u & Htr & _)]]];
      rewrite Htr; clear Htr;
      destruct Hretry as [(_ & [Ht | [(e1 & Ht) | (e1 & e2 & Ht)]])
                         | (e1 & e2 & e3 & _ & Ht)];
      rewrite Ht; unfold Spec.commit_attempts, ProcessSpec.pauses; cbn; lia. }
  destruct (Hcount (Manifests app) [] w) as [Hc Hp].
  split; [exact Hc|]. split; [exact Hp|].
  intros pre d post Hsplit.
  destruct (pauses_in_place_split _ None (Hplace (Manifests app) [] w None)
              pre d post Hsplit) as (Hd & r & e & answer & post' & Hpost & Hpre).
  split; [exact Hd|].
  destruct Hpre as [[_ Hnone] | [pre' Hpre]]; [discriminate Hnone|].
  exists pre', r, e, answer, post'. split; assumption.
Qed.

End MorePart000.

(** * The statements above on concrete runs *)

Lemma getRef_creates_from_base_witness :
  In (github.CreateRef "owner" "manifests" Fixtures.release_branch
                       (inl Fixtures.release_branch))
     (Eff.trace (GitbotHelpers.getRef Fixtures.hub Fixtures.release 0)) /\
  Eff.result (GitbotHelpers.getRef Fixtures.hub Fixtures.release 0) =
    Some (inl Fixtures.release_branch).
Proof.
  assert (Hin : In (github.CreateRef "owner" "manifests" Fixtures.release_branch
                                     (inl Fixtures.release_branch))
                   (Eff.trace (GitbotHelpers.getRef Fixtures.hub Fixtures.release 0)))
    by in_trace.
  split; [exact Hin|].
  destruct (getRef_creates_from_base Fixtures.hub Fixtures.release 0 _ _ _ _ Hin)
    as (e & baseRef & object & _ & _ & _ & Hres).
  exact Hres.
Defined.

Lemma getRef_error_origin_witness :
  Eff.result (GitbotHelpers.getRef Fixtures.down Fixtures.release 0) =
    Some (inr (Go.errors_New "503 Service Unavailable")) /\
  exists first rest,
    Eff.trace (GitbotHelpers.getRef Fixtures.down Fixtures.release 0) =
      github.GetRef "owner" "manifests" "refs/heads/release/prod-app-v2" (inr first)
      :: rest.
Proof.
  assert (Hres : Eff.result (GitbotHelpers.getRef Fixtures.down Fixtures.release 0) =
                 Some (inr (Go.errors_New "503 Service Unavailable")))
    by (vm_compute; reflexivity).
  split; [exact Hres|].
  destruct (getRef_error_origin Fixtures.down Fixtures.release 0 _ Hres)
    as (first & rest & Htr & _).
  exists first, rest. exact Htr.
Defined.

Lemma getTree_entries_witness :
  In (github.CreateTree "owner" "manifests" "0a1b2c" [Fixtures.deploy_entry]
                        (inl Fixtures.tree))
     (Eff.trace (GitbotHelpers.getTree Fixtures.hub regexp2.MustCompile Fixtures.Replace
                   map_to_list Fixtures.release Fixtures.master 0)) /\
  NoDup (map github.Path [Fixtures.deploy_entry]).
Proof.
  assert (Hin : In (github.CreateTree "owner" "manifests" "0a1b2c" [Fixtures.deploy_entry]
                                      (inl Fixtures.tree))
                   (Eff.trace (GitbotHelpers.getTree Fixtures.hub regexp2.MustCompile
                                 Fixtures.Replace map_to_list Fixtures.release
                                 Fixtures.master 0)))
    by in_trace.
  split; [exact Hin|].
  destruct (getTree_entries Fixtures.hub regexp2.MustCompile Fixtures.Replace map_to_list
              Fixtures.release Fixtures.master 0 _ _ _ _ _
              (fun m => Permutation_refl (map_to_list m)) Hin)
    as (_ & _ & _ & Hnodup & _).
  exact Hnodup.
Defined.

Lemma getTree_returns_witness :
  exists pre entries res,
    Eff.result (GitbotHelpers.getTree Fixtures.hub regexp2.MustCompile Fixtures.Replace
                  map_to_list Fixtures.release Fixtures.master 0) = Some res /\
    Eff.trace (GitbotHelpers.getTree Fixtures.hub regexp2.MustCompile Fixtures.Replace
                 map_to_list Fixtures.release Fixtures.master 0) =
      pre ++ [github.CreateTree "owner" "manifests" "0a1b2c" entries res].
Proof.
  apply (getTree_returns Fixtures.hub regexp2.MustCompile Fixtures.Replace map_to_list
           Fixtures.release Fixtures.master 0 "0a1b2c").
  - let l := eval vm_compute in (Part000.Changes Fixtures.release) in
    change (Part000.Changes Fixtures.release) with l.
    repeat (constructor; [eexists; vm_compute; reflexivity|]). constructor.
  - intros path w'. cbn.
    destruct (String.eqb path "deploy.yaml"); eexists; reflexivity.
  - reflexivity.
Defined.

Lemma getTree_content_witness :
  exists pre base entries,
    Eff.trace (GitbotHelpers.getTree Fixtures.hub regexp2.MustCompile Fixtures.Replace
                 map_to_list Fixtures.release Fixtures.master 0) =
      pre ++ [github.CreateTree "owner" "manifests" base entries (inl Fixtures.tree)] /\
    forall path content,
      In (GitbotHelpers.tree_entry (path, content)) entries <->
      (GitbotSpec.rules_for path (Part000.Changes Fixtures.release) <> [] /\
       exists original,
         GitbotSpec.fetched_content (Fixtures.content_of path) = Some original /\
         GitbotSpec.apply_rules regexp2.MustCompile Fixtures.Replace
           (GitbotSpec.rules_for path (Part000.Changes Fixtures.release)) original =
         Some content).
Proof.
  apply (getTree_content Fixtures.hub regexp2.MustCompile Fixtures.Replace map_to_list
           Fixtures.release Fixtures.master 0 Fixtures.content_of (inl Fixtures.tree)).
  - intros m. reflexivity.
  - intros path w'. reflexivity.
  - vm_compute. reflexivity.
Defined.

Lemma pushCommit_moves_ref_witness :
  In (github.UpdateRef "owner" "manifests" Fixtures.moved false (inl Fixtures.moved))
     (Eff.trace (GitbotHelpers.pushCommit Fixtures.hub Fixtures.release Fixtures.master
                   (Some Fixtures.tree) 0)) /\
  List.length (Eff.trace (GitbotHelpers.pushCommit Fixtures.hub Fixtures.release
                            Fixtures.master (Some Fixtures.tree) 0)) = 4.
Proof.
  assert (Hin : In (github.UpdateRef "owner" "manifests" Fixtures.moved false
                                     (inl Fixtures.moved))
                   (Eff.trace (GitbotHelpers.pushCommit Fixtures.hub Fixtures.release
                                 Fixtures.master (Some Fixtures.tree) 0)))
    by in_trace.
  split; [exact Hin|].
  destruct (pushCommit_moves_ref Fixtures.hub Fixtures.release Fixtures.master
              (Some Fixtures.tree) 0 _ _ _ _ _ Hin)
    as (_ & sha & parent & parentCommit & date & newCommit & _ & _ & _ & Htr).
  rewrite Htr. reflexivity.
Defined.

Lemma pushCommit_first_failure_witness :
  Eff.result (GitbotHelpers.pushCommit Fixtures.down Fixtures.release Fixtures.master
                (Some Fixtures.tree) 0) =
    Some (Fixtures.master, Some (Go.errors_New "503 Service Unavailable")) /\
  exists pre last,
    Eff.trace (GitbotHelpers.pushCommit Fixtures.down Fixtures.release Fixtures.master
                 (Some Fixtures.tree) 0) = pre ++ [last] /\
    Forall (fun e => GitbotSpec.refused e = None) pre /\
    GitbotSpec.refused last = Some (Go.errors_New "503 Service Unavailable") /\
    (GitbotSpec.is_UpdateRef last = false -> Fixtures.master = Fixtures.master).
Proof.
  assert (Hres : Eff.result (GitbotHelpers.pushCommit Fixtures.down Fixtures.release
                               Fixtures.master (Some Fixtures.tree) 0) =
                 Some (Fixtures.master, Some (Go.errors_New "503 Service Unavailable")))
    by (vm_compute; reflexivity).
  split; [exact Hres|].
  exact (pushCommit_first_failure Fixtures.down Fixtures.release Fixtures.master
           (Some Fixtures.tree) 0 _ _ Hres).
Defined.

Lemma createPR_labels_not_fatal_witness :
  Eff.result (GitbotHelpers.createPR Fixtures.hub Fixtures.release 0) =
    Some (inl "https://github.com/owner/manifests/pull/7") /\
  In (github.AddLabelsToIssue "owner" "manifests" 7 ["app"; "prod"]
        (Some (Go.errors_New "403 Forbidden")))
     (Eff.trace (GitbotHelpers.createPR Fixtures.hub Fixtures.release 0)).
Proof.
  pose (pr := {| github.Number := Some 7%Z;
                 github.HTMLURL := Some "https://github.com/owner/manifests/pull/7" |}).
  pose (pull := {| github.Title := Some "Release prod app v2";
                   github.Head := Some "release/prod-app-v2";
                   github.Base := Some "master";
                   github.Body := Some "https://github.com/owner/app/releases/tag/v2";
                   github.MaintainerCanModify := Some true |}).
  assert (Hin : In (github.CreatePullRequest "owner" "manifests" pull (inl pr))
                   (Eff.trace (GitbotHelpers.createPR Fixtures.hub Fixtures.release 0)))
    by in_trace.
  destruct (createPR_labels_not_fatal Fixtures.hub Fixtures.release 0 _ _ _ _ 7%Z
              Hin eq_refl) as (_ & Hres & _).
  split; [exact Hres | in_trace].
Defined.

Lemma process_nothing_accepted_witness :
  Process.process Examples.friendly (Examples.cfg_of []) Examples.flow
    (Examples.app_of [Examples.prod; Examples.filtered]) "latest" 0 =
  Eff.mkRun [] 0 [].
Proof.
  apply (process_nothing_accepted Examples.friendly (Examples.cfg_of []) Examples.flow
           (Examples.app_of [Examples.prod; Examples.filtered]) "latest" 0).
  repeat constructor.
Defined.

Lemma process_commit_body_witness :
  let run := Process.processManifest (Examples.cfg_of []) Fixtures.recording
               (Examples.app_of [Examples.prod]) "v1.2.3" Examples.prod [] [] in
  exists reported oldVersions rel answer tail,
    Eff.world run = [] ++ reported /\
    Eff.trace run =
      flat_map (ProcessSpec.rewrite_calls (Examples.app_of [Examples.prod]))
               (Process.Files Examples.prod) ++
      Process.CallCommit
        (Process.SetBody rel
           (Process.generateBody (Examples.app_of [Examples.prod]) Examples.prod "v1.2.3"
                                 oldVersions)) answer :: tail /\
    Forall (fun e => ProcessSpec.is_Commit e = false) tail /\
    NoDup oldVersions /\
    forall v, In v oldVersions <->
              exists mt, In mt reported /\ regexp2.GroupByName mt "version" = v.
Proof.
  apply (process_commit_body (Examples.cfg_of []) Fixtures.recording (fun w => w)
           (Examples.app_of [Examples.prod]) "v1.2.3" Examples.prod [] []).
  - repeat split; intros; reflexivity.
  - reflexivity.
Defined.

Lemma processImage_known_image_witness :
  let run := Process.processImage Examples.friendly
               (Examples.cfg_of [Examples.app_of [Examples.prod]]) Examples.flow
               "registry/app" "v1.2.3" 0 in
  Eff.result run = None /\
  List.filter (fun e => match e with Process.Printf _ _ => true | _ => false end)
              (Eff.trace run) =
    [Process.Printf ("Processed PR: %s" +:+ Go.newline)
                    [Eff.AStr "https://github.com/owner/manifests/pull/1"]].
Proof.
  cbv zeta.
  rewrite (processImage_known_image Examples.friendly
             (Examples.cfg_of [Examples.app_of [Examples.prod]]) Examples.flow
             "registry/app" "v1.2.3" (Examples.app_of [Examples.prod]) 0 eq_refl).
  vm_compute. split; reflexivity.
Defined.

Lemma Part000_processImage_notifies_witness :
  Part000.processImage Examples.flaky Examples.post_ok Examples.old_cfg Examples.old_flow
    "registry/app" "latest" 0 =
  Eff.mkRun None 0
    [Part000.CallPost "s" "#deploy"
       {| Part000.IsSuccess := true; Part000.IsPrNotify := true;
          Part000.AppName := "app"; Part000.Detail_Image := "registry/app";
          Part000.Version := "latest"; Part000.PrURL := "" |} None].
Proof.
  rewrite (Part000_processImage_notifies Examples.flaky Examples.post_ok Examples.old_cfg
             Examples.old_flow "registry/app" "latest" Examples.old_app 0 eq_refl).
  vm_compute. reflexivity.
Defined.

Lemma Part000_commit_accepted_witness :
  let run := Part000.processManifest Examples.old_cfg (Examples.flaky "g") Examples.old_app
               "v1.2.3" (Examples.old_manifest "prod") [] 2 in
  let r := Spec.committed_release Examples.old_cfg Examples.old_app "v1.2.3"
             (Examples.old_manifest "prod") in
  In (Part000.CallCommit r None) (Eff.trace run) /\
  exists before res,
    Eff.trace run =
      before ++ Part000.CallCommit r None :: Part000.CallCreatePR r res ::
      match res with
      | inl _ => []
      | inr e => [Part000.Printf "Error Submitting PR: %s" [Eff.AErr e]]
      end /\
    Spec.refused_commits before <= 2 /\
    Spec.commit_attempts before = Spec.refused_commits before /\
    Eff.result run =
      match res with
      | inl u => [] ++ [ {| Part000.env := "prod"; Part000.url := u; Part000.err := None |} ]
      | inr _ => []
      end.
Proof.
  cbv zeta.
  assert (Hin : In (Part000.CallCommit
                      (Spec.committed_release Examples.old_cfg Examples.old_app "v1.2.3"
                         (Examples.old_manifest "prod")) None)
                   (Eff.trace (Part000.processManifest Examples.old_cfg (Examples.flaky "g")
                                 Examples.old_app "v1.2.3" (Examples.old_manifest "prod")
                                 [] 2)))
    by in_trace.
  split; [exact Hin|].
  exact (Part000_commit_accepted Examples.old_cfg (Examples.flaky "g") Examples.old_app
           "v1.2.3" (Examples.old_manifest "prod") [] 2 Hin eq_refl).
Defined.
